(** * trenches.ai crypto MCP server: price resolution and wallet trade analysis

    A shallow embedding of the price server ([getCryptoPrice] and the
    [getMultipleCryptoPrices] tool) and of the wallet analyzer of
    [crypto-ts-mcp-server/src/wallet-analyzer.ts] ([analyzeWallet],
    [extractSwapInfo], [generateEndOfDayReport]), with the properties the
    design document states about them.

    Conventions of the embedding.
    - A JavaScript [number] is read as the rational it denotes, or [NaN];
      arithmetic is exact.  IEEE-754 rounding, the infinities and the sign of
      zero are not represented.
    - A JavaScript string is a [string] of 8-bit code units; the case maps and
      [trim] act on the ASCII range.
    - [console.log] / [console.error] output is not part of the model. *)

From Stdlib Require Import QArith Qround Qabs Qpower Ascii DecimalString.
From stdpp Require Import gmap strings list.

Local Open Scope Z_scope.

(* ===================================================================== *)
(** * The JavaScript runtime the program relies on *)
(* ===================================================================== *)

(** ** Strings *)
Module JsString.

Definition code (c : ascii) : N := N_of_ascii c.

Definition inRange (lo hi : N) (c : ascii) : bool :=
  ((lo <=? code c) && (code c <=? hi))%N.

Definition lowerChar (c : ascii) : ascii :=
  if inRange 65 90 c then ascii_of_N (code c + 32) else c.

Definition upperChar (c : ascii) : ascii :=
  if inRange 97 122 c then ascii_of_N (code c - 32) else c.

Fixpoint mapChars (f : ascii → ascii) (s : string) : string :=
  match s with
  | EmptyString => EmptyString
  | String c s' => String (f c) (mapChars f s')
  end.

(** [String.prototype.toLowerCase] and [toUpperCase]. *)
Definition toLowerCase : string → string := mapChars lowerChar.
Definition toUpperCase : string → string := mapChars upperChar.

(** TAB, LF, VT, FF, CR and SPACE. *)
Definition isWhiteSpace (c : ascii) : bool :=
  inRange 9 13 c || (code c =? 32)%N.

Definition isEmpty (s : string) : bool :=
  match s with EmptyString => true | String _ _ => false end.

Fixpoint trimStart (s : string) : string :=
  match s with
  | EmptyString => EmptyString
  | String c s' => if isWhiteSpace c then trimStart s' else s
  end.

Fixpoint trimEnd (s : string) : string :=
  match s with
  | EmptyString => EmptyString
  | String c s' =>
      let t := trimEnd s' in
      if isWhiteSpace c && isEmpty t then EmptyString else String c t
  end.

(** [String.prototype.trim]. *)
Definition trim (s : string) : string := trimEnd (trimStart s).

(** [s.charAt(0)] and [s.slice(1)]. *)
Definition charAt0 (s : string) : string :=
  match s with EmptyString => EmptyString | String c _ => String c EmptyString end.
Definition slice1 (s : string) : string :=
  match s with EmptyString => EmptyString | String _ s' => s' end.

(** [s.replace(/c/g, t)] for a one-character pattern. *)
Fixpoint replaceAll (c : ascii) (t : string) (s : string) : string :=
  match s with
  | EmptyString => EmptyString
  | String d s' =>
      if Ascii.eqb c d then t +:+ replaceAll c t s' else String d (replaceAll c t s')
  end.

(** [s.replace(c, t)] for a one-character string pattern: first match only. *)
Fixpoint replaceFirst (c : ascii) (t : string) (s : string) : string :=
  match s with
  | EmptyString => EmptyString
  | String d s' =>
      if Ascii.eqb c d then t +:+ s' else String d (replaceFirst c t s')
  end.

(** [s.includes(c)] for a one-character string. *)
Fixpoint includes (c : ascii) (s : string) : bool :=
  match s with
  | EmptyString => false
  | String d s' => Ascii.eqb c d || includes c s'
  end.

(** [s.split(c)] for a one-character separator; never empty. *)
Fixpoint split (c : ascii) (s : string) : list string :=
  match s with
  | EmptyString => [EmptyString]
  | String d s' =>
      if Ascii.eqb c d then EmptyString :: split c s'
      else match split c s' with
           | h :: t => String d h :: t
           | [] => [String d EmptyString]
           end
  end.

(** [l.join(sep)]. *)
Fixpoint join (sep : string) (l : list string) : string :=
  match l with
  | [] => EmptyString
  | [x] => x
  | x :: rest => x +:+ sep +:+ join sep rest
  end.

Fixpoint take (n : nat) (s : string) : string :=
  match n, s with
  | S n', String c s' => String c (take n' s')
  | _, _ => EmptyString
  end.

Fixpoint drop (n : nat) (s : string) : string :=
  match n, s with
  | S n', String _ s' => drop n' s'
  | _, _ => s
  end.

(** [s.slice(0, n)] and [s.slice(-n)]. *)
Definition sliceFirst (n : nat) (s : string) : string := take n s.
Definition sliceLast (n : nat) (s : string) : string :=
  drop (String.length s - n)%nat s.

Fixpoint repeat (c : ascii) (n : nat) : string :=
  match n with O => EmptyString | S n' => String c (repeat c n') end.

(** Number of occurrences of [c] in [s]. *)
Fixpoint count (c : ascii) (s : string) : nat :=
  match s with
  | EmptyString => O
  | String d s' => ((if Ascii.eqb c d then 1 else 0) + count c s')%nat
  end.

(** [t] occurs in [s]. *)
Definition contains (s t : string) : Prop :=
  ∃ pre post : string, s = pre +:+ t +:+ post.

End JsString.

(** ** Numbers *)
Module JsNumber.

Inductive number : Type :=
| NaN
| Num (q : Q).

Definition ofZ (z : Z) : number := Num (inject_Z z).
Definition ofNat (n : nat) : number := ofZ (Z.of_nat n).
Definition zero : number := ofZ 0.

Definition isZeroQ (q : Q) : bool := (Qnum q =? 0).
Definition ltQ (a b : Q) : bool := negb (Qle_bool b a).

(** [x + y], [x * y], [x / y]. *)
Definition add (x y : number) : number :=
  match x, y with
  | Num a, Num b => Num (Qred (a + b))
  | _, _ => NaN
  end.

Definition mul (x y : number) : number :=
  match x, y with
  | Num a, Num b => Num (Qred (a * b))
  | _, _ => NaN
  end.

(** The program only divides by powers of ten and by a positive count; a
    zero divisor, which JavaScript answers with an infinity or [NaN], is
    mapped to [NaN]. *)
Definition div (x y : number) : number :=
  match x, y with
  | Num a, Num b => if isZeroQ b then NaN else Num (Qred (a / b))
  | _, _ => NaN
  end.

(** [x > y]: false as soon as one side is [NaN]. *)
Definition gt (x y : number) : bool :=
  match x, y with
  | Num a, Num b => ltQ b a
  | _, _ => false
  end.

(** Truthiness of a number: neither [0] nor [NaN]. *)
Definition truthy (x : number) : bool :=
  match x with
  | NaN => false
  | Num q => negb (isZeroQ q)
  end.

(** [Math.pow(10, d)] for an integer [d]. *)
Definition pow10 (d : Z) : number := Num (Qred (Qpower (10 # 1) d)).

(** *** Reading and printing decimal numerals *)

Definition digitVal (c : ascii) : option Z :=
  if JsString.inRange 48 57 c then Some (Z.of_N (JsString.code c) - 48) else None.

(** The longest run of decimal digits at the head of [s]: its value (on top
    of [acc]), its length (on top of [n]) and the rest of [s]. *)
Fixpoint digits (s : string) (acc : Z) (n : nat) : Z * nat * string :=
  match s with
  | EmptyString => (acc, n, s)
  | String c s' =>
      match digitVal c with
      | Some d => digits s' (10 * acc + d) (S n)
      | None => (acc, n, s)
      end
  end.

(** An optional sign: [true] for a minus. *)
Definition sign (s : string) : bool * string :=
  match s with
  | String "-" s' => (true, s')
  | String "+" s' => (false, s')
  | _ => (false, s)
  end.

(** [e] or [E], an optional sign and at least one digit; [0] otherwise. *)
Definition exponentPart (s : string) : Z :=
  match s with
  | String c s' =>
      if Ascii.eqb c "e" || Ascii.eqb c "E" then
        let (neg, s'') := sign s' in
        let '(v, n, _) := digits s'' 0 0%nat in
        if (n =? 0)%nat then 0 else if neg then - v else v
      else 0
  | EmptyString => 0
  end.

(** [parseFloat(s)]: leading white space is skipped and the longest prefix
    that is a decimal literal is read; [NaN] when there is none.  The
    literal [Infinity] is not represented and reads as [NaN]. *)
Definition parseFloat (s : string) : number :=
  let (neg, s1) := sign (JsString.trimStart s) in
  let '(ip, ni, s2) := digits s1 0 0%nat in
  let '(fp, nf, s3) :=
    match s2 with
    | String "." s2' => digits s2' 0 0%nat
    | _ => (0, 0%nat, s2)
    end in
  if (ni + nf =? 0)%nat then NaN
  else
    let m := (inject_Z ip + inject_Z fp / Qpower (10 # 1) (Z.of_nat nf))%Q in
    let v := (m * Qpower (10 # 1) (exponentPart s3))%Q in
    Num (Qred (if neg then - v else v)).

(** Decimal digits of a natural number. *)
Definition showZ (z : Z) : string := NilZero.string_of_uint (N.to_uint (Z.to_N z)).

Definition padStart (n : nat) (s : string) : string :=
  JsString.repeat "0" (n - String.length s) +:+ s.

Fixpoint stripTrailingZeros (s : string) : string :=
  match s with
  | EmptyString => EmptyString
  | String c s' =>
      let t := stripTrailingZeros s' in
      if Ascii.eqb c "0" && JsString.isEmpty t then EmptyString else String c t
  end.

(** Round half up, for a non-negative rational. *)
Definition roundHalfUp (q : Q) : Z := Qfloor (q + (1 # 2)).

(** The least [j <= fuel] with [q * 10^j >= 1], for [0 < q < 1]. *)
Fixpoint leadingZeros (fuel : nat) (q : Q) : nat :=
  match fuel with
  | O => O
  | S fuel' => if Qle_bool 1 q then O else S (leadingZeros fuel' (q * (10 # 1)))
  end.

(** The decimal exponent [n] of [q > 0]: [10^(n-1) <= q < 10^n]. *)
Definition decimalExponent (q : Q) : Z :=
  if Qle_bool 1 q then Z.of_nat (String.length (showZ (Qfloor q)))
  else 1 - Z.of_nat (leadingZeros (S (Z.to_nat (Z.log2 (Zpos (Qden q))))) q).

(** [Number::toString] of a positive number from its digit string [ds]
    ([k] digits, no trailing zero) and decimal exponent [n]. *)
Definition layout (ds : string) (n : Z) : string :=
  let k := Z.of_nat (String.length ds) in
  if (k <=? n) && (n <=? 21) then
    ds +:+ JsString.repeat "0" (Z.to_nat (n - k))
  else if (0 <? n) && (n <=? 21) then
    JsString.take (Z.to_nat n) ds +:+ "." +:+ JsString.drop (Z.to_nat n) ds
  else if (-6 <? n) && (n <=? 0) then
    "0." +:+ JsString.repeat "0" (Z.to_nat (- n)) +:+ ds
  else
    let e := n - 1 in
    let es := (if e <? 0 then "-" else "+") +:+ showZ (Z.abs e) in
    if (k =? 1) then ds +:+ "e" +:+ es
    else JsString.take 1 ds +:+ "." +:+ JsString.drop 1 ds +:+ "e" +:+ es.

(** [String(x)].  The digits are those of [x] rounded to 17 significant
    places, which is [x] itself for every decimal of at most 17 digits. *)
Definition showPositive (q : Q) : string :=
  let n := decimalExponent q in
  let v := roundHalfUp (q * Qpower (10 # 1) (17 - n)) in
  let (v, n) := if (10 ^ 17 <=? v) then (v / 10, n + 1) else (v, n) in
  layout (stripTrailingZeros (showZ v)) n.

Definition toString (x : number) : string :=
  match x with
  | NaN => "NaN"
  | Num q =>
      if isZeroQ q then "0"
      else if ltQ q 0 then "-" +:+ showPositive (- q)
      else showPositive q
  end.

(** [x.toFixed(f)]. *)
Definition toFixed (f : nat) (x : number) : string :=
  match x with
  | NaN => "NaN"
  | Num q =>
      if Qle_bool (inject_Z (10 ^ 21)) (Qabs q) then toString x
      else
        let n := roundHalfUp (Qabs q * inject_Z (10 ^ Z.of_nat f)) in
        let m := padStart (S f) (showZ n) in
        let k := (String.length m - f)%nat in
        (if ltQ q 0 then "-" else "") +:+
        JsString.take k m +:+
        (if (f =? 0)%nat then "" else "." +:+ JsString.drop k m)
  end.

End JsNumber.
Export JsNumber.


(** The double quote and the line feed. *)
Definition dquote : string := String (ascii_of_N 34) EmptyString.
Definition newline : string := String (ascii_of_N 10) EmptyString.

(* ===================================================================== *)
(** * The price server: cache, three providers, batch tool *)
(* ===================================================================== *)

Module PriceServer.

(** [interface CryptoPrice]. *)
Record CryptoPrice : Type := {
  name : string;
  symbol : string;
  price : number;
  currency : string;
  source : string
}.

(** One slot of [priceCache]: [{data, timestamp}]. *)
Record CacheEntry : Type := {
  data : CryptoPrice;
  timestamp : Z
}.

Definition CACHE_TTL : Z := 60000.

Definition POPULAR_CRYPTOS : list string :=
  ["bitcoin"; "ethereum"; "solana"; "cardano";
   "dogecoin"; "xrp"; "polkadot"; "shiba-inu";
   "bnb"; "tron"; "litecoin"; "polygon"; "avalanche-2"].

(** What [getCryptoPrice] resolves to: a quote or [{error}]. *)
Inductive Resolution : Type :=
| Quote (q : CryptoPrice)
| Failure (error : string).

(** ** The outside world *)

Inductive Provider : Type := CoinGecko | CoinCap | CryptoCompare.

(** A price in a response body is a JSON number or a JSON string. *)
Inductive PriceField : Type :=
| PNum (x : number)
| PStr (s : string).

(** The fields of a response body that the program reads: the price at the
    provider's path ([data[id].usd], [data.data.priceUsd], [data.USD]; absent
    when a link of the path is missing) and, for CoinCap, [data.data.name]
    and [data.data.symbol]. *)
Record Payload : Type := {
  priceField : option PriceField;
  assetName : string;
  assetSymbol : string
}.

(** The outcome of [await axios.get(...)]: the promise rejects (no answer,
    time-out after 5000 ms, status outside 2xx) or delivers a response. *)
Inductive HttpResult : Type :=
| Rejected
| Fulfilled (status : Z) (payload : Payload).

(** An outcome and the milliseconds that went by while awaiting it. *)
Record Reply : Type := {
  result : HttpResult;
  latency : Z
}.

Record Request : Type := {
  provider : Provider;
  query : string
}.

(** The module-level [priceCache], the wall clock read by [Date.now()], and
    the requests issued so far, oldest first.  [priceCache] is a plain
    object; a key it only inherits has no numeric [timestamp], fails the age
    test and so behaves as a key that is absent. *)
Record World : Type := {
  priceCache : gmap string CacheEntry;
  clock : Z;
  requests : list Request
}.

(** ** A state monad over the world *)

Definition M (A : Type) : Type := World → A * World.

Definition ret {A : Type} (a : A) : M A := fun w => (a, w).

Definition bind {A B : Type} (c : M A) (k : A → M B) : M B :=
  fun w => let (a, w') := c w in k a w'.

Notation "'let!' x ':=' c 'in' k" := (bind c (fun x => k))
  (at level 10, x name, c at level 100, k at level 200).

(** [Date.now()]. *)
Definition dateNow : M Z := fun w => (clock w, w).

Definition readCache (id : string) : M (option CacheEntry) :=
  fun w => (priceCache w !! id, w).

(** [priceCache[id] = entry]. *)
Definition writeCache (id : string) (entry : CacheEntry) : M unit :=
  fun w => (tt, {| priceCache := <[id := entry]> (priceCache w);
                   clock := clock w;
                   requests := requests w |}).

Section Resolver.

(** The network: what a provider answers to a query sent at a given instant. *)
Variable network : Provider → string → Z → Reply.

(** [await axios.get(...)] against provider [p]. *)
Definition axiosGet (p : Provider) (q : string) : M HttpResult :=
  fun w =>
    let r := network p q (clock w) in
    (result r, {| priceCache := priceCache w;
                  clock := clock w + latency r;
                  requests := requests w ++ [{| provider := p; query := q |}] |}).

(** Truthiness of a present price field. *)
Definition truthyField (f : PriceField) : bool :=
  match f with
  | PNum x => truthy x
  | PStr s => negb (JsString.isEmpty s)
  end.

(** [parseFloat(v)]: the argument is first converted to a string. *)
Definition parseFloatField (f : PriceField) : number :=
  match f with
  | PNum x => parseFloat (toString x)
  | PStr s => parseFloat s
  end.

(** [parseFloat(parseFloat(v).toFixed(2))]. *)
Definition roundedPrice (f : PriceField) : number :=
  parseFloat (toFixed 2 (parseFloatField f)).

(** [status === 200 && <price field>]: the price when both hold. *)
Definition validPrice (r : HttpResult) : option PriceField :=
  match r with
  | Rejected => None
  | Fulfilled status body =>
      if status =? 200 then
        match priceField body with
        | Some f => if truthyField f then Some f else None
        | None => None
        end
      else None
  end.

(** [id.charAt(0).toUpperCase() + id.slice(1).replace(/-/g, ' ')]. *)
Definition titleOf (id : string) : string :=
  JsString.toUpperCase (JsString.charAt0 id) +:+
  JsString.replaceAll "-" " " (JsString.slice1 id).

(** Name and symbol of a CoinGecko quote. *)
Definition nameAndSymbol (id : string) : string * string :=
  if String.eqb id "bitcoin" then ("Bitcoin", "BTC")
  else if String.eqb id "ethereum" then ("Ethereum", "ETH")
  else if String.eqb id "solana" then ("Solana", "SOL")
  else if String.eqb id "cardano" then ("Cardano", "ADA")
  else if String.eqb id "dogecoin" then ("Dogecoin", "DOGE")
  else if String.eqb id "xrp" then ("XRP", "XRP")
  else if String.eqb id "polkadot" then ("Polkadot", "DOT")
  else if String.eqb id "litecoin" then ("Litecoin", "LTC")
  else (titleOf id, JsString.replaceAll "-" "" (JsString.toUpperCase id)).

Definition coinGeckoQuote (id : string) (f : PriceField) : CryptoPrice :=
  let (n, s) := nameAndSymbol id in
  {| name := n; symbol := s; price := roundedPrice f;
     currency := "USD"; source := "coingecko-api" |}.

Definition coinCapQuote (body : Payload) (f : PriceField) : CryptoPrice :=
  {| name := assetName body; symbol := assetSymbol body; price := roundedPrice f;
     currency := "USD"; source := "coincap-api" |}.

(** [id.includes('-') ? id.split('-')[0].toUpperCase() : id.toUpperCase()]. *)
Definition symbolGuess (id : string) : string :=
  if JsString.includes "-" id
  then JsString.toUpperCase (hd EmptyString (JsString.split "-" id))
  else JsString.toUpperCase id.

Definition cryptoCompareQuote (id : string) (f : PriceField) : CryptoPrice :=
  {| name := titleOf id; symbol := symbolGuess id; price := roundedPrice f;
     currency := "USD"; source := "cryptocompare-api" |}.

Definition payloadOf (r : HttpResult) : Payload :=
  match r with
  | Fulfilled _ body => body
  | Rejected => {| priceField := None; assetName := ""; assetSymbol := "" |}
  end.

(** The error object returned when no provider answered. *)
Definition notFound (cryptoId : string) : string :=
  "Could not get price for " +:+ dquote +:+ cryptoId +:+ dquote +:+
  " from any of the APIs. Try one of these: " +:+
  JsString.join ", " (take 5 POPULAR_CRYPTOS) +:+ "...".

(** [priceCache[id] && (Date.now() - priceCache[id].timestamp) < CACHE_TTL]:
    the cached quote when the test passes. *)
Definition cacheHit (slot : option CacheEntry) (now : Z) : option CryptoPrice :=
  match slot with
  | Some e => if now - timestamp e <? CACHE_TTL then Some (data e) else None
  | None => None
  end.

(** [cryptoId.toLowerCase().trim()]. *)
Definition normalizeId (cryptoId : string) : string :=
  JsString.trim (JsString.toLowerCase cryptoId).

(** Store a fresh quote under [id] with the current time, and return it. *)
Definition remember (id : string) (q : CryptoPrice) : M Resolution :=
  let! now := dateNow in
  let! _ := writeCache id {| data := q; timestamp := now |} in
  ret (Quote q).

(** [async function getCryptoPrice(cryptoId)].  A [catch] block is entered
    when the request rejects or when the [else] branch throws on an invalid
    response; the third [try] has no [else] and falls through. *)
Definition getCryptoPrice (cryptoId : string) : M Resolution :=
  let id := normalizeId cryptoId in
  let! slot := readCache id in
  let! now := dateNow in
  match cacheHit slot now with
  | Some q => ret (Quote q)
  | None =>
      let! r1 := axiosGet CoinGecko id in
      match validPrice r1 with
      | Some f => remember id (coinGeckoQuote id f)
      | None =>
          let! r2 := axiosGet CoinCap id in
          match validPrice r2 with
          | Some f => remember id (coinCapQuote (payloadOf r2) f)
          | None =>
              let! r3 := axiosGet CryptoCompare (symbolGuess id) in
              match validPrice r3 with
              | Some f => remember id (cryptoCompareQuote id f)
              | None => ret (Failure (notFound cryptoId))
              end
          end
      end
  end.

(** The text line of one result in the batch tool. *)
Definition formatQuote (q : CryptoPrice) : string :=
  name q +:+ " (" +:+ symbol q +:+ "): $" +:+ toString (price q) +:+ " " +:+
  currency q +:+ " [Source: " +:+ source q +:+ "]".

Definition resultLine (cryptoId : string) (r : Resolution) : string :=
  match r with
  | Failure error => cryptoId +:+ ": " +:+ error
  | Quote q => formatQuote q
  end.

(** The [for (const cryptoId of ids)] loop of the batch tool. *)
Fixpoint resolveEach (ids : list string) : M (list string) :=
  match ids with
  | [] => ret []
  | cryptoId :: rest =>
      let! r := getCryptoPrice cryptoId in
      let! lines := resolveEach rest in
      ret (resultLine cryptoId r :: lines)
  end.

(** [cryptoIds.split(',').map(id => id.trim())]. *)
Definition splitIds (cryptoIds : string) : list string :=
  map JsString.trim (JsString.split "," cryptoIds).

(** The [getMultipleCryptoPrices] tool: the text of its single content item. *)
Definition getMultipleCryptoPrices (cryptoIds : string) : M string :=
  let! lines := resolveEach (splitIds cryptoIds) in
  ret (JsString.join newline lines).

(** What a tool handler returns: the text of its single content item and
    its [isError] flag, which reads as [false] when it is left out. *)
Record ToolResult : Type := {
  text : string;
  isError : bool
}.

(** The handler of the [getCryptoPrice] tool. *)
Definition getCryptoPriceTool (cryptoId : string) : M ToolResult :=
  let! r := getCryptoPrice cryptoId in
  ret match r with
      | Failure error => {| text := error; isError := true |}
      | Quote q => {| text := formatQuote q; isError := false |}
      end.

(** The read handler of the [cryptoPrice] resource: the text of its single
    content item. *)
Definition cryptoPriceResource (cryptoId : string) : M string :=
  let! r := getCryptoPrice cryptoId in
  ret match r with
      | Failure error => error
      | Quote q => formatQuote q
      end.

End Resolver.

(** ** Well-formed quotes *)

(** The three values the program writes into [source]. *)
Definition SOURCES : list string :=
  ["coingecko-api"; "coincap-api"; "cryptocompare-api"].

(** A quote in US dollars that names the provider it came from. *)
Definition wellFormed (q : CryptoPrice) : Prop :=
  currency q = "USD" ∧ source q ∈ SOURCES.

Definition cacheWellFormed (cache : gmap string CacheEntry) : Prop :=
  ∀ (key : string) (e : CacheEntry), cache !! key = Some e → wellFormed (data e).

(** The three requests of a resolution that misses the cache, in order. *)
Definition providerChain (id : string) : list Request :=
  [ {| provider := CoinGecko; query := id |};
    {| provider := CoinCap; query := id |};
    {| provider := CryptoCompare; query := symbolGuess id |} ].

End PriceServer.

(* ===================================================================== *)
(** * The wallet analyzer: swap extraction, statistics, report *)
(* ===================================================================== *)

Module WalletAnalyzer.

(** [interface TradeInfo]. *)
Record TradeInfo : Type := {
  timestamp : number;
  type : string;
  tokenIn : option string;
  tokenOut : option string;
  amountIn : option number;
  amountOut : option number;
  profitLoss : option number;
  signature : string;
  source : option string
}.

(** [interface WalletStats]. *)
Record WalletStats : Type := {
  totalTrades : nat;
  profitableTrades : nat;
  totalProfitLoss : number;
  averageTradeSize : number;
  largestTrade : number;
  largestSOLTrade : number;
  successRate : number;
  tradeHistory : list TradeInfo
}.

(** ** Transactions of the feed ([tx: any]), typed by the fields read *)

(** [transfer.rawTokenAmount]: [{decimals, tokenAmount}]. *)
Record RawTokenAmount : Type := {
  decimals : option Z;
  rawAmount : option string
}.

(** [transfer.tokenAmount] by its [typeof]. *)
Inductive AmountField : Type :=
| AmountAbsent
| AmountNumber (x : number)
| AmountString (s : string).

(** An element of [tx.tokenTransfers]. *)
Record TokenTransfer : Type := {
  fromUserAccount : option string;
  toUserAccount : option string;
  mint : string;
  rawTokenAmount : option RawTokenAmount;
  tokenAmount : AmountField
}.

(** An element of [tx.nativeTransfers]. *)
Module Native.
Record Transfer : Type := {
  fromUserAccount : option string;
  toUserAccount : option string;
  amount : number
}.
End Native.

(** An element of [tx.accountData]. *)
Record AccountData : Type := {
  account : string;
  nativeBalanceChange : number
}.

(** A transaction.  A list that is missing behaves in every test of the
    program as the empty list, and is represented by it. *)
Module Tx.
Record RawTransaction : Type := {
  timestamp : number;
  type : string;
  signature : string;
  source : option string;
  tokenTransfers : list TokenTransfer;
  nativeTransfers : list Native.Transfer;
  accountData : list AccountData
}.
End Tx.

Definition WRAPPED_SOL : string := "So11111111111111111111111111111111111111112".
Definition CLAMP_EXEMPT_MINT : string := "GiwsvnWCAGs37hQAcuCC3GB4PxuUtMe7r4jc2E9Gpump".
Definition LAMPORTS_PER_SOL : number := ofZ 1000000000.

(** [account === walletAddress]. *)
Definition isWallet (walletAddress : string) (acc : option string) : bool :=
  match acc with
  | Some a => String.eqb a walletAddress
  | None => false
  end.

(** [s || d] on strings. *)
Definition orElse (s : option string) (d : string) : string :=
  match s with
  | Some s' => if JsString.isEmpty s' then d else s'
  | None => d
  end.

(** [decimals || 6]. *)
Definition decimalsOr6 (d : option Z) : Z :=
  match d with
  | Some d' => if d' =? 0 then 6 else d'
  | None => 6
  end.

(** ** [extractSwapInfo] *)

(** The amount of the sold transfer, [amountIn] of the [tokensSent] branch. *)
Definition soldAmount (t : TokenTransfer) : number :=
  match rawTokenAmount t with
  | Some r =>
      div (parseFloat (orElse (rawAmount r) "0")) (pow10 (decimalsOr6 (decimals r)))
  | None =>
      match tokenAmount t with
      | AmountNumber x => x
      | AmountString s => parseFloat s
      | AmountAbsent => zero
      end
  end.

(** [boughtTransfer.rawTokenAmount?.tokenAmount ||
     boughtTransfer.tokenAmount.toString().replace('.', '')];
    [None] when [tokenAmount] is missing and [toString] raises a TypeError. *)
Definition boughtRawAmount (t : TokenTransfer) : option string :=
  let unscaled :=
    match tokenAmount t with
    | AmountNumber x => Some (JsString.replaceFirst "." "" (toString x))
    | AmountString s => Some (JsString.replaceFirst "." "" s)
    | AmountAbsent => None
    end in
  match rawTokenAmount t with
  | Some r =>
      match rawAmount r with
      | Some s => if JsString.isEmpty s then unscaled else Some s
      | None => unscaled
      end
  | None => unscaled
  end.

(** [boughtTransfer.rawTokenAmount?.decimals || 6]. *)
Definition boughtDecimals (t : TokenTransfer) : Z :=
  decimalsOr6 (match rawTokenAmount t with Some r => decimals r | None => None end).

(** The "sanity check" on a bought amount. *)
Definition clamp (mintAddress : string) (a : number) : number :=
  if gt a (ofZ 1000000) && negb (String.eqb mintAddress CLAMP_EXEMPT_MINT)
  then div a (ofZ 1000000)
  else a.

(** The amount of the bought transfer, before the sanity check. *)
Definition boughtScaled (t : TokenTransfer) : option number :=
  match boughtRawAmount t with
  | Some raw => Some (div (parseFloat raw) (pow10 (boughtDecimals t)))
  | None => None
  end.

Definition boughtAmount (t : TokenTransfer) : option number :=
  match boughtScaled t with
  | Some a => Some (clamp (mint t) a)
  | None => None
  end.

(** The profit/loss branches, given the wallet's entry of [tx.accountData]. *)
Definition profitHeuristic (d : AccountData) (tIn tOut : option string) : number :=
  if gt (nativeBalanceChange d) zero then div (nativeBalanceChange d) LAMPORTS_PER_SOL
  else if bool_decide (tOut = Some WRAPPED_SOL) && negb (bool_decide (tIn = Some WRAPPED_SOL))
  then Num (1 # 1000)
  else Num (- 1 # 1000).

(** [tx.accountData.find(data => data.account === walletAddress)]. *)
Definition walletAccountData (walletAddress : string) (l : list AccountData) : option AccountData :=
  List.find (fun d => String.eqb (account d) walletAddress) l.

(** [transfers.reduce((sum, transfer) => sum + transfer.amount, 0)]. *)
Definition sumAmounts (l : list Native.Transfer) : number :=
  fold_left (fun sum t => add sum (Native.amount t)) l zero.

Definition tokensSent (walletAddress : string) (l : list TokenTransfer) : list TokenTransfer :=
  List.filter (fun t => isWallet walletAddress (fromUserAccount t)) l.

Definition tokensReceived (walletAddress : string) (l : list TokenTransfer) : list TokenTransfer :=
  List.filter (fun t => isWallet walletAddress (toUserAccount t)) l.

Definition solSent (walletAddress : string) (l : list Native.Transfer) : list Native.Transfer :=
  List.filter (fun t => isWallet walletAddress (Native.fromUserAccount t)) l.

Definition solReceived (walletAddress : string) (l : list Native.Transfer) : list Native.Transfer :=
  List.filter (fun t => isWallet walletAddress (Native.toUserAccount t)) l.

(** The branch taken when [tx.tokenTransfers] is not empty.  [None] is the
    [catch] block, reached when the bought amount raises. *)
Definition fromTokenTransfers (tx : Tx.RawTransaction) (walletAddress : string) : option TradeInfo :=
  let sold := head (tokensSent walletAddress (Tx.tokenTransfers tx)) in
  let bought := head (tokensReceived walletAddress (Tx.tokenTransfers tx)) in
  let tIn := option_map mint sold in
  let aIn := option_map soldAmount sold in
  let tOut := option_map mint bought in
  let finish (aOut : option number) : option TradeInfo :=
    Some {| timestamp := Tx.timestamp tx;
            type := "SWAP";
            tokenIn := tIn;
            tokenOut := tOut;
            amountIn := aIn;
            amountOut := aOut;
            profitLoss :=
              option_map (fun d => profitHeuristic d tIn tOut)
                         (walletAccountData walletAddress (Tx.accountData tx));
            signature := Tx.signature tx;
            source := Some (orElse (Tx.source tx) "Unknown") |} in
  match bought with
  | Some b =>
      match boughtAmount b with
      | Some a => finish (Some a)
      | None => None
      end
  | None => finish None
  end.

(** The fallback on [tx.nativeTransfers]. *)
Definition fromNativeTransfers (tx : Tx.RawTransaction) (walletAddress : string) : option TradeInfo :=
  let received := solReceived walletAddress (Tx.nativeTransfers tx) in
  let sent := solSent walletAddress (Tx.nativeTransfers tx) in
  match sent, received with
  | _ :: _, _ :: _ =>
      Some {| timestamp := Tx.timestamp tx;
              type := "SWAP";
              tokenIn := Some "SOL";
              tokenOut := Some "SOL";
              amountIn := Some (div (sumAmounts sent) LAMPORTS_PER_SOL);
              amountOut := Some (div (sumAmounts received) LAMPORTS_PER_SOL);
              profitLoss := None;
              signature := Tx.signature tx;
              source := Some (orElse (Tx.source tx) "Unknown") |}
  | _, _ => None
  end.

(** [private extractSwapInfo(tx, walletAddress): TradeInfo | null]. *)
Definition extractSwapInfo (tx : Tx.RawTransaction) (walletAddress : string) : option TradeInfo :=
  match Tx.tokenTransfers tx with
  | _ :: _ => fromTokenTransfers tx walletAddress
  | [] => fromNativeTransfers tx walletAddress
  end.

(** ** [analyzeWallet] *)

Definition initialStats : WalletStats :=
  {| totalTrades := 0; profitableTrades := 0; totalProfitLoss := zero;
     averageTradeSize := zero; largestTrade := zero; largestSOLTrade := zero;
     successRate := zero; tradeHistory := [] |}.

(** [tradeInfo.profitLoss && tradeInfo.profitLoss > 0]. *)
Definition isProfitable (t : TradeInfo) : bool :=
  match profitLoss t with
  | Some x => truthy x && gt x zero
  | None => false
  end.

(** [tradeInfo.amountIn && tradeInfo.amountIn > bound]. *)
Definition amountInExceeds (t : TradeInfo) (bound : number) : bool :=
  match amountIn t with
  | Some a => truthy a && gt a bound
  | None => false
  end.

(** [tradeInfo.tokenIn === 'So111...112' && tradeInfo.amountIn]. *)
Definition isSolTrade (t : TradeInfo) : bool :=
  bool_decide (tokenIn t = Some WRAPPED_SOL) &&
  match amountIn t with Some a => truthy a | None => false end.

Definition amountInOr (t : TradeInfo) (d : number) : number :=
  match amountIn t with Some a => a | None => d end.

Definition profitLossOr (t : TradeInfo) (d : number) : number :=
  match profitLoss t with Some x => x | None => d end.

(** The body of [if (tradeInfo) { ... }]. *)
Definition record (stats : WalletStats) (t : TradeInfo) : WalletStats :=
  let profitable := isProfitable t in
  {| tradeHistory := tradeHistory stats ++ [t];
     totalTrades := S (totalTrades stats);
     profitableTrades :=
       if profitable then S (profitableTrades stats) else profitableTrades stats;
     totalProfitLoss :=
       if profitable then add (totalProfitLoss stats) (profitLossOr t NaN)
       else totalProfitLoss stats;
     largestSOLTrade :=
       if isSolTrade t && gt (amountInOr t NaN) (largestSOLTrade stats)
       then amountInOr t NaN else largestSOLTrade stats;
     largestTrade :=
       if amountInExceeds t (largestTrade stats)
       then amountInOr t NaN else largestTrade stats;
     averageTradeSize := averageTradeSize stats;
     successRate := successRate stats |}.

(** The body of [for (const tx of transactions) { ... }]. *)
Definition step (walletAddress : string) (stats : WalletStats) (tx : Tx.RawTransaction) : WalletStats :=
  if String.eqb (Tx.type tx) "SWAP" then
    match extractSwapInfo tx walletAddress with
    | Some t => record stats t
    | None => stats
    end
  else stats.

(** "Calculate final stats". *)
Definition finalize (stats : WalletStats) : WalletStats :=
  if (0 <? totalTrades stats)%nat then
    {| tradeHistory := tradeHistory stats;
       totalTrades := totalTrades stats;
       profitableTrades := profitableTrades stats;
       totalProfitLoss := totalProfitLoss stats;
       largestSOLTrade := largestSOLTrade stats;
       largestTrade := largestTrade stats;
       successRate :=
         mul (div (ofNat (profitableTrades stats)) (ofNat (totalTrades stats))) (ofZ 100);
       averageTradeSize := div (totalProfitLoss stats) (ofNat (totalTrades stats)) |}
  else stats.

(** [analyzeWallet] once the transactions have arrived. *)
Definition analyzeTransactions (walletAddress : string) (transactions : list Tx.RawTransaction) : WalletStats :=
  finalize (fold_left (step walletAddress) transactions initialStats).

(** What the request to the transaction feed comes to: it rejects with a
    message, or delivers [response.data || []]. *)
Inductive Feed : Type :=
| FeedError (message : string)
| FeedData (transactions : list Tx.RawTransaction).

(** A call that returns or throws [new Error(message)]. *)
Inductive Outcome (A : Type) : Type :=
| Returned (a : A)
| Thrown (message : string).
Arguments Returned {A} a.
Arguments Thrown {A} message.

(** [async analyzeWallet(walletAddress)] against the feed's answer. *)
Definition analyzeWallet (feed : Feed) (walletAddress : string) : Outcome WalletStats :=
  match feed with
  | FeedData transactions => Returned (analyzeTransactions walletAddress transactions)
  | FeedError message => Thrown ("Failed to analyze wallet transactions: " +:+ message)
  end.

(** ** [generateEndOfDayReport] *)

Definition tokenMap : list (string * string) :=
  [("So11111111111111111111111111111111111111112", "SOL");
   ("EPjFWdd5AufqSSqeM2qN1xzybapC8G4wEGGkZwyTDt1v", "USDC");
   ("Es9vMFrzaCERmJfrF4H2FYD4KCoNkY11McCe8BenwNYB", "USDT")].

Definition lookupToken (m : string) : option string :=
  option_map snd (List.find (fun kv => String.eqb (fst kv) m) tokenMap).

(** [formatToken(mint?)]. *)
Definition formatToken (m : option string) : string :=
  match m with
  | None => "Unknown"
  | Some m' =>
      if JsString.isEmpty m' then "Unknown"
      else orElse (lookupToken m')
             (JsString.sliceFirst 4 m' +:+ "..." +:+ JsString.sliceLast 4 m')
  end.

(** [amount?.toFixed(6) || 'Unknown']. *)
Definition formatAmount (a : option number) : string :=
  orElse (option_map (toFixed 6) a) "Unknown".

Section Report.

(** [new Date(ms).toLocaleString()]: depends on the host's locale and time
    zone. *)
Variable toLocaleString : number → string.

(** The text of one trade inside [Recent Trades]. *)
Definition formatTrade (trade : TradeInfo) : string :=
  toLocaleString (mul (timestamp trade) (ofZ 1000)) +:+ newline +:+
  "   " +:+ formatToken (tokenIn trade) +:+ " → " +:+ formatToken (tokenOut trade) +:+ newline +:+
  "   Amount: " +:+ formatAmount (amountIn trade) +:+ " → " +:+ formatAmount (amountOut trade) +:+ newline +:+
  "   Source: " +:+ orElse (source trade) "Unknown" +:+ newline +:+
  "  ".

(** [stats.tradeHistory.slice(0, 5).map(...)]. *)
Definition recentTrades (stats : WalletStats) : list string :=
  map formatTrade (take 5 (tradeHistory stats)).

Definition reportHeader (walletAddress : string) : string :=
  newline +:+
  "=== Solana Wallet Trading Report ===" +:+ newline +:+
  "Wallet: " +:+ walletAddress +:+ newline.

Definition reportFigures (stats : WalletStats) : string :=
  "Total Swaps: " +:+ toString (ofNat (totalTrades stats)) +:+ newline +:+
  "Profitable Trades: " +:+ toString (ofNat (profitableTrades stats)) +:+ newline +:+
  "Success Rate: " +:+ toFixed 2 (successRate stats) +:+ "%" +:+ newline +:+
  "Total P/L: " +:+ toFixed 4 (totalProfitLoss stats) +:+ " SOL" +:+ newline +:+
  "Average Trade Size: " +:+ toFixed 4 (averageTradeSize stats) +:+ " SOL" +:+ newline +:+
  "Largest SOL Trade: " +:+ toFixed 4 (largestSOLTrade stats) +:+ " SOL" +:+ newline.

(** The template literal returned on success. *)
Definition formatReport (stats : WalletStats) (walletAddress : string) : string :=
  reportHeader walletAddress +:+
  reportFigures stats +:+
  newline +:+
  "Recent Trades:" +:+ newline +:+
  JsString.join newline (recentTrades stats) +:+ newline.

(** [async generateEndOfDayReport(walletAddress)]; an [Error] prints as
    [Error: message]. *)
Definition generateEndOfDayReport (feed : Feed) (walletAddress : string) : string :=
  match analyzeWallet feed walletAddress with
  | Returned stats => formatReport stats walletAddress
  | Thrown message =>
      "Error generating report: " +:+ ("Error: " +:+ message) +:+
      ". Try checking only the last few transactions."
  end.

End Report.

(** ** The statistics in the words of the design document *)

(** The records extracted from the swap-tagged transactions, in feed order. *)
Definition extractedTrades (walletAddress : string) (transactions : list Tx.RawTransaction) : list TradeInfo :=
  omap (fun tx => if String.eqb (Tx.type tx) "SWAP"
                  then extractSwapInfo tx walletAddress else None)
       transactions.

(** The profit/loss values that are greater than zero. *)
Definition positiveProfits (trades : list TradeInfo) : list Q :=
  omap (fun t => match profitLoss t with
                 | Some (Num x) => if ltQ 0 x then Some x else None
                 | _ => None
                 end)
       trades.

(** The rational behind an amount that is present and not [NaN]. *)
Definition finite (a : option number) : option Q :=
  match a with
  | Some (Num q) => Some q
  | _ => None
  end.

(** The amounts sold, of the records that carry one. *)
Definition amountsIn (trades : list TradeInfo) : list Q :=
  omap (fun t => finite (amountIn t)) trades.

(** The running maximum [a && a > m ? a : m]. *)
Definition larger (m : number) (a : option number) : number :=
  match a with
  | Some x => if truthy x && gt x m then x else m
  | None => m
  end.

(** The records whose [tokenIn] is the wrapped native token. *)
Definition solTrades (trades : list TradeInfo) : list TradeInfo :=
  List.filter (fun t => bool_decide (tokenIn t = Some WRAPPED_SOL)) trades.

Definition sumQ (l : list Q) : Q := fold_right Qplus 0%Q l.

(** [m] is the largest of the amounts [l]: it bounds them all and is one of
    them; or none of them reaches zero and [m] is zero. *)
Definition largestOf (l : list Q) (m : Q) : Prop :=
  (∀ a, In a l → (a <= m)%Q) ∧
  ((∃ b, In b l ∧ (b == m)%Q) ∨ (m = 0%Q ∧ ∀ a, In a l → (a < 0)%Q)).

(** The transaction [tx] with [transfers] as its token transfers. *)
Definition withTokenTransfers (tx : Tx.RawTransaction) (transfers : list TokenTransfer) : Tx.RawTransaction :=
  {| Tx.timestamp := Tx.timestamp tx;
     Tx.type := Tx.type tx;
     Tx.signature := Tx.signature tx;
     Tx.source := Tx.source tx;
     Tx.tokenTransfers := transfers;
     Tx.nativeTransfers := Tx.nativeTransfers tx;
     Tx.accountData := Tx.accountData tx |}.

End WalletAnalyzer.

(* ===================================================================== *)
(** * An entry of [Recent Trades], as the design words it

    Section 4.6 of the design describes an entry of the list of recent
    trades: a locale-formatted timestamp; token-in → token-out, by a lookup
    table for three well-known tokens, else the first four and the last four
    characters of the mint around three dots; amount-in → amount-out at 6
    decimals, or [Unknown] if absent.  The definitions of this module follow
    that wording; the theorems on the report compare them with
    [WalletAnalyzer.formatTrade], which follows the template literal. *)

Module ReportFormatter.

Import WalletAnalyzer.

(** An amount at 6 decimals, or [Unknown] if absent. *)
Definition renderedAmount (a : option number) : string :=
  match a with
  | Some x => toFixed 6 x
  | None => "Unknown"
  end.

(** The symbol of a well-known token, else the abbreviated mint. *)
Definition renderedToken (m : option string) : string :=
  match m with
  | None => "Unknown"
  | Some m' =>
      if String.eqb m' "" then "Unknown"
      else if String.eqb m' "So11111111111111111111111111111111111111112" then "SOL"
      else if String.eqb m' "EPjFWdd5AufqSSqeM2qN1xzybapC8G4wEGGkZwyTDt1v" then "USDC"
      else if String.eqb m' "Es9vMFrzaCERmJfrF4H2FYD4KCoNkY11McCe8BenwNYB" then "USDT"
      else JsString.take 4 m' +:+ "..." +:+
           JsString.drop (String.length m' - 4) m'
  end.

(** Whether a text is made of the characters of a decimal numeral only:
    digits, a sign, the decimal point and the exponent mark. *)
Definition numeralChar (c : ascii) : bool :=
  JsString.inRange 48 57 c || Ascii.eqb c "-" || Ascii.eqb c "+" ||
  Ascii.eqb c "." || Ascii.eqb c "e".

Fixpoint numeral (s : string) : bool :=
  match s with
  | EmptyString => true
  | String c s' => numeralChar c && numeral s'
  end.

(** The name of the exchange, or [Unknown] if absent or empty. *)
Definition renderedSource (s : option string) : string :=
  match s with
  | Some (String c s') => String c s'
  | _ => "Unknown"
  end.

(** The four lines of an entry and the indentation that follows them. *)
Definition renderedTrade (toLocaleString : number → string) (trade : TradeInfo) : string :=
  toLocaleString (mul (timestamp trade) (ofZ 1000)) +:+ newline +:+
  "   " +:+ renderedToken (tokenIn trade) +:+ " → " +:+
            renderedToken (tokenOut trade) +:+ newline +:+
  "   Amount: " +:+ renderedAmount (amountIn trade) +:+ " → " +:+
                    renderedAmount (amountOut trade) +:+ newline +:+
  "   Source: " +:+ renderedSource (source trade) +:+ newline +:+
  "  ".

End ReportFormatter.

(* ===================================================================== *)
(** * The earlier price server: reading a price off a coin page *)
(* ===================================================================== *)

Module LegacyServer.

(** The fields read from a parsed JSON-LD object: [data["@type"]],
    [data.name], [data.currency], [data.currentExchangeRate?.price] and
    [data.currentExchangeRate?.priceCurrency]. *)
Record JsonLd : Type := {
  atType : option string;
  ldName : string;
  ldCurrency : string;
  ratePrice : option number;
  ratePriceCurrency : option string
}.

Record Price : Type := {
  name : string;
  symbol : string;
  price : number;
  currency : string
}.

(** What [fetchCryptoPrice] resolves to. *)
Inductive Fetched : Type :=
| Found (p : Price)
| NotFound (error : string).

(** The outcome of [await axios.get(url)] and of reading the page: an
    exception, printed as [error], or a response with its status and the
    text contents of the page's JSON-LD [script] elements, in document
    order. *)
Inductive Page : Type :=
| PageRejected (error : string)
| PageFulfilled (status : Z) (scripts : list string).

Section Scraper.

(** [JSON.parse]; [None] when it throws, or when the value parsed has no
    properties to read. *)
Variable jsonParse : string → option JsonLd.

(** [price || 0]. *)
Definition priceOr0 (p : option number) : number :=
  match p with
  | Some x => if truthy x then x else ofZ 0
  | None => ofZ 0
  end.

Definition priceOf (data : JsonLd) : Price :=
  {| name := ldName data;
     symbol := ldCurrency data;
     price := priceOr0 (ratePrice data);
     currency := WalletAnalyzer.orElse (ratePriceCurrency data) "USD" |}.

(** Whether a script is the one looked for. *)
Definition exchangeRate (content : string) : option JsonLd :=
  if JsString.isEmpty content then None
  else match jsonParse content with
       | Some data =>
           if bool_decide (atType data = Some "ExchangeRateSpecification")
           then Some data else None
       | None => None
       end.

(** The [for] loop over the script elements. *)
Fixpoint scan (scripts : list string) : option Price :=
  match scripts with
  | [] => None
  | content :: rest =>
      match exchangeRate content with
      | Some data => Some (priceOf data)
      | None => scan rest
      end
  end.

(** [async function fetchCryptoPrice(cryptoId)] against the page's answer. *)
Definition fetchCryptoPrice (cryptoId : string) (page : Page) : Fetched :=
  match page with
  | PageRejected error =>
      NotFound ("Failed to fetch data for " +:+ cryptoId +:+ ": " +:+ error)
  | PageFulfilled status scripts =>
      if negb (status =? 200) then
        NotFound ("Failed to fetch data for " +:+ cryptoId +:+ ", status code: " +:+
                  toString (ofZ status))
      else match scan scripts with
           | Some p => Found p
           | None => NotFound ("Could not find price data for " +:+ cryptoId)
           end
  end.

End Scraper.

End LegacyServer.

(* ===================================================================== *)
(** * Concrete worlds and transactions used to exercise the statements *)
(* ===================================================================== *)

Module Samples.

Import PriceServer.

(** CoinGecko and CryptoCompare do not answer; CoinCap knows every asset as
    Bitcoin. *)
Definition coinCapOnly : Provider → string → Z → Reply :=
  fun p _ _ =>
    match p with
    | CoinCap =>
        {| result := Fulfilled 200 {| priceField := Some (PStr "64250.4567");
                                      assetName := "Bitcoin";
                                      assetSymbol := "BTC" |};
           latency := 120 |}
    | _ => {| result := Rejected; latency := 5000 |}
    end.

(** No provider answers. *)
Definition nobody : Provider → string → Z → Reply :=
  fun _ _ _ => {| result := Rejected; latency := 5000 |}.

(** CoinGecko knows bitcoin only; the others do not answer. *)
Definition geckoBitcoin : Provider → string → Z → Reply :=
  fun p q _ =>
    match p with
    | CoinGecko =>
        if String.eqb q "bitcoin"
        then {| result := Fulfilled 200 {| priceField := Some (PNum (Num (128501 # 2)));
                                           assetName := ""; assetSymbol := "" |};
                latency := 80 |}
        else {| result := Fulfilled 200 {| priceField := None;
                                           assetName := ""; assetSymbol := "" |};
                latency := 80 |}
    | _ => {| result := Rejected; latency := 5000 |}
    end.

Definition emptyWorld : World :=
  {| priceCache := ∅; clock := 1000; requests := [] |}.

Definition bitcoinQuote : CryptoPrice :=
  {| name := "Bitcoin"; symbol := "BTC"; price := Num (3212523 # 50);
     currency := "USD"; source := "coincap-api" |}.

Definition afterBitcoin : World :=
  {| priceCache := {[ "bitcoin" := {| data := bitcoinQuote; timestamp := 6120 |} ]};
     clock := 6120;
     requests := [ {| provider := CoinGecko; query := "bitcoin" |};
                   {| provider := CoinCap; query := "bitcoin" |} ] |}.

(** The world of [afterBitcoin] seen again at a later instant. *)
Definition later (now : Z) : World :=
  {| priceCache := priceCache afterBitcoin; clock := now; requests := [] |}.

Import WalletAnalyzer.

Definition wallet : string := "7xKXtg2CW87d97TXJSDpbD5jBkheTqA83TZRuJosgAsU".
Definition USDC : string := "EPjFWdd5AufqSSqeM2qN1xzybapC8G4wEGGkZwyTDt1v".
Definition BONK : string := "DezXAZ8z7PnrnRJjz3wXBoRgixCa6xjnB7YaB1pPB263".

(** The wallet receives a transfer that has no [rawTokenAmount] and carries
    the number 10 as its [tokenAmount]. *)
Definition receivedTen : TokenTransfer :=
  {| fromUserAccount := Some "pool"; toUserAccount := Some wallet; mint := BONK;
     rawTokenAmount := None; tokenAmount := AmountNumber (Num 10) |}.

(** The same with the number 2.5. *)
Definition receivedTwoAndHalf : TokenTransfer :=
  {| fromUserAccount := Some "pool"; toUserAccount := Some wallet; mint := BONK;
     rawTokenAmount := None; tokenAmount := AmountNumber (Num (5 # 2)) |}.

Definition txReceivedTen : Tx.RawTransaction :=
  {| Tx.timestamp := ofZ 1700000000; Tx.type := "SWAP"; Tx.signature := "sig1";
     Tx.source := Some "JUPITER";
     Tx.tokenTransfers := [receivedTen];
     Tx.nativeTransfers := [];
     Tx.accountData := [] |}.

(** A token transfer between two other accounts. *)
Definition txStrangers : Tx.RawTransaction :=
  {| Tx.timestamp := ofZ 1700000100; Tx.type := "SWAP"; Tx.signature := "sig2";
     Tx.source := None;
     Tx.tokenTransfers :=
       [ {| fromUserAccount := Some "alice"; toUserAccount := Some "bob"; mint := USDC;
            rawTokenAmount := Some {| decimals := Some 6; rawAmount := Some "1000000" |};
            tokenAmount := AmountNumber (Num 1) |} ];
     Tx.nativeTransfers := [];
     Tx.accountData := [] |}.

(** No token transfer, and native currency only sent. *)
Definition txOnlySent : Tx.RawTransaction :=
  {| Tx.timestamp := ofZ 1700000200; Tx.type := "SWAP"; Tx.signature := "sig3";
     Tx.source := None;
     Tx.tokenTransfers := [];
     Tx.nativeTransfers :=
       [ {| Native.fromUserAccount := Some wallet; Native.toUserAccount := Some "pool";
            Native.amount := ofZ 5000 |} ];
     Tx.accountData := [] |}.

(** 2.5 USDC sold for 10 BONK, both given as raw amounts with 6 decimals;
    the wallet's native balance drops by the fee. *)
Definition soldUsdc : TokenTransfer :=
  {| fromUserAccount := Some wallet; toUserAccount := Some "pool"; mint := USDC;
     rawTokenAmount := Some {| decimals := Some 6; rawAmount := Some "2500000" |};
     tokenAmount := AmountNumber (Num (5 # 2)) |}.

Definition boughtBonk : TokenTransfer :=
  {| fromUserAccount := Some "pool"; toUserAccount := Some wallet; mint := BONK;
     rawTokenAmount := Some {| decimals := Some 6; rawAmount := Some "10000000" |};
     tokenAmount := AmountNumber (Num 10) |}.

Definition txSwap : Tx.RawTransaction :=
  {| Tx.timestamp := ofZ 1700000300; Tx.type := "SWAP"; Tx.signature := "sig4";
     Tx.source := Some "RAYDIUM";
     Tx.tokenTransfers := [soldUsdc; boughtBonk];
     Tx.nativeTransfers := [];
     Tx.accountData := [ {| account := "pool"; nativeBalanceChange := ofZ 0 |};
                         {| account := wallet; nativeBalanceChange := ofZ (-5000) |} ] |}.

(** 3 wrapped SOL sold for USDC; the wallet's native balance rises by
    2,000,000 lamports. *)
Definition txSolSale : Tx.RawTransaction :=
  {| Tx.timestamp := ofZ 1700000400; Tx.type := "SWAP"; Tx.signature := "sig5";
     Tx.source := Some "ORCA";
     Tx.tokenTransfers :=
       [ {| fromUserAccount := Some wallet; toUserAccount := Some "pool"; mint := WRAPPED_SOL;
            rawTokenAmount := Some {| decimals := Some 9; rawAmount := Some "3000000000" |};
            tokenAmount := AmountNumber (Num 3) |};
         {| fromUserAccount := Some "pool"; toUserAccount := Some wallet; mint := USDC;
            rawTokenAmount := Some {| decimals := Some 6; rawAmount := Some "450000000" |};
            tokenAmount := AmountNumber (Num 450) |} ];
     Tx.nativeTransfers := [];
     Tx.accountData := [ {| account := wallet; nativeBalanceChange := ofZ 2000000 |} ] |}.

(** A raw amount whose [decimals] field is the number 0. *)
Definition zeroDecimals : RawTokenAmount :=
  {| decimals := Some 0; rawAmount := Some "2500000" |}.

Definition transferZeroDecimals : TokenTransfer :=
  {| fromUserAccount := Some wallet; toUserAccount := Some wallet; mint := BONK;
     rawTokenAmount := Some zeroDecimals; tokenAmount := AmountAbsent |}.

(** A host that prints an instant as its number of milliseconds. *)
Definition plainClock : number → string := toString.

(** Native currency sent and received by the wallet, no token transfer. *)
Definition txNativeSwap : Tx.RawTransaction :=
  {| Tx.timestamp := ofZ 1700000500; Tx.type := "SWAP"; Tx.signature := "sig6";
     Tx.source := Some "";
     Tx.tokenTransfers := [];
     Tx.nativeTransfers :=
       [ {| Native.fromUserAccount := Some wallet; Native.toUserAccount := Some "pool";
            Native.amount := ofZ 2000000000 |};
         {| Native.fromUserAccount := Some "pool"; Native.toUserAccount := Some wallet;
            Native.amount := ofZ 1500000000 |} ];
     Tx.accountData := [ {| account := wallet; nativeBalanceChange := ofZ 7 |} ] |}.

(** A received transfer that carries no amount at all. *)
Definition receivedNoAmount : TokenTransfer :=
  {| fromUserAccount := Some "pool"; toUserAccount := Some wallet; mint := BONK;
     rawTokenAmount := None; tokenAmount := AmountAbsent |}.

Definition txNoAmount : Tx.RawTransaction :=
  withTokenTransfers txSwap [soldUsdc; receivedNoAmount].

(** A sold transfer whose raw amount object has no value, next to a numeric
    [tokenAmount] of 7. *)
Definition soldWithoutRawValue : TokenTransfer :=
  {| fromUserAccount := Some wallet; toUserAccount := Some "pool"; mint := USDC;
     rawTokenAmount := Some {| decimals := Some 6; rawAmount := None |};
     tokenAmount := AmountNumber (Num 7) |}.

(** A parser that knows two texts: an organization and an exchange rate
    without a price. *)
Definition twoTexts (content : string) : option LegacyServer.JsonLd :=
  if String.eqb content "org" then
    Some {| LegacyServer.atType := Some "Organization";
            LegacyServer.ldName := "CoinGecko"; LegacyServer.ldCurrency := "";
            LegacyServer.ratePrice := None; LegacyServer.ratePriceCurrency := None |}
  else if String.eqb content "rate" then
    Some {| LegacyServer.atType := Some "ExchangeRateSpecification";
            LegacyServer.ldName := "Bitcoin"; LegacyServer.ldCurrency := "BTC";
            LegacyServer.ratePrice := None; LegacyServer.ratePriceCurrency := Some "" |}
  else None.

(** A transfer of a non-swap kind. *)
Definition txTransfer : Tx.RawTransaction :=
  {| Tx.timestamp := ofZ 1700000600; Tx.type := "TRANSFER"; Tx.signature := "sig7";
     Tx.source := Some "SYSTEM_PROGRAM";
     Tx.tokenTransfers := [soldUsdc; boughtBonk];
     Tx.nativeTransfers := [];
     Tx.accountData := [] |}.

(** The wallet only sends a token, or only receives one. *)
Definition txSoldOnly : Tx.RawTransaction := withTokenTransfers txSwap [soldUsdc].
Definition txBoughtOnly : Tx.RawTransaction := withTokenTransfers txSwap [boughtBonk].

(** The feed of the report samples: a swap, a transaction that yields no
    record, a sale of wrapped SOL, and the two one-sided transactions. *)
Definition reportFeed : list Tx.RawTransaction :=
  [txSwap; txOnlySent; txSolSale; txSoldOnly; txBoughtOnly].

(** A parser that knows one text: an exchange rate of 65000.5 euros. *)
Definition pricedText (content : string) : option LegacyServer.JsonLd :=
  if String.eqb content "rate" then
    Some {| LegacyServer.atType := Some "ExchangeRateSpecification";
            LegacyServer.ldName := "Bitcoin"; LegacyServer.ldCurrency := "BTC";
            LegacyServer.ratePrice := Some (Num (130001 # 2));
            LegacyServer.ratePriceCurrency := Some "EUR" |}
  else None.

End Samples.


(* ===================================================================== *)
(** * Properties of the runtime model *)
(* ===================================================================== *)

Lemma append_cons (x : ascii) (a b : string) : String x a +:+ b = String x (a +:+ b).
Proof. reflexivity. Qed.

Lemma append_assoc (a b c : string) : (a +:+ b) +:+ c = a +:+ b +:+ c.
Proof.
  induction a as [|x a IH]; [reflexivity|].
  rewrite !append_cons. now rewrite IH.
Qed.

Lemma contains_prefix (t post : string) : JsString.contains (t +:+ post) t.
Proof. exists EmptyString, post. reflexivity. Qed.

Lemma contains_app_r (pre s t : string) :
  JsString.contains s t → JsString.contains (pre +:+ s) t.
Proof.
  intros (a & b & ->). exists (pre +:+ a), b. now rewrite append_assoc.
Qed.

Lemma contains_app_l (s post t : string) :
  JsString.contains s t → JsString.contains (s +:+ post) t.
Proof.
  intros (a & b & ->). exists a, (b +:+ post). now rewrite !append_assoc.
Qed.

Lemma split_length (c : ascii) (s : string) :
  length (JsString.split c s) = S (JsString.count c s).
Proof.
  induction s as [|d s IH]; simpl; [reflexivity|].
  destruct (Ascii.eqb c d); simpl; [now rewrite IH|].
  destruct (JsString.split c s); simpl in *; congruence.
Qed.

(* ===================================================================== *)
(** * Properties of the price server *)
(* ===================================================================== *)

Section PriceFacts.

Import PriceServer.

Variable network : Provider → string → Z → Reply.

Lemma getCryptoPrice_hit (cryptoId : string) (w : World) (q : CryptoPrice) :
  cacheHit (priceCache w !! normalizeId cryptoId) (clock w) = Some q →
  getCryptoPrice network cryptoId w = (Quote q, w).
Proof.
  intros H. unfold getCryptoPrice, bind, readCache, dateNow. simpl.
  now rewrite H.
Qed.

(** On a miss the first thing that happens is a request to CoinGecko. *)
Lemma getCryptoPrice_miss (cryptoId : string) (w : World) :
  cacheHit (priceCache w !! normalizeId cryptoId) (clock w) = None →
  ∃ more, requests (snd (getCryptoPrice network cryptoId w)) =
          requests w ++ {| provider := CoinGecko; query := normalizeId cryptoId |} :: more.
Proof.
  intros H. unfold getCryptoPrice, bind, readCache, dateNow, remember, writeCache, axiosGet, ret.
  simpl. rewrite H.
  repeat (match goal with |- context [match validPrice ?r with _ => _ end] =>
            destruct (validPrice r) end; simpl);
    rewrite <- ?app_assoc; simpl; eauto.
Qed.

Lemma cacheHit_fresh (e : CacheEntry) (now : Z) :
  now - timestamp e < CACHE_TTL → cacheHit (Some e) now = Some (data e).
Proof. intros H. unfold cacheHit. now rewrite (proj2 (Z.ltb_lt _ _) H). Qed.

Lemma cacheHit_stale (e : CacheEntry) (now : Z) :
  CACHE_TTL ≤ now - timestamp e → cacheHit (Some e) now = None.
Proof. intros H. unfold cacheHit. now rewrite (proj2 (Z.ltb_ge _ _) H). Qed.

(** A quote that was returned sits in the cache under the normalized id. *)
Lemma resolved_is_cached (cryptoId : string) (w w1 : World) (q : CryptoPrice) :
  getCryptoPrice network cryptoId w = (Quote q, w1) →
  ∃ e, priceCache w1 !! normalizeId cryptoId = Some e ∧ data e = q.
Proof.
  unfold getCryptoPrice, bind, readCache, dateNow, remember, writeCache, axiosGet, ret.
  simpl. destruct (cacheHit _ _) eqn:Hhit.
  - intros [= <- <-]. unfold cacheHit in Hhit.
    destruct (priceCache w !! normalizeId cryptoId) as [e|]; [|discriminate].
    destruct (_ <? _); [|discriminate]. injection Hhit as <-. eauto.
  - repeat (match goal with |- context [match validPrice ?r with _ => _ end] =>
              destruct (validPrice r) end; simpl);
      intros [= <- <-]; simpl; rewrite lookup_insert_eq; eauto.
Qed.

(** A failed resolution leaves the cache as it was. *)
Lemma failure_keeps_cache (cryptoId error : string) (w w1 : World) :
  getCryptoPrice network cryptoId w = (Failure error, w1) →
  priceCache w1 = priceCache w.
Proof.
  unfold getCryptoPrice, bind, readCache, dateNow, remember, writeCache, axiosGet, ret.
  simpl. destruct (cacheHit _ _); [discriminate|].
  repeat (match goal with |- context [match validPrice ?r with _ => _ end] =>
            destruct (validPrice r) end; simpl);
    intros [= <- <-]; reflexivity.
Qed.

Lemma resolveEach_length (ids : list string) (w : World) :
  length (fst (resolveEach network ids w)) = length ids.
Proof.
  revert w. induction ids as [|x ids IH]; intros w; simpl; [reflexivity|].
  unfold bind, ret. destruct (getCryptoPrice network x w) as [r w1].
  specialize (IH w1). destruct (resolveEach network ids w1) as [ls w2].
  simpl in *. now rewrite IH.
Qed.

(** The lines of a batch are those of its first part followed by those of the
    rest, resolved from where the first part left the world. *)
Lemma resolveEach_app (l1 l2 : list string) (w : World) :
  resolveEach network (l1 ++ l2) w =
  let (r1, w1) := resolveEach network l1 w in
  let (r2, w2) := resolveEach network l2 w1 in
  (r1 ++ r2, w2).
Proof.
  revert w. induction l1 as [|x l1 IH]; intros w; simpl.
  - unfold ret. now destruct (resolveEach network l2 w).
  - unfold bind, ret. destruct (getCryptoPrice network x w) as [r w1].
    rewrite IH. destruct (resolveEach network l1 w1) as [r1 w2].
    now destruct (resolveEach network l2 w2).
Qed.

End PriceFacts.

Section PriceClaims.

Import PriceServer.

Implicit Types (network : Provider → string → Z → Reply) (w : World).

(** C1. Once a resolution has succeeded, a later resolution of an id with the
    same normalized form, made while the cached entry is younger than the TTL
    of 60,000 ms, returns that very quote and leaves the world untouched, so
    that no provider is asked; when the entry's age has reached the TTL the
    cache test fails and CoinGecko is asked first.  The later call may face
    any network and any clock. *)
Theorem cached_quote_reused_within_ttl
    (network : Provider → string → Z → Reply)
    (cryptoId : string) (w w1 : World) (q : CryptoPrice)
    (network' : Provider → string → Z → Reply)
    (cryptoId' : string) (now : Z) (reqs : list Request) :
  getCryptoPrice network cryptoId w = (Quote q, w1) →
  normalizeId cryptoId' = normalizeId cryptoId →
  let w2 := {| priceCache := priceCache w1; clock := now; requests := reqs |} in
  ∃ e : CacheEntry,
    priceCache w1 !! normalizeId cryptoId = Some e ∧ data e = q ∧
    (now - timestamp e < CACHE_TTL →
       getCryptoPrice network' cryptoId' w2 = (Quote q, w2)) ∧
    (CACHE_TTL ≤ now - timestamp e →
       cacheHit (priceCache w2 !! normalizeId cryptoId') now = None ∧
       ∃ more, requests (snd (getCryptoPrice network' cryptoId' w2)) =
               reqs ++ {| provider := CoinGecko; query := normalizeId cryptoId' |} :: more).
Proof.
  intros Hfirst Hid w2.
  destruct (resolved_is_cached _ _ _ _ _ Hfirst) as (e & He & Hq).
  exists e. split; [exact He|]. split; [exact Hq|].
  assert (Hslot : priceCache w2 !! normalizeId cryptoId' = Some e)
    by (rewrite Hid; exact He).
  split; intros Hage.
  - apply getCryptoPrice_hit. rewrite Hslot. simpl.
    rewrite <- Hq. now apply cacheHit_fresh.
  - assert (Hmiss : cacheHit (priceCache w2 !! normalizeId cryptoId') now = None)
      by (rewrite Hslot; now apply cacheHit_stale).
    split; [exact Hmiss|].
    exact (getCryptoPrice_miss network' cryptoId' w2 Hmiss).
Qed.

Lemma cached_quote_reused_witness :
  getCryptoPrice Samples.coinCapOnly " Bitcoin " Samples.emptyWorld
    = (Quote Samples.bitcoinQuote, Samples.afterBitcoin) ∧
  normalizeId "BITCOIN" = normalizeId " Bitcoin " ∧
  getCryptoPrice Samples.nobody "BITCOIN" (Samples.later 66119)
    = (Quote Samples.bitcoinQuote, Samples.later 66119) ∧
  ∃ more, requests (snd (getCryptoPrice Samples.nobody "BITCOIN" (Samples.later 66120)))
          = [] ++ {| provider := CoinGecko; query := normalizeId "BITCOIN" |} :: more.
Proof.
  assert (H1 : getCryptoPrice Samples.coinCapOnly " Bitcoin " Samples.emptyWorld
               = (Quote Samples.bitcoinQuote, Samples.afterBitcoin))
    by (vm_compute; reflexivity).
  assert (H2 : normalizeId "BITCOIN" = normalizeId " Bitcoin ") by reflexivity.
  split; [exact H1|]. split; [exact H2|]. split.
  - destruct (cached_quote_reused_within_ttl
                Samples.coinCapOnly " Bitcoin " Samples.emptyWorld Samples.afterBitcoin
                Samples.bitcoinQuote Samples.nobody "BITCOIN" 66119 [] H1 H2)
      as (e & He & _ & Hhit & _).
    vm_compute in He. injection He as <-. apply Hhit. reflexivity.
  - destruct (cached_quote_reused_within_ttl
                Samples.coinCapOnly " Bitcoin " Samples.emptyWorld Samples.afterBitcoin
                Samples.bitcoinQuote Samples.nobody "BITCOIN" 66120 [] H1 H2)
      as (e & He & _ & _ & Hmiss).
    vm_compute in He. injection He as <-. apply Hmiss. discriminate.
Defined.

(** C2. On a cache miss, when CoinGecko's answer is not a valid price and
    CoinCap's is, the resolution returns CoinCap's quote (name and symbol of
    the response, price rounded to cents) with [source = "coincap-api"];
    exactly two requests were issued, to CoinGecko and to CoinCap, and none
    to CryptoCompare. *)
Theorem secondary_answers_when_primary_fails
    (network : Provider → string → Z → Reply)
    (cryptoId : string) (w : World) (f : PriceField) :
  let id := normalizeId cryptoId in
  let r1 := network CoinGecko id (clock w) in
  let r2 := network CoinCap id (clock w + latency r1) in
  let q := coinCapQuote (payloadOf (result r2)) f in
  cacheHit (priceCache w !! id) (clock w) = None →
  validPrice (result r1) = None →
  validPrice (result r2) = Some f →
  ∃ w' : World,
    getCryptoPrice network cryptoId w = (Quote q, w') ∧
    name q = assetName (payloadOf (result r2)) ∧
    symbol q = assetSymbol (payloadOf (result r2)) ∧
    source q = "coincap-api" ∧
    requests w' = requests w ++ [ {| provider := CoinGecko; query := id |};
                                  {| provider := CoinCap; query := id |} ] ∧
    (∀ r, r ∈ requests w' → r ∈ requests w ∨ provider r ≠ CryptoCompare).
Proof.
  intros id r1 r2 q Hmiss H1 H2.
  unfold getCryptoPrice, bind, readCache, dateNow, remember, writeCache, axiosGet, ret.
  simpl. fold id. rewrite Hmiss. fold r1. rewrite H1. simpl. fold r2. rewrite H2. simpl.
  eexists. split; [reflexivity|]. simpl.
  rewrite <- app_assoc. simpl.
  repeat split.
  intros r Hr. apply elem_of_app in Hr as [Hr|Hr]; [now left|right].
  apply elem_of_cons in Hr as [->|Hr]; [discriminate|].
  apply elem_of_cons in Hr as [->|Hr]; [discriminate|].
  now apply elem_of_nil in Hr.
Qed.

Lemma secondary_answers_witness :
  cacheHit (priceCache Samples.emptyWorld !! normalizeId " Bitcoin ") 1000 = None ∧
  validPrice (result (Samples.coinCapOnly CoinGecko "bitcoin" 1000)) = None ∧
  validPrice (result (Samples.coinCapOnly CoinCap "bitcoin" 6000)) = Some (PStr "64250.4567") ∧
  ∃ w' : World,
    getCryptoPrice Samples.coinCapOnly " Bitcoin " Samples.emptyWorld
      = (Quote Samples.bitcoinQuote, w') ∧
    requests w' = [ {| provider := CoinGecko; query := "bitcoin" |};
                    {| provider := CoinCap; query := "bitcoin" |} ].
Proof.
  assert (H0 : cacheHit (priceCache Samples.emptyWorld !! normalizeId " Bitcoin ") 1000 = None)
    by reflexivity.
  assert (H1 : validPrice (result (Samples.coinCapOnly CoinGecko "bitcoin" 1000)) = None)
    by reflexivity.
  assert (H2 : validPrice (result (Samples.coinCapOnly CoinCap "bitcoin" 6000))
               = Some (PStr "64250.4567")) by reflexivity.
  split; [exact H0|]. split; [exact H1|]. split; [exact H2|].
  destruct (secondary_answers_when_primary_fails
              Samples.coinCapOnly " Bitcoin " Samples.emptyWorld (PStr "64250.4567") H0 H1 H2)
    as (w' & Hrun & _ & _ & _ & Hreq & _).
  exists w'. split; [|exact Hreq].
  rewrite Hrun. vm_compute. reflexivity.
Defined.

(** C3. On a cache miss, when none of the three answers is a valid price, the
    resolution returns an error object, never a quote; the cache is left as it
    was; the message quotes the input exactly as it was given (not its
    normalized form) and lists the first five ids of [POPULAR_CRYPTOS]. *)
Theorem all_providers_exhausted
    (network : Provider → string → Z → Reply) (cryptoId : string) (w : World) :
  let id := normalizeId cryptoId in
  let r1 := network CoinGecko id (clock w) in
  let r2 := network CoinCap id (clock w + latency r1) in
  let r3 := network CryptoCompare (symbolGuess id) (clock w + latency r1 + latency r2) in
  let suggested := take 5 POPULAR_CRYPTOS in
  cacheHit (priceCache w !! id) (clock w) = None →
  validPrice (result r1) = None →
  validPrice (result r2) = None →
  validPrice (result r3) = None →
  ∃ w' : World,
    getCryptoPrice network cryptoId w = (Failure (notFound cryptoId), w') ∧
    (∀ q, fst (getCryptoPrice network cryptoId w) ≠ Quote q) ∧
    priceCache w' = priceCache w ∧
    JsString.contains (notFound cryptoId) (dquote +:+ cryptoId +:+ dquote) ∧
    (1 ≤ length suggested ≤ 5)%nat ∧
    (∀ s, s ∈ suggested → s ∈ POPULAR_CRYPTOS ∧ JsString.contains (notFound cryptoId) s).
Proof.
  intros id r1 r2 r3 suggested Hmiss H1 H2 H3.
  assert (Hrun : getCryptoPrice network cryptoId w =
                 (Failure (notFound cryptoId),
                  {| priceCache := priceCache w;
                     clock := clock w + latency r1 + latency r2 + latency r3;
                     requests := ((requests w ++ [ {| provider := CoinGecko; query := id |} ])
                                   ++ [ {| provider := CoinCap; query := id |} ])
                                   ++ [ {| provider := CryptoCompare; query := symbolGuess id |} ] |})).
  { unfold getCryptoPrice, bind, readCache, dateNow, remember, writeCache, axiosGet, ret.
    simpl. fold id. rewrite Hmiss. fold r1. rewrite H1. simpl. fold r2. rewrite H2. simpl.
    fold r3. rewrite H3. reflexivity. }
  eexists. split; [exact Hrun|]. rewrite Hrun. simpl.
  split; [discriminate|]. split; [reflexivity|].
  split.
  { unfold notFound. apply contains_app_r.
    eexists EmptyString, _. rewrite !append_assoc. reflexivity. }
  split; [unfold suggested; simpl; lia|].
  intros s Hs. unfold suggested in Hs. simpl in Hs.
  assert (Htail : ∀ t, JsString.contains
            "bitcoin, ethereum, solana, cardano, dogecoin..." t →
            JsString.contains (notFound cryptoId) t).
  { intros t Ht. unfold notFound. do 5 apply contains_app_r.
    exact Ht. }
  repeat (apply elem_of_cons in Hs as [->|Hs]);
    [ split; [set_solver | apply Htail; exists "", ", ethereum, solana, cardano, dogecoin..."; reflexivity]
    | split; [set_solver | apply Htail; exists "bitcoin, ", ", solana, cardano, dogecoin..."; reflexivity]
    | split; [set_solver | apply Htail; exists "bitcoin, ethereum, ", ", cardano, dogecoin..."; reflexivity]
    | split; [set_solver | apply Htail; exists "bitcoin, ethereum, solana, ", ", dogecoin..."; reflexivity]
    | split; [set_solver | apply Htail; exists "bitcoin, ethereum, solana, cardano, ", "..."; reflexivity]
    | now apply elem_of_nil in Hs ].
Qed.

Lemma all_providers_exhausted_witness :
  cacheHit (priceCache Samples.emptyWorld !! normalizeId " DoesNotExist123") 1000 = None ∧
  validPrice (result (Samples.nobody CoinGecko "doesnotexist123" 1000)) = None ∧
  validPrice (result (Samples.nobody CoinCap "doesnotexist123" 6000)) = None ∧
  validPrice (result (Samples.nobody CryptoCompare "DOESNOTEXIST123" 11000)) = None ∧
  fst (getCryptoPrice Samples.nobody " DoesNotExist123" Samples.emptyWorld)
    = Failure (notFound " DoesNotExist123") ∧
  JsString.contains (notFound " DoesNotExist123") (dquote +:+ " DoesNotExist123" +:+ dquote) ∧
  JsString.contains (notFound " DoesNotExist123") "bitcoin".
Proof.
  assert (H0 : cacheHit (priceCache Samples.emptyWorld !! normalizeId " DoesNotExist123") 1000
               = None) by reflexivity.
  assert (H1 : validPrice (result (Samples.nobody CoinGecko "doesnotexist123" 1000)) = None)
    by reflexivity.
  assert (H2 : validPrice (result (Samples.nobody CoinCap "doesnotexist123" 6000)) = None)
    by reflexivity.
  assert (H3 : validPrice (result (Samples.nobody CryptoCompare "DOESNOTEXIST123" 11000)) = None)
    by reflexivity.
  repeat (split; [assumption|]).
  destruct (all_providers_exhausted Samples.nobody " DoesNotExist123" Samples.emptyWorld
              H0 H1 H2 H3) as (w' & Hrun & _ & _ & Hid & _ & Hsug).
  split; [now rewrite Hrun|]. split; [exact Hid|].
  apply (Hsug "bitcoin"). apply elem_of_cons. left. reflexivity.
Defined.

(** C4. The batch tool resolves one id per comma-separated field of its input
    (as many fields as commas plus one, each trimmed), and its text is the
    lines of these resolutions joined by newlines.  For every position of the
    list, the lines before it are those of the earlier ids alone, its own line
    is the line of its id resolved in the world the earlier ids left, and the
    lines after it are those of the later ids, which are still resolved when
    this id failed; a failed id contributes the line [id: error] and leaves
    the cache as it found it.  Ids are neither reordered nor merged. *)
Theorem batch_resolves_each_id_in_order
    (network : Provider → string → Z → Reply) (cryptoIds : string) (w : World) :
  let ids := splitIds cryptoIds in
  let lines := fst (resolveEach network ids w) in
  fst (getMultipleCryptoPrices network cryptoIds w) = JsString.join newline lines ∧
  length ids = S (JsString.count "," cryptoIds) ∧
  length lines = length ids ∧
  ∀ (pre : list string) (cryptoId : string) (post : list string),
    ids = pre ++ cryptoId :: post →
    let before := snd (resolveEach network pre w) in
    let r := fst (getCryptoPrice network cryptoId before) in
    let after := snd (getCryptoPrice network cryptoId before) in
    lines = fst (resolveEach network pre w)
              ++ resultLine cryptoId r :: fst (resolveEach network post after) ∧
    (∀ error, r = Failure error →
       resultLine cryptoId r = cryptoId +:+ ": " +:+ error ∧
       priceCache after = priceCache before).
Proof.
  intros ids lines. split; [|split; [|split]].
  - unfold getMultipleCryptoPrices, bind, ret. subst lines. fold ids.
    now destruct (resolveEach network ids w).
  - unfold ids, splitIds. rewrite length_map. apply split_length.
  - apply resolveEach_length.
  - intros pre cryptoId post Hids before r after. split.
    + subst lines. rewrite Hids, resolveEach_app. subst before r after.
      destruct (resolveEach network pre w) as [l1 w1]. simpl.
      unfold bind, ret. destruct (getCryptoPrice network cryptoId w1) as [r1 w2].
      simpl. now destruct (resolveEach network post w2).
    + intros error Hr. split; [now rewrite Hr|].
      apply (failure_keeps_cache network cryptoId error).
      subst r after. destruct (getCryptoPrice network cryptoId before); simpl in *.
      now rewrite Hr.
Qed.

Lemma batch_resolves_witness :
  splitIds "bitcoin, doesnotexist123" = [] ++ "bitcoin" :: ["doesnotexist123"] ∧
  splitIds "bitcoin, doesnotexist123" = ["bitcoin"] ++ "doesnotexist123" :: [] ∧
  fst (resolveEach Samples.geckoBitcoin (splitIds "bitcoin, doesnotexist123") Samples.emptyWorld)
    = [ "Bitcoin (BTC): $64250.5 USD [Source: coingecko-api]";
        "doesnotexist123: " +:+ notFound "doesnotexist123" ].
Proof.
  assert (H1 : splitIds "bitcoin, doesnotexist123" = [] ++ "bitcoin" :: ["doesnotexist123"])
    by reflexivity.
  assert (H2 : splitIds "bitcoin, doesnotexist123" = ["bitcoin"] ++ "doesnotexist123" :: [])
    by reflexivity.
  split; [exact H1|]. split; [exact H2|].
  destruct (batch_resolves_each_id_in_order
              Samples.geckoBitcoin "bitcoin, doesnotexist123" Samples.emptyWorld)
    as (_ & _ & _ & Hat).
  destruct (Hat ["bitcoin"] "doesnotexist123" [] H2) as [Hlines _].
  rewrite Hlines. vm_compute. reflexivity.
Defined.

End PriceClaims.

(* ===================================================================== *)
(** * Properties of the swap extractor *)
(* ===================================================================== *)

Section ExtractorFacts.

Import WalletAnalyzer.

Lemma pow10_six : pow10 6 = ofZ 1000000.
Proof. reflexivity. Qed.

Lemma pow10_zero : pow10 0 = ofZ 1.
Proof. reflexivity. Qed.

Lemma div_million (n : Z) :
  div (ofZ n) (ofZ 1000000) = Num (Qred (n # 1000000)).
Proof.
  unfold div, ofZ. simpl. f_equal. apply Qred_complete.
  unfold Qeq, Qdiv, Qmult, Qinv, inject_Z. simpl. lia.
Qed.

Lemma div_million_differs (n : Z) :
  n ≠ 0 → div (ofZ n) (ofZ 1000000) ≠ div (ofZ n) (ofZ 1).
Proof.
  intros Hn. unfold div, ofZ. simpl. intros [= H].
  apply Qred_eq_iff in H.
  unfold Qeq, Qdiv, Qmult, Qinv, inject_Z in H. simpl in H. lia.
Qed.

(** With a raw amount at hand the bought amount is that amount scaled by the
    decimals, then clamped. *)
Lemma boughtAmount_raw (t : TokenTransfer) (r : RawTokenAmount) (raw : string) :
  rawTokenAmount t = Some r → rawAmount r = Some raw → raw ≠ EmptyString →
  boughtScaled t = Some (div (parseFloat raw) (pow10 (decimalsOr6 (decimals r)))) ∧
  boughtAmount t =
    Some (clamp (mint t) (div (parseFloat raw) (pow10 (decimalsOr6 (decimals r))))).
Proof.
  intros Hr Hraw Hne. unfold boughtAmount, boughtScaled, boughtRawAmount, boughtDecimals.
  rewrite Hr, Hraw. destruct raw; [contradiction|]. simpl. split; reflexivity.
Qed.

(** The sanity check divides by a million exactly when the amount exceeds a
    million and the mint is not the exempt one. *)
Lemma clamp_cases (mintAddress : string) (a : number) :
  (gt a (ofZ 1000000) = true → mintAddress ≠ CLAMP_EXEMPT_MINT →
     clamp mintAddress a = div a (ofZ 1000000)) ∧
  (gt a (ofZ 1000000) = false ∨ mintAddress = CLAMP_EXEMPT_MINT →
     clamp mintAddress a = a).
Proof.
  unfold clamp. split.
  - intros -> Hm. apply String.eqb_neq in Hm. now rewrite Hm.
  - intros [-> | ->]; [reflexivity|].
    rewrite String.eqb_refl. now rewrite andb_false_r.
Qed.

(** A transaction that yields no record leaves the statistics alone. *)
Lemma step_skip (walletAddress : string) (stats : WalletStats) (tx : Tx.RawTransaction) :
  extractSwapInfo tx walletAddress = None → step walletAddress stats tx = stats.
Proof. intros H. unfold step. rewrite H. now destruct (String.eqb _ _). Qed.

Lemma analyze_skip (walletAddress : string) (tx : Tx.RawTransaction)
    (before after : list Tx.RawTransaction) :
  extractSwapInfo tx walletAddress = None →
  analyzeTransactions walletAddress (before ++ tx :: after)
  = analyzeTransactions walletAddress (before ++ after).
Proof.
  intros H. unfold analyzeTransactions. rewrite !fold_left_app. simpl.
  now rewrite step_skip.
Qed.

End ExtractorFacts.

Section ExtractorClaims.

Import WalletAnalyzer.

(** C5. The bought amount does not follow the priority rule of the sold
    amount.  For a received transfer without a raw amount whose [tokenAmount]
    is the number 10, the rule of the sold amount gives 10, while the code
    prints the number, strips its decimal point, and divides by 10^6: the
    record carries [amountOut = 0.00001].  In the same way 2.5 is printed as
    [2.5], stripped to [25], and becomes 0.000025. *)
Theorem bought_number_is_rescaled :
  rawTokenAmount Samples.receivedTen = None ∧
  tokenAmount Samples.receivedTen = AmountNumber (Num 10) ∧
  soldAmount Samples.receivedTen = Num 10 ∧
  boughtRawAmount Samples.receivedTen = Some "10" ∧
  boughtAmount Samples.receivedTen = Some (Num (1 # 100000)) ∧
  option_map amountOut (extractSwapInfo Samples.txReceivedTen Samples.wallet)
    = Some (Some (Num (1 # 100000))) ∧
  soldAmount Samples.receivedTwoAndHalf = Num (5 # 2) ∧
  boughtRawAmount Samples.receivedTwoAndHalf = Some "25" ∧
  boughtAmount Samples.receivedTwoAndHalf = Some (Num (1 # 40000)).
Proof. vm_compute. repeat split. Qed.

(** C6 (as stated) fails: a record of the token-transfer path carries no
    profit/loss when [tx.accountData] has no entry for the wallet. *)
Lemma token_trade_without_profit_loss :
  Tx.tokenTransfers Samples.txReceivedTen ≠ [] ∧
  option_map profitLoss (extractSwapInfo Samples.txReceivedTen Samples.wallet) = Some None.
Proof. split; [discriminate | vm_compute; reflexivity]. Qed.

(** C6 (amended). For a record of the token-transfer path, the profit/loss is
    decided by the first entry of [tx.accountData] whose account is the
    wallet: with a positive native balance change it is that change divided
    by 10^9; otherwise it is +0.001 when the token bought is wrapped SOL and
    the token sold is not, and -0.001 in every other case.  Without such an
    entry the record carries no profit/loss. *)
Theorem profit_loss_follows_account_data
    (tx : Tx.RawTransaction) (walletAddress : string) (t : TradeInfo) :
  Tx.tokenTransfers tx ≠ [] →
  extractSwapInfo tx walletAddress = Some t →
  match walletAccountData walletAddress (Tx.accountData tx) with
  | None => profitLoss t = None
  | Some d =>
      let delta := nativeBalanceChange d in
      account d = walletAddress ∧
      (gt delta zero = true →
         profitLoss t = Some (div delta (ofZ (10 ^ 9)))) ∧
      (gt delta zero = false →
         tokenOut t = Some WRAPPED_SOL → tokenIn t ≠ Some WRAPPED_SOL →
         profitLoss t = Some (Num (1 # 1000))) ∧
      (gt delta zero = false →
         tokenOut t ≠ Some WRAPPED_SOL ∨ tokenIn t = Some WRAPPED_SOL →
         profitLoss t = Some (Num (- 1 # 1000)))
  end.
Proof.
  intros Hne Hex. unfold extractSwapInfo in Hex.
  destruct (Tx.tokenTransfers tx) as [|t0 ts] eqn:Htts; [contradiction|].
  unfold fromTokenTransfers in Hex. rewrite Htts in Hex.
  set (tIn := option_map mint (head (tokensSent walletAddress (t0 :: ts)))) in *.
  set (tOut := option_map mint (head (tokensReceived walletAddress (t0 :: ts)))) in *.
  assert (Hshape : profitLoss t =
                     option_map (fun d => profitHeuristic d tIn tOut)
                                (walletAccountData walletAddress (Tx.accountData tx))
                   ∧ tokenIn t = tIn ∧ tokenOut t = tOut).
  { destruct (head (tokensReceived walletAddress (t0 :: ts))) as [b|].
    - destruct (boughtAmount b); [|discriminate]. now injection Hex as <-.
    - now injection Hex as <-. }
  destruct Hshape as (Hpl & HtIn & HtOut). rewrite Hpl, HtIn, HtOut.
  destruct (walletAccountData walletAddress (Tx.accountData tx)) as [d|] eqn:Hd;
    [|reflexivity].
  simpl. unfold profitHeuristic. split.
  { apply find_some in Hd as [_ Hd]. now apply String.eqb_eq. }
  split; [intros ->; reflexivity|]. split.
  - intros -> Ho Hi. now rewrite (bool_decide_eq_true_2 _ Ho), (bool_decide_eq_false_2 _ Hi).
  - intros -> [Ho | Hi].
    + now rewrite (bool_decide_eq_false_2 _ Ho).
    + rewrite (bool_decide_eq_true_2 _ Hi). simpl. now rewrite andb_false_r.
Qed.

Lemma profit_loss_witness :
  Tx.tokenTransfers Samples.txSolSale ≠ [] ∧
  extractSwapInfo Samples.txSolSale Samples.wallet
    = Some {| timestamp := ofZ 1700000400; type := "SWAP";
              tokenIn := Some WRAPPED_SOL; tokenOut := Some Samples.USDC;
              amountIn := Some (Num 3); amountOut := Some (Num 450);
              profitLoss := Some (Num (1 # 500));
              signature := "sig5"; source := Some "ORCA" |} ∧
  Some (Num (1 # 500)) = Some (div (ofZ 2000000) (ofZ (10 ^ 9))) ∧
  option_map profitLoss (extractSwapInfo Samples.txSwap Samples.wallet)
    = Some (Some (Num (- 1 # 1000))).
Proof.
  assert (H1 : Tx.tokenTransfers Samples.txSolSale ≠ []) by discriminate.
  assert (H2 : extractSwapInfo Samples.txSolSale Samples.wallet
               = Some {| timestamp := ofZ 1700000400; type := "SWAP";
                         tokenIn := Some WRAPPED_SOL; tokenOut := Some Samples.USDC;
                         amountIn := Some (Num 3); amountOut := Some (Num 450);
                         profitLoss := Some (Num (1 # 500));
                         signature := "sig5"; source := Some "ORCA" |})
    by (vm_compute; reflexivity).
  split; [exact H1|]. split; [exact H2|].
  pose proof (profit_loss_follows_account_data _ _ _ H1 H2) as H.
  simpl in H. destruct H as (_ & Hpos & _).
  split; [exact (Hpos eq_refl)|].
  destruct (extractSwapInfo Samples.txSwap Samples.wallet) as [t|] eqn:E;
    [|vm_compute in E; discriminate].
  assert (H3 : Tx.tokenTransfers Samples.txSwap ≠ []) by discriminate.
  pose proof (profit_loss_follows_account_data _ _ _ H3 E) as H'.
  simpl in H'. destruct H' as (_ & _ & _ & Hother).
  simpl. f_equal. apply Hother; [reflexivity|].
  left. vm_compute in E. injection E as <-. discriminate.
Defined.

(** C8. The code departs from the claim.  A swap whose token-transfer list
    holds one transfer between two other accounts, and which has no native
    transfer, offers the wallet nothing to extract: no transfer is sent or
    received by it.  [extractSwapInfo] nevertheless returns a record, with
    neither tokens nor amounts, and [analyzeWallet] counts it as a trade and
    lists it in the history.  The native path of the same function yields
    nothing when the wallet is on one side only. *)
Lemma strangers_transfer_is_counted :
  tokensSent Samples.wallet (Tx.tokenTransfers Samples.txStrangers) = [] ∧
  tokensReceived Samples.wallet (Tx.tokenTransfers Samples.txStrangers) = [] ∧
  Tx.nativeTransfers Samples.txStrangers = [] ∧
  extractSwapInfo Samples.txStrangers Samples.wallet ≠ None ∧
  totalTrades (analyzeTransactions Samples.wallet [Samples.txStrangers]) = 1%nat ∧
  length (tradeHistory (analyzeTransactions Samples.wallet [Samples.txStrangers])) = 1%nat ∧
  (∃ t, extractSwapInfo Samples.txStrangers Samples.wallet = Some t ∧
        tokenIn t = None ∧ tokenOut t = None ∧
        amountIn t = None ∧ amountOut t = None ∧ profitLoss t = None ∧
        tradeHistory (analyzeTransactions Samples.wallet [Samples.txStrangers]) = [t]) ∧
  analyzeTransactions Samples.wallet [Samples.txStrangers] ≠ analyzeTransactions Samples.wallet [] ∧
  extractSwapInfo Samples.txOnlySent Samples.wallet = None.
Proof.
  repeat (split; [vm_compute; first [reflexivity | discriminate]|]).
  split; [eexists; repeat (split; [reflexivity|]); reflexivity|].
  split; [vm_compute; discriminate | reflexivity].
Qed.

(** A transaction whose token-transfer list is empty and in which the wallet
    did not both send and receive native currency yields no record, and the
    statistics are those of the feed without it. *)
Lemma empty_transfer_lists_are_skipped
    (tx : Tx.RawTransaction) (walletAddress : string) :
  Tx.tokenTransfers tx = [] →
  solSent walletAddress (Tx.nativeTransfers tx) = [] ∨
  solReceived walletAddress (Tx.nativeTransfers tx) = [] →
  extractSwapInfo tx walletAddress = None ∧
  ∀ before after,
    analyzeTransactions walletAddress (before ++ tx :: after)
    = analyzeTransactions walletAddress (before ++ after).
Proof.
  intros Htts Hnative.
  assert (Hnone : extractSwapInfo tx walletAddress = None).
  { unfold extractSwapInfo, fromNativeTransfers. rewrite Htts.
    destruct Hnative as [-> | ->]; [reflexivity|].
    now destruct (solSent walletAddress (Tx.nativeTransfers tx)). }
  split; [exact Hnone|]. intros before after. now apply analyze_skip.
Qed.

(** C10. A raw amount whose [decimals] is the number 0 is scaled as if the
    field were missing: the sold amount is the raw amount divided by 10^6 -
    for a raw integer [n] other than zero this is [n / 1000000] and differs
    from [n / 10^0] - and so is the bought amount before its sanity check. *)
Theorem zero_decimals_read_as_six (t : TokenTransfer) (r : RawTokenAmount) :
  rawTokenAmount t = Some r →
  decimals r = Some 0 →
  soldAmount t = div (parseFloat (orElse (rawAmount r) "0")) (pow10 6) ∧
  (∀ n : Z, parseFloat (orElse (rawAmount r) "0") = ofZ n → n ≠ 0 →
     soldAmount t = Num (Qred (n # 1000000)) ∧
     soldAmount t ≠ div (ofZ n) (pow10 0)) ∧
  (∀ raw : string, rawAmount r = Some raw → raw ≠ "" →
     boughtScaled t = Some (div (parseFloat raw) (pow10 6)) ∧
     boughtAmount t = Some (clamp (mint t) (div (parseFloat raw) (pow10 6)))).
Proof.
  intros Hr Hd.
  assert (Hsold : soldAmount t = div (parseFloat (orElse (rawAmount r) "0")) (pow10 6)).
  { unfold soldAmount. now rewrite Hr, Hd. }
  split; [exact Hsold|]. split.
  - intros n Hn Hnz. rewrite Hsold, Hn, pow10_six, pow10_zero. split.
    + apply div_million.
    + now apply div_million_differs.
  - intros raw Hraw Hne.
    destruct (boughtAmount_raw t r raw Hr Hraw Hne) as [Hs Ha].
    rewrite Hd in Hs, Ha. split; assumption.
Qed.

Lemma zero_decimals_witness :
  rawTokenAmount Samples.transferZeroDecimals = Some Samples.zeroDecimals ∧
  decimals Samples.zeroDecimals = Some 0 ∧
  soldAmount Samples.transferZeroDecimals = Num (5 # 2) ∧
  soldAmount Samples.transferZeroDecimals ≠ div (ofZ 2500000) (pow10 0) ∧
  boughtAmount Samples.transferZeroDecimals = Some (Num (5 # 2)).
Proof.
  assert (H1 : rawTokenAmount Samples.transferZeroDecimals = Some Samples.zeroDecimals)
    by reflexivity.
  assert (H2 : decimals Samples.zeroDecimals = Some 0) by reflexivity.
  split; [exact H1|]. split; [exact H2|].
  destruct (zero_decimals_read_as_six _ _ H1 H2) as (Hsold & Hscaled & Hbought).
  split; [|split].
  - rewrite Hsold. vm_compute. reflexivity.
  - apply (Hscaled 2500000); [vm_compute; reflexivity | discriminate].
  - destruct (Hbought "2500000" eq_refl) as [_ Ha]; [discriminate|].
    rewrite Ha. vm_compute. reflexivity.
Defined.

End ExtractorClaims.

(* ===================================================================== *)
(** * Properties of the statistics *)
(* ===================================================================== *)

Section StatisticsFacts.

Import WalletAnalyzer.

Lemma ltQ_true (a b : Q) : ltQ a b = true ↔ (a < b)%Q.
Proof.
  unfold ltQ. rewrite negb_true_iff. split.
  - intros H. apply Qnot_le_lt. intros Hle.
    apply Qle_bool_iff in Hle. congruence.
  - intros H. destruct (Qle_bool b a) eqn:E; [|reflexivity].
    apply Qle_bool_iff in E. exfalso. exact (Qlt_not_le _ _ H E).
Qed.

Lemma ltQ_false (a b : Q) : ltQ a b = false ↔ (b <= a)%Q.
Proof.
  unfold ltQ. rewrite negb_false_iff. apply Qle_bool_iff.
Qed.

Lemma isZeroQ_true (q : Q) : isZeroQ q = true → (q == 0)%Q.
Proof.
  unfold isZeroQ. intros H. apply Z.eqb_eq in H.
  unfold Qeq. simpl. lia.
Qed.

Lemma positive_is_truthy (x : Q) : ltQ 0 x = true → truthy (Num x) = true.
Proof.
  intros H. apply ltQ_true in H. simpl. apply negb_true_iff.
  destruct (isZeroQ x) eqn:E; [|reflexivity].
  apply isZeroQ_true in E. rewrite E in H. now apply Qlt_irrefl in H.
Qed.

(** [profitLoss && profitLoss > 0] holds exactly of a profit/loss greater
    than zero. *)
Lemma isProfitable_positive (t : TradeInfo) :
  isProfitable t =
  match profitLoss t with
  | Some (Num x) => ltQ 0 x
  | _ => false
  end.
Proof.
  unfold isProfitable. destruct (profitLoss t) as [[|x]|]; try reflexivity.
  change (gt (Num x) zero) with (ltQ 0 x).
  destruct (ltQ 0 x) eqn:E; [|apply andb_false_r].
  now rewrite (positive_is_truthy x E).
Qed.

(** The loop over the transactions is the loop over the extracted records. *)
Lemma fold_step_record (walletAddress : string) (transactions : list Tx.RawTransaction)
    (stats : WalletStats) :
  fold_left (step walletAddress) transactions stats
  = fold_left record (extractedTrades walletAddress transactions) stats.
Proof.
  revert stats. induction transactions as [|tx txs IH]; intros stats; [reflexivity|].
  simpl. unfold step at 2. unfold extractedTrades. simpl.
  destruct (String.eqb (Tx.type tx) "SWAP");
    [destruct (extractSwapInfo tx walletAddress)|]; simpl; apply IH.
Qed.

Lemma fold_record_history (trades : list TradeInfo) (stats : WalletStats) :
  tradeHistory (fold_left record trades stats) = tradeHistory stats ++ trades.
Proof.
  revert stats. induction trades as [|t ts IH]; intros stats; simpl.
  - now rewrite app_nil_r.
  - rewrite IH. simpl. now rewrite <- app_assoc.
Qed.

Lemma fold_record_total (trades : list TradeInfo) (stats : WalletStats) :
  totalTrades (fold_left record trades stats) = (totalTrades stats + length trades)%nat.
Proof.
  revert stats. induction trades as [|t ts IH]; intros stats; simpl.
  - lia.
  - rewrite IH. simpl. lia.
Qed.

Lemma fold_record_profitable (trades : list TradeInfo) (stats : WalletStats) :
  profitableTrades (fold_left record trades stats)
  = (profitableTrades stats + length (positiveProfits trades))%nat.
Proof.
  revert stats. induction trades as [|t ts IH]; intros stats; simpl.
  - lia.
  - rewrite IH. simpl. rewrite isProfitable_positive.
    unfold positiveProfits. simpl.
    destruct (profitLoss t) as [[|x]|]; simpl; try lia.
    destruct (ltQ 0 x); simpl; lia.
Qed.

Lemma fold_record_profit (trades : list TradeInfo) (stats : WalletStats) (q0 : Q) :
  totalProfitLoss stats = Num q0 →
  ∃ q, totalProfitLoss (fold_left record trades stats) = Num q ∧
       (q == q0 + sumQ (positiveProfits trades))%Q.
Proof.
  revert stats q0. induction trades as [|t ts IH]; intros stats q0 H0; simpl.
  - exists q0. split; [exact H0|]. unfold sumQ. simpl. ring.
  - unfold positiveProfits. simpl.
    assert (Hstep : totalProfitLoss (record stats t) =
                    match profitLoss t with
                    | Some (Num x) => if ltQ 0 x then Num (Qred (q0 + x)) else Num q0
                    | _ => Num q0
                    end).
    { simpl. rewrite isProfitable_positive, H0. unfold profitLossOr.
      destruct (profitLoss t) as [[|x]|]; reflexivity. }
    destruct (profitLoss t) as [[|x]|]; try (apply (IH _ _ Hstep)).
    destruct (ltQ 0 x); [|apply (IH _ _ Hstep)].
    destruct (IH _ _ Hstep) as (q & Hq & Hsum). exists q. split; [exact Hq|].
    rewrite Hsum, Qred_correct. simpl.
    fold (positiveProfits ts). fold (sumQ (positiveProfits ts)). ring.
Qed.

(** The running maximum over a list of amounts, started at [m0 >= 0]. *)
Lemma fold_larger (amounts : list (option number)) (m0 : Q) :
  (0 <= m0)%Q →
  ∃ m, fold_left larger amounts (Num m0) = Num m ∧
       (m0 <= m)%Q ∧
       (∀ a, In a (omap finite amounts) → (a <= m)%Q) ∧
       (m = m0 ∨ In m (omap finite amounts)).
Proof.
  revert m0. induction amounts as [|a l IH]; intros m0 H0; simpl.
  - exists m0. repeat split; [apply Qle_refl | contradiction | now left].
  - destruct a as [[|x]|]; simpl; try (apply IH; exact H0).
    destruct (negb (isZeroQ x) && ltQ m0 x) eqn:E.
    + apply andb_true_iff in E as [_ E]. apply ltQ_true in E.
      assert (Hx : (0 <= x)%Q) by (apply Qlt_le_weak; eapply Qle_lt_trans; eassumption).
      destruct (IH x Hx) as (m & Hm & Hle & Hall & Hin).
      exists m. split; [exact Hm|]. split.
      { apply Qlt_le_weak. eapply Qlt_le_trans; eassumption. }
      split.
      * intros b [<- | Hb]; [exact Hle | now apply Hall].
      * destruct Hin as [-> | Hin]; right; [now left | now right].
    + assert (Hx : (x <= m0)%Q).
      { apply andb_false_iff in E as [E | E].
        - apply negb_false_iff, isZeroQ_true in E. now rewrite E.
        - now apply ltQ_false in E. }
      destruct (IH m0 H0) as (m & Hm & Hle & Hall & Hin).
      exists m. split; [exact Hm|]. split; [exact Hle|]. split.
      * intros b [<- | Hb]; [eapply Qle_trans; eassumption | now apply Hall].
      * destruct Hin as [-> | Hin]; [now left | right; now right].
Qed.

Lemma all_negative_dec (l : list Q) :
  (∃ a, In a l ∧ (0 <= a)%Q) ∨ (∀ a, In a l → (a < 0)%Q).
Proof.
  induction l as [|x l [(a & Ha & Hpos) | Hneg]].
  - right. intros a [].
  - left. exists a. split; [now right | exact Hpos].
  - destruct (Qlt_le_dec x 0) as [Hx | Hx].
    + right. intros a [<- | Ha]; [exact Hx | now apply Hneg].
    + left. exists x. split; [now left | exact Hx].
Qed.

Lemma fold_larger_largestOf (amounts : list (option number)) :
  ∃ m, fold_left larger amounts zero = Num m ∧ largestOf (omap finite amounts) m.
Proof.
  destruct (fold_larger amounts 0 (Qle_refl _)) as (m & Hm & Hle & Hall & Hin).
  exists m. split; [exact Hm|]. split; [exact Hall|].
  destruct Hin as [-> | Hin]; [|left; exists m; split; [exact Hin | reflexivity]].
  destruct (all_negative_dec (omap finite amounts)) as [(a & Ha & Hpos) | Hneg].
  - left. exists a. split; [exact Ha|]. apply Qle_antisym; [now apply Hall | exact Hpos].
  - right. split; [reflexivity | exact Hneg].
Qed.

Lemma fold_record_largest (trades : list TradeInfo) (stats : WalletStats) :
  largestTrade (fold_left record trades stats)
  = fold_left larger (map amountIn trades) (largestTrade stats).
Proof.
  revert stats. induction trades as [|t ts IH]; intros stats; [reflexivity|].
  simpl. rewrite IH. f_equal. simpl.
  unfold amountInExceeds, amountInOr, larger.
  destruct (amountIn t) as [a|]; [|reflexivity]. reflexivity.
Qed.

Lemma fold_record_largest_sol (trades : list TradeInfo) (stats : WalletStats) :
  largestSOLTrade (fold_left record trades stats)
  = fold_left larger (map amountIn (solTrades trades)) (largestSOLTrade stats).
Proof.
  revert stats. induction trades as [|t ts IH]; intros stats; [reflexivity|].
  simpl. rewrite IH. unfold solTrades at 2. simpl. fold (solTrades ts).
  unfold isSolTrade, amountInOr.
  destruct (bool_decide (tokenIn t = Some WRAPPED_SOL)); simpl; [|reflexivity].
  f_equal. unfold larger. destruct (amountIn t) as [a|]; [|reflexivity]. reflexivity.
Qed.

Lemma fold_record_rates (trades : list TradeInfo) (stats : WalletStats) :
  successRate (fold_left record trades stats) = successRate stats ∧
  averageTradeSize (fold_left record trades stats) = averageTradeSize stats.
Proof.
  revert stats. induction trades as [|t ts IH]; intros stats; simpl; [now split|].
  destruct (IH (record stats t)) as [-> ->]. now split.
Qed.

Lemma amountsIn_map (trades : list TradeInfo) :
  amountsIn trades = omap finite (map amountIn trades).
Proof.
  induction trades as [|t ts IH]; [reflexivity|].
  unfold amountsIn in *. simpl.
  destruct (finite (amountIn t)); [f_equal|]; exact IH.
Qed.

(** "Calculate final stats" touches the two rates only. *)
Lemma finalize_keeps (stats : WalletStats) :
  tradeHistory (finalize stats) = tradeHistory stats ∧
  totalTrades (finalize stats) = totalTrades stats ∧
  profitableTrades (finalize stats) = profitableTrades stats ∧
  totalProfitLoss (finalize stats) = totalProfitLoss stats ∧
  largestTrade (finalize stats) = largestTrade stats ∧
  largestSOLTrade (finalize stats) = largestSOLTrade stats.
Proof. unfold finalize. destruct (0 <? totalTrades stats)%nat; repeat split. Qed.

End StatisticsFacts.

Section StatisticsClaims.

Import WalletAnalyzer.

(** C7. The statistics returned for a feed are those of the records
    extracted from it, in feed order: [totalTrades] is their number;
    [profitableTrades] is the number of profit/loss values greater than zero
    and [totalProfitLoss] is the sum of these values alone; [largestTrade] is
    the largest [amountIn] of all records and [largestSOLTrade] the largest
    [amountIn] of the records that sold wrapped SOL (zero when no such amount
    reaches zero, as when there is no record at all);
    with at least one trade [successRate] is [100 * profitableTrades /
    totalTrades] and [averageTradeSize] is [totalProfitLoss / totalTrades],
    and with no trade both are zero and nothing is divided. *)
Theorem statistics_of_extracted_trades
    (walletAddress : string) (transactions : list Tx.RawTransaction) :
  let stats := analyzeTransactions walletAddress transactions in
  let trades := extractedTrades walletAddress transactions in
  let n := inject_Z (Z.of_nat (totalTrades stats)) in
  let p := inject_Z (Z.of_nat (profitableTrades stats)) in
  tradeHistory stats = trades ∧
  totalTrades stats = length trades ∧
  profitableTrades stats = length (positiveProfits trades) ∧
  (∃ total, totalProfitLoss stats = Num total ∧
     (total == sumQ (positiveProfits trades))%Q ∧
     ((0 < totalTrades stats)%nat →
        ∃ rate average,
          successRate stats = Num rate ∧ (rate == 100 * p / n)%Q ∧
          averageTradeSize stats = Num average ∧ (average == total / n)%Q)) ∧
  (∃ m, largestTrade stats = Num m ∧ largestOf (amountsIn trades) m) ∧
  (∃ m, largestSOLTrade stats = Num m ∧ largestOf (amountsIn (solTrades trades)) m) ∧
  (totalTrades stats = 0%nat →
     successRate stats = zero ∧ averageTradeSize stats = zero).
Proof.
  intros stats trades n p.
  set (acc := fold_left record trades initialStats).
  assert (Hstats : stats = finalize acc).
  { unfold stats, analyzeTransactions, acc, trades. now rewrite fold_step_record. }
  destruct (finalize_keeps acc) as (Hh & Ht & Hp & Hs & Hl & Hls).
  assert (Hacc_t : totalTrades acc = length trades)
    by (unfold acc; now rewrite fold_record_total).
  assert (Hacc_p : profitableTrades acc = length (positiveProfits trades))
    by (unfold acc; now rewrite fold_record_profitable).
  destruct (fold_record_profit trades initialStats 0 eq_refl) as (total & Htotal & Hsum).
  fold acc in Htotal.
  destruct (fold_record_rates trades initialStats) as [Hrate Havg].
  fold acc in Hrate, Havg. simpl in Hrate, Havg.
  subst n p. rewrite Hstats, Hh, Ht, Hp, Hs, Hl, Hls.
  split; [unfold acc; now rewrite fold_record_history|].
  split; [exact Hacc_t|]. split; [exact Hacc_p|]. split; [|split; [|split]].
  - exists total. split; [exact Htotal|]. split; [rewrite Hsum; ring|].
    intros Hpos. unfold finalize.
    rewrite (proj2 (Nat.ltb_lt _ _) Hpos). simpl. rewrite Htotal.
    unfold ofNat, ofZ, div, mul, isZeroQ. simpl.
    assert (Hnz : (Z.of_nat (totalTrades acc) =? 0) = false)
      by (apply Z.eqb_neq; lia).
    rewrite Hnz. eexists _, _. split; [reflexivity|].
    split; [|split; [reflexivity|]].
    + rewrite !Qred_correct. unfold Qdiv.
      change (inject_Z 100) with 100%Q. ring.
    + now rewrite Qred_correct.
  - unfold acc. rewrite fold_record_largest, amountsIn_map.
    apply fold_larger_largestOf.
  - unfold acc. rewrite fold_record_largest_sol, amountsIn_map.
    apply fold_larger_largestOf.
  - intros Hzero. unfold finalize.
    rewrite (proj2 (Nat.ltb_ge _ _) (Nat.eq_le_incl _ _ Hzero)).
    split; assumption.
Qed.

Lemma statistics_witness :
  let stats := analyzeTransactions Samples.wallet
                 [Samples.txSwap; Samples.txOnlySent; Samples.txSolSale; Samples.txStrangers] in
  (0 < totalTrades stats)%nat ∧
  totalTrades stats = 3%nat ∧
  profitableTrades stats = 1%nat ∧
  ∃ total rate average,
    totalProfitLoss stats = Num total ∧ (total == 1 # 500)%Q ∧
    successRate stats = Num rate ∧ (rate == 100 * 1 / 3)%Q ∧
    averageTradeSize stats = Num average ∧ (average == total / 3)%Q.
Proof.
  intros stats.
  assert (H0 : (0 < totalTrades stats)%nat) by (vm_compute; lia).
  split; [exact H0|].
  destruct (statistics_of_extracted_trades Samples.wallet
              [Samples.txSwap; Samples.txOnlySent; Samples.txSolSale; Samples.txStrangers])
    as (_ & Hn & Hp & (total & Htotal & Hsum & Hrates) & _).
  split; [exact Hn|]. split; [exact Hp|].
  destruct (Hrates H0) as (rate & average & Hr & Hreq & Ha & Haeq).
  exists total, rate, average.
  split; [exact Htotal|]. split; [exact Hsum|].
  split; [exact Hr|]. split; [exact Hreq|]. split; [exact Ha | exact Haeq].
Defined.

End StatisticsClaims.

(* ===================================================================== *)
(** * Properties of the report *)
(* ===================================================================== *)

Section RenderingFacts.

Import WalletAnalyzer.

Lemma append_nonempty_r (a b : string) : b ≠ "" → a +:+ b ≠ "".
Proof. intros Hb. destruct a; [exact Hb | rewrite append_cons; discriminate]. Qed.

Lemma append_nonempty_l (a b : string) : a ≠ "" → a +:+ b ≠ "".
Proof. destruct a; [congruence | intros _; rewrite append_cons; discriminate]. Qed.

Lemma showZ_nonempty (z : Z) : showZ z ≠ "".
Proof. unfold showZ. destruct (N.to_uint (Z.to_N z)); cbn; discriminate. Qed.

Lemma repeat_nonempty (c : ascii) (n : nat) : n ≠ 0%nat → JsString.repeat c n ≠ "".
Proof. destruct n; [congruence | discriminate]. Qed.

Lemma layout_nonempty (ds : string) (n : Z) : 1 <= n → layout ds n ≠ "".
Proof.
  intros Hn. unfold layout.
  destruct ((Z.of_nat (String.length ds) <=? n) && (n <=? 21)).
  - destruct ds as [|c ds]; [|rewrite append_cons; discriminate].
    apply repeat_nonempty. simpl. lia.
  - destruct ((0 <? n) && (n <=? 21)).
    + apply append_nonempty_r. rewrite append_cons. discriminate.
    + destruct ((-6 <? n) && (n <=? 0)); [rewrite append_cons; discriminate|].
      destruct (Z.of_nat (String.length ds) =? 1);
        apply append_nonempty_r; rewrite append_cons; discriminate.
Qed.

Lemma showPositive_nonempty (q : Q) : Qle_bool 1 q = true → showPositive q ≠ "".
Proof.
  intros Hq. unfold showPositive, decimalExponent. rewrite Hq.
  assert (Hlen : 1 <= Z.of_nat (String.length (showZ (Qfloor q)))).
  { pose proof (showZ_nonempty (Qfloor q)) as Hne.
    destruct (showZ (Qfloor q)); [contradiction | simpl String.length; lia]. }
  destruct (10 ^ 17 <=? _); apply layout_nonempty; lia.
Qed.

(** [toFixed(6)] never prints the empty text, so that [|| 'Unknown'] only
    replaces an amount that is absent. *)
Lemma toFixed_six_nonempty (x : number) : toFixed 6 x ≠ "".
Proof.
  destruct x as [|q]; [discriminate|]. unfold toFixed.
  destruct (Qle_bool (inject_Z (10 ^ 21)) (Qabs q)) eqn:Hbig.
  - unfold toString. destruct (isZeroQ q); [discriminate|].
    destruct (ltQ q 0) eqn:Hneg; [rewrite append_cons; discriminate|].
    apply showPositive_nonempty.
    unfold ltQ in Hneg. apply negb_false_iff in Hneg.
    apply Qle_bool_iff in Hneg. apply Qle_bool_iff in Hbig.
    rewrite (Qabs_pos q Hneg) in Hbig. apply Qle_bool_iff.
    apply Qle_trans with (inject_Z (10 ^ 21)); [|exact Hbig].
    unfold Qle. simpl. lia.
  - cbv zeta. apply append_nonempty_r, append_nonempty_r.
    change (6 =? 0)%nat with false. cbv iota. rewrite append_cons. discriminate.
Qed.

Lemma numeral_app (a b : string) :
  ReportFormatter.numeral (a +:+ b) = ReportFormatter.numeral a && ReportFormatter.numeral b.
Proof.
  induction a as [|c a IH]; [reflexivity|].
  rewrite append_cons. simpl. now rewrite IH, andb_assoc.
Qed.

Lemma numeral_uint (d : Decimal.uint) :
  ReportFormatter.numeral (NilEmpty.string_of_uint d) = true.
Proof. induction d; simpl; auto. Qed.

Lemma numeral_showZ (z : Z) : ReportFormatter.numeral (showZ z) = true.
Proof.
  unfold showZ, NilZero.string_of_uint.
  destruct (N.to_uint (Z.to_N z)) eqn:E; try (rewrite <- E; apply numeral_uint).
  reflexivity.
Qed.

Lemma numeral_strip (s : string) :
  ReportFormatter.numeral s = true → ReportFormatter.numeral (stripTrailingZeros s) = true.
Proof.
  induction s as [|c s IH]; [reflexivity|]. simpl.
  intros H. apply andb_true_iff in H as [Hc Hs].
  destruct (Ascii.eqb c "0" && JsString.isEmpty (stripTrailingZeros s)); [reflexivity|].
  simpl. now rewrite Hc, IH.
Qed.

Lemma numeral_repeat (n : nat) : ReportFormatter.numeral (JsString.repeat "0" n) = true.
Proof. induction n; [reflexivity | exact IHn]. Qed.

Lemma numeral_take (n : nat) (s : string) :
  ReportFormatter.numeral s = true → ReportFormatter.numeral (JsString.take n s) = true.
Proof.
  revert s. induction n as [|n IH]; intros [|c s]; try reflexivity. simpl.
  intros H. apply andb_true_iff in H as [Hc Hs]. now rewrite Hc, IH.
Qed.

Lemma numeral_drop (n : nat) (s : string) :
  ReportFormatter.numeral s = true → ReportFormatter.numeral (JsString.drop n s) = true.
Proof.
  revert s. induction n as [|n IH]; intros [|c s]; try reflexivity; [auto|]. simpl.
  intros H. apply andb_true_iff in H as [Hc Hs]. now apply IH.
Qed.

Lemma numeral_layout (ds : string) (n : Z) :
  ReportFormatter.numeral ds = true → ReportFormatter.numeral (layout ds n) = true.
Proof.
  intros Hds. unfold layout.
  repeat match goal with
         | |- context [if ?b then _ else _] => destruct b
         end;
    rewrite ?numeral_app, ?Hds, ?numeral_repeat, ?numeral_take, ?numeral_drop,
            ?numeral_showZ by exact Hds;
    reflexivity.
Qed.

Lemma numeral_showPositive (q : Q) : ReportFormatter.numeral (showPositive q) = true.
Proof.
  unfold showPositive.
  destruct (10 ^ 17 <=? _); apply numeral_layout, numeral_strip, numeral_showZ.
Qed.

(** A finite number is printed with the characters of a numeral only. *)
Lemma numeral_toFixed (f : nat) (q : Q) : ReportFormatter.numeral (toFixed f (Num q)) = true.
Proof.
  unfold toFixed.
  destruct (Qle_bool (inject_Z (10 ^ 21)) (Qabs q)).
  - unfold toString. destruct (isZeroQ q); [reflexivity|].
    destruct (ltQ q 0); [rewrite numeral_app|]; now rewrite numeral_showPositive.
  - cbv zeta.
    assert (Hm : ReportFormatter.numeral
              (padStart (S f) (showZ (roundHalfUp (Qabs q * inject_Z (10 ^ Z.of_nat f))))) = true).
    { unfold padStart. now rewrite numeral_app, numeral_repeat, numeral_showZ. }
    rewrite !numeral_app, numeral_take by exact Hm.
    destruct (ltQ q 0), (f =? 0)%nat; try reflexivity;
      now rewrite numeral_app, numeral_drop by exact Hm.
Qed.

Lemma toFixed_not_unknown (f : nat) (q : Q) : toFixed f (Num q) ≠ "Unknown".
Proof.
  intros H. pose proof (numeral_toFixed f q) as Hn. rewrite H in Hn. discriminate Hn.
Qed.

Lemma formatAmount_rendered (a : option number) :
  formatAmount a = ReportFormatter.renderedAmount a.
Proof.
  destruct a as [x|]; [|reflexivity].
  unfold formatAmount, ReportFormatter.renderedAmount. simpl.
  pose proof (toFixed_six_nonempty x) as Hne.
  destruct (toFixed 6 x); [contradiction | reflexivity].
Qed.

Lemma find_cons {A : Type} (f : A → bool) (x : A) (l : list A) :
  List.find f (x :: l) = if f x then Some x else List.find f l.
Proof. reflexivity. Qed.

Lemma formatToken_rendered (m : option string) :
  formatToken m = ReportFormatter.renderedToken m.
Proof.
  destruct m as [m'|]; [|reflexivity].
  destruct m' as [|c cs]; [reflexivity|].
  unfold formatToken, ReportFormatter.renderedToken.
  change (JsString.isEmpty (String c cs)) with false.
  change (String c cs =? "")%string with false. cbv iota.
  generalize (String c cs). intros m'.
  unfold lookupToken, tokenMap. rewrite !find_cons. cbn [fst List.find].
  rewrite !(String.eqb_sym m').
  repeat match goal with
         | |- context [(?k =? m')%string] => destruct (k =? m')%string; [reflexivity|]
         end.
  reflexivity.
Qed.

Lemma orElse_rendered (s : option string) :
  orElse s "Unknown" = ReportFormatter.renderedSource s.
Proof. now destruct s as [[|c cs]|]. Qed.

Lemma formatTrade_rendered (toLocaleString : number → string) (trade : TradeInfo) :
  formatTrade toLocaleString trade = ReportFormatter.renderedTrade toLocaleString trade.
Proof.
  unfold formatTrade, ReportFormatter.renderedTrade.
  now rewrite !formatToken_rendered, !formatAmount_rendered, orElse_rendered.
Qed.

Lemma contains_refl (s : string) : JsString.contains s s.
Proof.
  exists EmptyString, EmptyString. induction s as [|c s IH]; [reflexivity|].
  change (String c s = String c (EmptyString +:+ s +:+ EmptyString)). now f_equal.
Qed.

Lemma contains_join (sep x : string) (l : list string) :
  x ∈ l → JsString.contains (JsString.join sep l) x.
Proof.
  induction l as [|y l IH]; intros Hin; [now apply elem_of_nil in Hin|].
  apply elem_of_cons in Hin as [-> | Hin].
  - destruct l; [apply contains_refl | apply contains_prefix].
  - destruct l as [|z l]; [now apply elem_of_nil in Hin|].
    change (JsString.join sep (y :: z :: l))
      with (y +:+ sep +:+ JsString.join sep (z :: l)).
    do 2 apply contains_app_r. now apply IH.
Qed.

End RenderingFacts.

Section ReportClaims.

Import WalletAnalyzer.

Variable toLocaleString : number → string.

Lemma report_has_wallet (stats : WalletStats) (walletAddress : string) :
  JsString.contains (formatReport toLocaleString stats walletAddress)
                    ("Wallet: " +:+ walletAddress).
Proof.
  unfold formatReport, reportHeader.
  apply contains_app_l. do 3 apply contains_app_r.
  eexists EmptyString, _. rewrite append_assoc. reflexivity.
Qed.

Lemma report_has_trades (stats : WalletStats) (walletAddress x : string) :
  x ∈ recentTrades toLocaleString stats →
  JsString.contains (formatReport toLocaleString stats walletAddress) x.
Proof.
  intros Hin. unfold formatReport.
  do 5 apply contains_app_r. apply contains_app_l. now apply contains_join.
Qed.

(** C9. For every statistics value and wallet address the report contains
    the address, after the label [Wallet: ]; it ends with the texts of the
    first five trades of [tradeHistory] at most, each at the position it has
    in the history; whenever the feed delivered, the report is this text and
    not the error text; with an empty history the list of trades is empty,
    and with no transaction at all the counts print as 0 and the rates as
    0.00 and 0.0000; a trade without amounts prints [Unknown] for them.

    The text of a listed trade is the one the design describes, built from
    the trade's own fields: its timestamp in milliseconds through the host's
    date printer, its two tokens by symbol or abbreviated mint, its two
    amounts at 6 decimals, and its exchange.  Each amount is rendered on its
    own: an absent one prints [Unknown] whether or not the other is present,
    and a present one prints its 6-decimal numeral, never [Unknown].  The two
    counts of the statistics are printed under their labels. *)
Theorem report_shows_wallet_and_recent_trades
    (stats : WalletStats) (walletAddress : string) :
  let text := formatReport toLocaleString stats walletAddress in
  let shown := recentTrades toLocaleString stats in
  JsString.contains text walletAddress ∧
  JsString.contains text ("Wallet: " +:+ walletAddress) ∧
  (∃ head, text = head +:+ JsString.join newline shown +:+ newline) ∧
  length shown = Nat.min 5 (length (tradeHistory stats)) ∧
  (∀ (i : nat) (trade : TradeInfo),
     tradeHistory stats !! i = Some trade → (i < 5)%nat →
     shown !! i = Some (formatTrade toLocaleString trade)) ∧
  (∀ transactions,
     generateEndOfDayReport toLocaleString (FeedData transactions) walletAddress
     = formatReport toLocaleString (analyzeTransactions walletAddress transactions)
                    walletAddress) ∧
  (tradeHistory stats = [] →
     shown = [] ∧
     text = reportHeader walletAddress +:+ reportFigures stats +:+ newline +:+
            "Recent Trades:" +:+ newline +:+ newline) ∧
  generateEndOfDayReport toLocaleString (FeedData []) walletAddress
  = "
=== Solana Wallet Trading Report ===
Wallet: " +:+ walletAddress +:+ "
Total Swaps: 0
Profitable Trades: 0
Success Rate: 0.00%
Total P/L: 0.0000 SOL
Average Trade Size: 0.0000 SOL
Largest SOL Trade: 0.0000 SOL

Recent Trades:

" ∧
  (∀ trade : TradeInfo,
     amountIn trade = None → amountOut trade = None →
     JsString.contains (formatTrade toLocaleString trade) "Amount: Unknown → Unknown") ∧
  shown = map (ReportFormatter.renderedTrade toLocaleString) (take 5 (tradeHistory stats)) ∧
  (∀ (i : nat) (trade : TradeInfo),
     tradeHistory stats !! i = Some trade → (i < 5)%nat →
     shown !! i = Some (ReportFormatter.renderedTrade toLocaleString trade) ∧
     JsString.contains text (ReportFormatter.renderedTrade toLocaleString trade)) ∧
  (∀ trade : TradeInfo,
     formatTrade toLocaleString trade
     = toLocaleString (mul (timestamp trade) (ofZ 1000)) +:+ newline +:+
       "   " +:+ ReportFormatter.renderedToken (tokenIn trade) +:+ " → " +:+
                 ReportFormatter.renderedToken (tokenOut trade) +:+ newline +:+
       "   Amount: " +:+ ReportFormatter.renderedAmount (amountIn trade) +:+ " → " +:+
                         ReportFormatter.renderedAmount (amountOut trade) +:+ newline +:+
       "   Source: " +:+ ReportFormatter.renderedSource (source trade) +:+ newline +:+
       "  ") ∧
  (∀ trade : TradeInfo,
     (amountIn trade = None →
        JsString.contains (formatTrade toLocaleString trade) "   Amount: Unknown → ") ∧
     (amountOut trade = None →
        JsString.contains (formatTrade toLocaleString trade)
                          (" → Unknown" +:+ newline +:+ "   Source: ")) ∧
     (∀ x, amountIn trade = Some x →
        toFixed 6 x ≠ "Unknown" ∧
        JsString.contains (formatTrade toLocaleString trade)
                          ("   Amount: " +:+ toFixed 6 x +:+ " → ")) ∧
     (∀ y, amountOut trade = Some y →
        toFixed 6 y ≠ "Unknown" ∧
        JsString.contains (formatTrade toLocaleString trade)
                          (" → " +:+ toFixed 6 y +:+ newline +:+ "   Source: "))) ∧
  JsString.contains text
    ("Total Swaps: " +:+ toString (ofNat (totalTrades stats)) +:+ newline +:+
     "Profitable Trades: " +:+ toString (ofNat (profitableTrades stats)) +:+ newline).
Proof.
  intros text shown.
  assert (Hshown : shown = map (ReportFormatter.renderedTrade toLocaleString)
                               (take 5 (tradeHistory stats))).
  { unfold shown, recentTrades. apply map_ext. intros t. apply formatTrade_rendered. }
  assert (Hat : ∀ (i : nat) (trade : TradeInfo),
             tradeHistory stats !! i = Some trade → (i < 5)%nat →
             shown !! i = Some (formatTrade toLocaleString trade)).
  { intros i trade Hi Hlt. unfold shown, recentTrades.
    change (map (formatTrade toLocaleString) (take 5 (tradeHistory stats)))
      with (formatTrade toLocaleString <$> take 5 (tradeHistory stats)).
    rewrite list_lookup_fmap, lookup_take_lt by exact Hlt. now rewrite Hi. }
  assert (Hamount : ∀ (a b : option number) (pre post : string),
             JsString.contains
               (pre +:+ "   Amount: " +:+ formatAmount a +:+ " → " +:+ formatAmount b +:+
                newline +:+ "   Source: " +:+ post)
               ("   Amount: " +:+ ReportFormatter.renderedAmount a +:+ " → ") ∧
             JsString.contains
               (pre +:+ "   Amount: " +:+ formatAmount a +:+ " → " +:+ formatAmount b +:+
                newline +:+ "   Source: " +:+ post)
               (" → " +:+ ReportFormatter.renderedAmount b +:+ newline +:+ "   Source: ")).
  { intros a b pre post. rewrite !formatAmount_rendered. split.
    - apply contains_app_r.
      exists EmptyString, (ReportFormatter.renderedAmount b +:+ newline +:+ "   Source: " +:+ post).
      change (EmptyString +:+ ?u) with u. now rewrite !append_assoc.
    - do 3 apply contains_app_r.
      exists EmptyString, post.
      change (EmptyString +:+ ?u) with u. now rewrite !append_assoc. }
  split.
  { destruct (report_has_wallet stats walletAddress) as (pre & post & H).
    exists (pre +:+ "Wallet: "), post. unfold text. rewrite H.
    now rewrite !append_assoc. }
  split; [apply report_has_wallet|].
  split.
  { unfold text, formatReport. fold shown.
    rewrite <- !append_assoc. rewrite (append_assoc _ (JsString.join newline shown)).
    eexists. reflexivity. }
  split.
  { unfold shown, recentTrades. now rewrite length_map, length_take. }
  split; [exact Hat|].
  split; [reflexivity|].
  split.
  { intros Hempty. unfold text, formatReport, shown, recentTrades.
    rewrite Hempty. split; reflexivity. }
  split.
  { unfold generateEndOfDayReport, analyzeWallet, formatReport, reportHeader.
    rewrite !append_assoc. vm_compute. reflexivity. }
  split.
  { intros trade Hin Hout. unfold formatTrade. rewrite Hin, Hout.
    do 7 apply contains_app_r.
    change (formatAmount None) with "Unknown".
    eexists "   ", _. reflexivity. }
  split; [exact Hshown|].
  split.
  { intros i trade Hi Hlt. pose proof (Hat i trade Hi Hlt) as Hi'.
    rewrite formatTrade_rendered in Hi'. split; [exact Hi'|].
    apply report_has_trades. fold shown. now apply list_elem_of_lookup_2 with i. }
  split.
  { intros trade. apply formatTrade_rendered. }
  split.
  { intros trade.
    assert (Hboth := Hamount (amountIn trade) (amountOut trade)
              (toLocaleString (mul (timestamp trade) (ofZ 1000)) +:+ newline +:+
               "   " +:+ formatToken (tokenIn trade) +:+ " → " +:+
               formatToken (tokenOut trade) +:+ newline)
              (orElse (source trade) "Unknown" +:+ newline +:+ "  ")).
    assert (Hshape :
              (toLocaleString (mul (timestamp trade) (ofZ 1000)) +:+ newline +:+
               "   " +:+ formatToken (tokenIn trade) +:+ " → " +:+
               formatToken (tokenOut trade) +:+ newline) +:+
              "   Amount: " +:+ formatAmount (amountIn trade) +:+ " → " +:+
              formatAmount (amountOut trade) +:+ newline +:+ "   Source: " +:+
              (orElse (source trade) "Unknown" +:+ newline +:+ "  ")
              = formatTrade toLocaleString trade).
    { unfold formatTrade. now rewrite !append_assoc. }
    rewrite Hshape in Hboth. destruct Hboth as [Hleft Hright].
    split; [intros Hin; now rewrite Hin in Hleft|].
    split; [intros Hout; now rewrite Hout in Hright|].
    split.
    - intros x Hx. rewrite Hx in Hleft. split; [|exact Hleft].
      destruct x as [|q]; [discriminate|]. apply toFixed_not_unknown.
    - intros y Hy. rewrite Hy in Hright. split; [|exact Hright].
      destruct y as [|q]; [discriminate|]. apply toFixed_not_unknown. }
  unfold text, formatReport, reportFigures.
  apply contains_app_r. apply contains_app_l.
  eexists EmptyString, _. change (EmptyString +:+ ?u) with u.
  rewrite !append_assoc. reflexivity.
Qed.

End ReportClaims.

Section ReportWitness.

Import WalletAnalyzer.

Lemma report_witness :
  let stats := analyzeTransactions Samples.wallet
                 [Samples.txSwap; Samples.txOnlySent; Samples.txSolSale; Samples.txStrangers] in
  let stats' := analyzeTransactions Samples.wallet Samples.reportFeed in
  ∃ trade : TradeInfo,
    tradeHistory stats !! 1%nat = Some trade ∧
    (1 < 5)%nat ∧
    recentTrades Samples.plainClock stats !! 1%nat
      = Some (formatTrade Samples.plainClock trade) ∧
    JsString.contains (formatReport Samples.plainClock stats Samples.wallet) Samples.wallet ∧
    tradeHistory initialStats = [] ∧
    recentTrades Samples.plainClock initialStats = [] ∧
    ∃ sold bought : TradeInfo,
      tradeHistory stats' !! 2%nat = Some sold ∧
      tradeHistory stats' !! 3%nat = Some bought ∧
      amountIn sold = Some (Num (5 # 2)) ∧ amountOut sold = None ∧
      amountIn bought = None ∧ amountOut bought = Some (Num 10) ∧
      recentTrades Samples.plainClock stats' !! 2%nat = Some "1700000300000
   USDC → Unknown
   Amount: 2.500000 → Unknown
   Source: RAYDIUM
  " ∧
      recentTrades Samples.plainClock stats' !! 3%nat = Some "1700000300000
   Unknown → DezX...B263
   Amount: Unknown → 10.000000
   Source: RAYDIUM
  " ∧
      JsString.contains (formatReport Samples.plainClock stats' Samples.wallet)
                        (ReportFormatter.renderedTrade Samples.plainClock sold) ∧
      JsString.contains (formatTrade Samples.plainClock sold)
                        ("   Amount: " +:+ "2.500000" +:+ " → ") ∧
      JsString.contains (formatTrade Samples.plainClock sold)
                        (" → Unknown" +:+ newline +:+ "   Source: ").
Proof.
  intros stats stats'.
  destruct (report_shows_wallet_and_recent_trades Samples.plainClock stats Samples.wallet)
    as (Hwallet & _ & _ & _ & Hat & _).
  destruct (report_shows_wallet_and_recent_trades Samples.plainClock initialStats Samples.wallet)
    as (_ & _ & _ & _ & _ & _ & Hempty & _).
  destruct (report_shows_wallet_and_recent_trades Samples.plainClock stats' Samples.wallet)
    as (_ & _ & _ & _ & _ & _ & _ & _ & _ & _ & Hrendered & _ & Hsides & _).
  destruct (tradeHistory stats !! 1%nat) as [trade|] eqn:E;
    [|vm_compute in E; discriminate].
  exists trade. split; [reflexivity|].
  assert (Hlt : (1 < 5)%nat) by lia.
  split; [exact Hlt|]. split; [exact (Hat 1%nat trade E Hlt)|].
  split; [exact Hwallet|]. split; [reflexivity|].
  split; [exact (proj1 (Hempty eq_refl))|].
  destruct (tradeHistory stats' !! 2%nat) as [sold|] eqn:E2;
    [|vm_compute in E2; discriminate].
  destruct (tradeHistory stats' !! 3%nat) as [bought|] eqn:E3;
    [|vm_compute in E3; discriminate].
  assert (H2 : (2 < 5)%nat) by lia.
  assert (H3 : (3 < 5)%nat) by lia.
  destruct (Hrendered 2%nat sold E2 H2) as [Hsold Hintext].
  destruct (Hrendered 3%nat bought E3 H3) as [Hbought _].
  destruct (Hsides sold) as (_ & Hout & Hin & _).
  vm_compute in E2. injection E2 as <-.
  vm_compute in E3. injection E3 as <-.
  eexists. eexists.
  split; [reflexivity|]. split; [reflexivity|].
  split; [reflexivity|]. split; [reflexivity|].
  split; [reflexivity|]. split; [reflexivity|].
  split; [refine (eq_trans Hsold _); vm_compute; reflexivity|].
  split; [refine (eq_trans Hbought _); vm_compute; reflexivity|].
  split; [exact Hintext|].
  split; [exact (proj2 (Hin _ eq_refl)) | exact (Hout eq_refl)].
Defined.

End ReportWitness.

(* ===================================================================== *)
(** * Further properties of the price server *)
(* ===================================================================== *)

Section NormalizationFacts.

Import PriceServer.

Lemma lowerChar_idem (c : ascii) :
  JsString.lowerChar (JsString.lowerChar c) = JsString.lowerChar c.
Proof. destruct c as [[] [] [] [] [] [] [] []]; reflexivity. Qed.

Lemma lowerChar_upperChar (c : ascii) :
  JsString.lowerChar (JsString.upperChar c) = JsString.lowerChar c.
Proof. destruct c as [[] [] [] [] [] [] [] []]; reflexivity. Qed.

Lemma lowerChar_space (c : ascii) :
  JsString.isWhiteSpace (JsString.lowerChar c) = JsString.isWhiteSpace c.
Proof. destruct c as [[] [] [] [] [] [] [] []]; reflexivity. Qed.

Lemma isEmpty_mapChars (f : ascii → ascii) (s : string) :
  JsString.isEmpty (JsString.mapChars f s) = JsString.isEmpty s.
Proof. now destruct s. Qed.

Lemma trimStart_lower (s : string) :
  JsString.trimStart (JsString.toLowerCase s) = JsString.toLowerCase (JsString.trimStart s).
Proof.
  unfold JsString.toLowerCase. induction s as [|c s IH]; [reflexivity|].
  simpl. rewrite lowerChar_space. now destruct (JsString.isWhiteSpace c).
Qed.

Lemma trimEnd_lower (s : string) :
  JsString.trimEnd (JsString.toLowerCase s) = JsString.toLowerCase (JsString.trimEnd s).
Proof.
  unfold JsString.toLowerCase. induction s as [|c s IH]; [reflexivity|].
  simpl. rewrite IH, isEmpty_mapChars, lowerChar_space.
  now destruct (JsString.isWhiteSpace c && JsString.isEmpty (JsString.trimEnd s)).
Qed.

Lemma trim_lower (s : string) :
  JsString.trim (JsString.toLowerCase s) = JsString.toLowerCase (JsString.trim s).
Proof. unfold JsString.trim. now rewrite trimStart_lower, trimEnd_lower. Qed.

Lemma toLowerCase_idem (s : string) :
  JsString.toLowerCase (JsString.toLowerCase s) = JsString.toLowerCase s.
Proof.
  unfold JsString.toLowerCase. induction s as [|c s IH]; [reflexivity|].
  simpl. now rewrite IH, lowerChar_idem.
Qed.

Lemma toLowerCase_upper (s : string) :
  JsString.toLowerCase (JsString.toUpperCase s) = JsString.toLowerCase s.
Proof.
  unfold JsString.toLowerCase, JsString.toUpperCase.
  induction s as [|c s IH]; [reflexivity|].
  simpl. now rewrite IH, lowerChar_upperChar.
Qed.

Lemma trimEnd_idem (s : string) :
  JsString.trimEnd (JsString.trimEnd s) = JsString.trimEnd s.
Proof.
  induction s as [|c s IH]; [reflexivity|]. simpl.
  destruct (JsString.isWhiteSpace c && JsString.isEmpty (JsString.trimEnd s)) eqn:E;
    [reflexivity|].
  simpl. rewrite IH. now rewrite E.
Qed.

Lemma trimStart_trimEnd_trimStart (s : string) :
  JsString.trimStart (JsString.trimEnd (JsString.trimStart s))
  = JsString.trimEnd (JsString.trimStart s).
Proof.
  induction s as [|c s IH]; [reflexivity|]. simpl.
  destruct (JsString.isWhiteSpace c) eqn:E; [exact IH|].
  simpl. rewrite E. simpl. now rewrite E.
Qed.

Lemma trim_idem (s : string) : JsString.trim (JsString.trim s) = JsString.trim s.
Proof.
  unfold JsString.trim. now rewrite trimStart_trimEnd_trimStart, trimEnd_idem.
Qed.

(** X1. The cache key is a normal form: normalizing twice changes nothing,
    and an id, the id with other letter case and the id with white space
    around it all have the same key. *)
Theorem normalizeId_is_canonical (cryptoId : string) :
  normalizeId (normalizeId cryptoId) = normalizeId cryptoId ∧
  normalizeId (JsString.trim cryptoId) = normalizeId cryptoId ∧
  normalizeId (JsString.toUpperCase cryptoId) = normalizeId cryptoId ∧
  normalizeId (JsString.toLowerCase cryptoId) = normalizeId cryptoId.
Proof.
  unfold normalizeId. repeat split.
  - rewrite (trim_lower (JsString.trim _)), trim_idem, (trim_lower cryptoId).
    now rewrite toLowerCase_idem.
  - now rewrite <- trim_lower, trim_idem.
  - now rewrite toLowerCase_upper.
  - now rewrite toLowerCase_idem.
Qed.

End NormalizationFacts.

Section ResolverFacts.

Import PriceServer.

Implicit Types (network : Provider → string → Z → Reply) (w : World).

(** Two inputs with the same key resolve alike: same world afterwards, same
    quote, and an error that differs only in the input it quotes. *)
Lemma same_key_same_outcome network (a b : string) w :
  normalizeId a = normalizeId b →
  snd (getCryptoPrice network a w) = snd (getCryptoPrice network b w) ∧
  match fst (getCryptoPrice network a w) with
  | Quote q => fst (getCryptoPrice network b w) = Quote q
  | Failure error =>
      error = notFound a ∧ fst (getCryptoPrice network b w) = Failure (notFound b)
  end.
Proof.
  intros H.
  unfold getCryptoPrice, bind, readCache, dateNow, remember, writeCache, axiosGet, ret.
  simpl. rewrite H. destruct (cacheHit _ _); [now split|].
  repeat (match goal with |- context [match validPrice ?r with _ => _ end] =>
            destruct (validPrice r) end; simpl); now split.
Qed.

(** X2. On a cache miss the first provider whose answer is a valid price
    decides: with a valid CoinGecko answer one request is made and CoinGecko's
    quote returned; with only CryptoCompare valid all three requests are made
    and CryptoCompare's quote returned.  The quote is stored under the
    normalized id, stamped with the instant its answer arrived. *)
Theorem first_valid_answer_wins network (cryptoId : string) w (f : PriceField) :
  let id := normalizeId cryptoId in
  let r1 := network CoinGecko id (clock w) in
  let r2 := network CoinCap id (clock w + latency r1) in
  let r3 := network CryptoCompare (symbolGuess id) (clock w + latency r1 + latency r2) in
  cacheHit (priceCache w !! id) (clock w) = None →
  (validPrice (result r1) = Some f →
     getCryptoPrice network cryptoId w =
     (Quote (coinGeckoQuote id f),
      {| priceCache := <[id := {| data := coinGeckoQuote id f;
                                  timestamp := clock w + latency r1 |}]> (priceCache w);
         clock := clock w + latency r1;
         requests := requests w ++ take 1 (providerChain id) |})) ∧
  (validPrice (result r1) = None → validPrice (result r2) = None →
   validPrice (result r3) = Some f →
     getCryptoPrice network cryptoId w =
     (Quote (cryptoCompareQuote id f),
      {| priceCache := <[id := {| data := cryptoCompareQuote id f;
                                  timestamp := clock w + latency r1 + latency r2 + latency r3 |}]>
                         (priceCache w);
         clock := clock w + latency r1 + latency r2 + latency r3;
         requests := requests w ++ providerChain id |})).
Proof.
  intros id r1 r2 r3 Hmiss. split.
  - intros H1.
    unfold getCryptoPrice, bind, readCache, dateNow, remember, writeCache, axiosGet, ret.
    simpl. fold id. rewrite Hmiss. fold r1. rewrite H1. reflexivity.
  - intros H1 H2 H3.
    unfold getCryptoPrice, bind, readCache, dateNow, remember, writeCache, axiosGet, ret.
    simpl. fold id. rewrite Hmiss. fold r1. rewrite H1. simpl. fold r2. rewrite H2. simpl.
    fold r3. rewrite H3. simpl. rewrite <- !app_assoc. reflexivity.
Qed.

Lemma first_valid_answer_witness :
  cacheHit (priceCache Samples.emptyWorld !! normalizeId "Bitcoin") 1000 = None ∧
  validPrice (result (Samples.geckoBitcoin CoinGecko "bitcoin" 1000))
    = Some (PNum (Num (128501 # 2))) ∧
  fst (getCryptoPrice Samples.geckoBitcoin "Bitcoin" Samples.emptyWorld)
    = Quote {| name := "Bitcoin"; symbol := "BTC"; price := Num (128501 # 2);
               currency := "USD"; source := "coingecko-api" |} ∧
  requests (snd (getCryptoPrice Samples.geckoBitcoin "Bitcoin" Samples.emptyWorld))
    = [ {| provider := CoinGecko; query := "bitcoin" |} ].
Proof.
  assert (H0 : cacheHit (priceCache Samples.emptyWorld !! normalizeId "Bitcoin") 1000 = None)
    by reflexivity.
  assert (H1 : validPrice (result (Samples.geckoBitcoin CoinGecko "bitcoin" 1000))
               = Some (PNum (Num (128501 # 2)))) by reflexivity.
  split; [exact H0|]. split; [exact H1|].
  destruct (first_valid_answer_wins Samples.geckoBitcoin "Bitcoin" Samples.emptyWorld
              (PNum (Num (128501 # 2))) H0) as [Hfirst _].
  rewrite (Hfirst H1). split; vm_compute; reflexivity.
Defined.

(** X3. A resolution leaves every other key of the cache alone, and changes
    its own key only by storing the quote it returns. *)
Theorem resolution_touches_only_its_key network (cryptoId : string) w :
  let w' := snd (getCryptoPrice network cryptoId w) in
  (∀ key, key ≠ normalizeId cryptoId → priceCache w' !! key = priceCache w !! key) ∧
  (priceCache w' = priceCache w ∨
   ∃ q, fst (getCryptoPrice network cryptoId w) = Quote q ∧
        priceCache w' = <[normalizeId cryptoId := {| data := q; timestamp := clock w' |}]>
                          (priceCache w)).
Proof.
  unfold getCryptoPrice, bind, readCache, dateNow, remember, writeCache, axiosGet, ret.
  simpl. destruct (cacheHit _ _); [simpl; split; [reflexivity | now left]|].
  repeat (match goal with |- context [match validPrice ?r with _ => _ end] =>
            destruct (validPrice r) end; simpl);
    (split; [intros key Hkey; now rewrite ?lookup_insert_ne by congruence|]);
    try (now left); right; eexists; split; reflexivity.
Qed.

Lemma resolution_touches_only_its_key_witness :
  priceCache (snd (getCryptoPrice Samples.geckoBitcoin "ethereum" Samples.afterBitcoin))
    !! "bitcoin"
  = priceCache Samples.afterBitcoin !! "bitcoin".
Proof.
  destruct (resolution_touches_only_its_key Samples.geckoBitcoin "ethereum"
              Samples.afterBitcoin) as [Hframe _].
  apply Hframe. discriminate.
Defined.

(** X4. The requests of one resolution are an initial part of the chain
    CoinGecko, CoinCap, CryptoCompare - each provider is asked at most once
    and never before its predecessors - none on a cache hit, and all three
    when the resolution fails. *)
Theorem requests_follow_provider_order network (cryptoId : string) w :
  let id := normalizeId cryptoId in
  let r := fst (getCryptoPrice network cryptoId w) in
  let w' := snd (getCryptoPrice network cryptoId w) in
  ∃ new rest,
    requests w' = requests w ++ new ∧
    providerChain id = new ++ rest ∧
    (cacheHit (priceCache w !! id) (clock w) ≠ None → new = []) ∧
    (cacheHit (priceCache w !! id) (clock w) = None → new ≠ []) ∧
    (∀ error, r = Failure error → rest = []).
Proof.
  unfold getCryptoPrice, bind, readCache, dateNow, remember, writeCache, axiosGet, ret.
  simpl. destruct (cacheHit _ _) eqn:Hhit.
  - exists [], (providerChain (normalizeId cryptoId)). simpl.
    rewrite app_nil_r. repeat split; try discriminate; try (intros; congruence).
  - match goal with |- context [match validPrice ?r with _ => _ end] =>
      destruct (validPrice r) end; simpl.
    { exists (take 1 (providerChain (normalizeId cryptoId))),
             (drop 1 (providerChain (normalizeId cryptoId))).
      repeat split; try discriminate; try (intros; congruence). }
    match goal with |- context [match validPrice ?r with _ => _ end] =>
      destruct (validPrice r) end; simpl.
    { exists (take 2 (providerChain (normalizeId cryptoId))),
             (drop 2 (providerChain (normalizeId cryptoId))).
      rewrite <- app_assoc. repeat split; try discriminate; try (intros; congruence). }
    exists (providerChain (normalizeId cryptoId)), [].
    match goal with |- context [match validPrice ?r with _ => _ end] =>
      destruct (validPrice r) end; simpl; rewrite <- !app_assoc;
      repeat split; try discriminate; try (intros; congruence).
Qed.

Lemma requests_follow_provider_order_witness :
  cacheHit (priceCache Samples.emptyWorld !! normalizeId "x-y") 1000 = None ∧
  fst (getCryptoPrice Samples.nobody "x-y" Samples.emptyWorld) = Failure (notFound "x-y") ∧
  requests (snd (getCryptoPrice Samples.nobody "x-y" Samples.emptyWorld))
    = [ {| provider := CoinGecko; query := "x-y" |};
        {| provider := CoinCap; query := "x-y" |};
        {| provider := CryptoCompare; query := "X" |} ].
Proof.
  assert (H0 : cacheHit (priceCache Samples.emptyWorld !! normalizeId "x-y") 1000 = None)
    by reflexivity.
  assert (H1 : fst (getCryptoPrice Samples.nobody "x-y" Samples.emptyWorld)
               = Failure (notFound "x-y")) by reflexivity.
  split; [exact H0|]. split; [exact H1|].
  destruct (requests_follow_provider_order Samples.nobody "x-y" Samples.emptyWorld)
    as (new & rest & Hreq & Hchain & _ & _ & Hfail).
  rewrite Hreq. rewrite (Hfail _ H1), app_nil_r in Hchain. now rewrite <- Hchain.
Defined.

(** X5. A resolution that returned a quote can be repeated at once: asked
    again in the world it left, whatever the network has become, it returns
    the same quote and leaves that world as it is - no request, no write. *)
Theorem successful_resolution_repeats network (cryptoId : string) w w1 (q : CryptoPrice)
    (network' : Provider → string → Z → Reply) :
  getCryptoPrice network cryptoId w = (Quote q, w1) →
  getCryptoPrice network' cryptoId w1 = (Quote q, w1).
Proof.
  intros H. apply getCryptoPrice_hit. revert H.
  unfold getCryptoPrice, bind, readCache, dateNow, remember, writeCache, axiosGet, ret.
  simpl. destruct (cacheHit _ _) eqn:Hhit.
  - now intros [= <- <-].
  - repeat (match goal with |- context [match validPrice ?r with _ => _ end] =>
              destruct (validPrice r) end; simpl);
      intros [= <- <-]; simpl; rewrite lookup_insert_eq; simpl;
      now rewrite Z.sub_diag.
Qed.

Lemma successful_resolution_repeats_witness :
  getCryptoPrice Samples.coinCapOnly " Bitcoin " Samples.emptyWorld
    = (Quote Samples.bitcoinQuote, Samples.afterBitcoin) ∧
  getCryptoPrice Samples.nobody " Bitcoin " Samples.afterBitcoin
    = (Quote Samples.bitcoinQuote, Samples.afterBitcoin).
Proof.
  assert (H1 : getCryptoPrice Samples.coinCapOnly " Bitcoin " Samples.emptyWorld
               = (Quote Samples.bitcoinQuote, Samples.afterBitcoin))
    by (vm_compute; reflexivity).
  split; [exact H1|].
  exact (successful_resolution_repeats _ _ _ _ _ Samples.nobody H1).
Defined.

End ResolverFacts.

Section BatchFacts.

Import PriceServer.

Implicit Types (network : Provider → string → Z → Reply) (w : World).

Lemma resolution_frame network (cryptoId key : string) w :
  key ≠ normalizeId cryptoId →
  priceCache (snd (getCryptoPrice network cryptoId w)) !! key = priceCache w !! key.
Proof.
  intros Hkey.
  unfold getCryptoPrice, bind, readCache, dateNow, remember, writeCache, axiosGet, ret.
  simpl. destruct (cacheHit _ _); [reflexivity|].
  repeat (match goal with |- context [match validPrice ?r with _ => _ end] =>
            destruct (validPrice r) end; simpl);
    now rewrite ?lookup_insert_ne by congruence.
Qed.

Lemma coinGeckoQuote_wellFormed (id : string) (f : PriceField) :
  wellFormed (coinGeckoQuote id f).
Proof.
  unfold coinGeckoQuote. destruct (nameAndSymbol id).
  split; [reflexivity | apply elem_of_cons; now left].
Qed.

Lemma coinCapQuote_wellFormed (body : Payload) (f : PriceField) :
  wellFormed (coinCapQuote body f).
Proof.
  split; [reflexivity|]. apply elem_of_cons. right. apply elem_of_cons. now left.
Qed.

Lemma cryptoCompareQuote_wellFormed (id : string) (f : PriceField) :
  wellFormed (cryptoCompareQuote id f).
Proof.
  split; [reflexivity|]. do 2 (apply elem_of_cons; right). apply elem_of_cons. now left.
Qed.

Lemma insert_wellFormed (cache : gmap string CacheEntry) (id : string) (e : CacheEntry) :
  cacheWellFormed cache → wellFormed (data e) → cacheWellFormed (<[id := e]> cache).
Proof.
  intros Hc He key e' Hlookup. destruct (decide (id = key)) as [-> | Hne].
  - rewrite lookup_insert_eq in Hlookup. now injection Hlookup as <-.
  - rewrite lookup_insert_ne in Hlookup by exact Hne. now apply (Hc key).
Qed.

Lemma resolution_wellFormed network (cryptoId : string) w :
  cacheWellFormed (priceCache w) →
  cacheWellFormed (priceCache (snd (getCryptoPrice network cryptoId w))) ∧
  ∀ q, fst (getCryptoPrice network cryptoId w) = Quote q → wellFormed q.
Proof.
  intros Hc.
  unfold getCryptoPrice, bind, readCache, dateNow, remember, writeCache, axiosGet, ret.
  simpl. destruct (cacheHit _ _) as [q0|] eqn:Hhit.
  - simpl. split; [exact Hc|]. intros q [= <-]. unfold cacheHit in Hhit.
    destruct (priceCache w !! normalizeId cryptoId) as [e|] eqn:He; [|discriminate].
    destruct (_ <? _); [|discriminate]. injection Hhit as <-. now apply (Hc _ _ He).
  - repeat (match goal with |- context [match validPrice ?r with _ => _ end] =>
              destruct (validPrice r) end; simpl);
      try (split; [apply insert_wellFormed; [exact Hc|]; simpl | intros q [= <-]];
           first [ apply coinGeckoQuote_wellFormed | apply coinCapQuote_wellFormed
                 | apply cryptoCompareQuote_wellFormed ]).
    split; [exact Hc | discriminate].
Qed.

(** X6. Every quote the server hands out or keeps is in US dollars and names
    one of the three providers as its source: starting from a cache of such
    quotes - the empty cache of a fresh server is one - a resolution returns
    only such a quote, and a resolution or a whole batch leaves such a cache
    behind. *)
Theorem quotes_stay_well_formed network (cryptoId : string) (ids : list string) w :
  cacheWellFormed ∅ ∧
  (cacheWellFormed (priceCache w) →
   cacheWellFormed (priceCache (snd (getCryptoPrice network cryptoId w))) ∧
   (∀ q, fst (getCryptoPrice network cryptoId w) = Quote q → wellFormed q) ∧
   cacheWellFormed (priceCache (snd (resolveEach network ids w)))).
Proof.
  split; [intros key e H; now rewrite lookup_empty in H|].
  intros Hc. destruct (resolution_wellFormed network cryptoId w Hc) as [H1 H2].
  split; [exact H1|]. split; [exact H2|].
  clear H1 H2. revert w Hc. induction ids as [|x ids IH]; intros w Hc; [exact Hc|].
  simpl. unfold bind, ret.
  destruct (resolution_wellFormed network x w Hc) as [H1 _].
  destruct (getCryptoPrice network x w) as [r w1]. simpl in H1.
  specialize (IH w1 H1). now destruct (resolveEach network ids w1).
Qed.

Lemma quotes_stay_well_formed_witness :
  cacheWellFormed (priceCache Samples.emptyWorld) ∧
  wellFormed Samples.bitcoinQuote.
Proof.
  destruct (quotes_stay_well_formed Samples.coinCapOnly " Bitcoin " [] Samples.emptyWorld)
    as [Hempty Hstep].
  split; [exact Hempty|].
  destruct (Hstep Hempty) as (_ & Hq & _). apply Hq. vm_compute. reflexivity.
Defined.

(** X7. A batch touches only the cache keys of its own ids: every key that is
    not the normalized form of one of them reads after the batch as it read
    before. *)
Theorem batch_touches_only_its_keys network (ids : list string) w (key : string) :
  key ∉ map normalizeId ids →
  priceCache (snd (resolveEach network ids w)) !! key = priceCache w !! key.
Proof.
  revert w. induction ids as [|x ids IH]; intros w Hkey; [reflexivity|].
  simpl in *. unfold bind, ret.
  apply not_elem_of_cons in Hkey as [Hx Hrest].
  pose proof (resolution_frame network x key w Hx) as Hframe.
  destruct (getCryptoPrice network x w) as [r w1]. simpl in Hframe.
  specialize (IH w1 Hrest). destruct (resolveEach network ids w1) as [ls w2].
  simpl in *. now rewrite IH.
Qed.

Lemma batch_touches_only_its_keys_witness :
  ("bitcoin" ∉ map normalizeId ["Ethereum"; " solana"]) ∧
  priceCache (snd (resolveEach Samples.coinCapOnly ["Ethereum"; " solana"]
                     Samples.afterBitcoin)) !! "bitcoin"
  = priceCache Samples.afterBitcoin !! "bitcoin".
Proof.
  assert (H : "bitcoin" ∉ map normalizeId ["Ethereum"; " solana"]).
  { intros Hin. apply elem_of_cons in Hin as [Hin | Hin]; [discriminate|].
    apply elem_of_cons in Hin as [Hin | Hin]; [discriminate|].
    now apply elem_of_nil in Hin. }
  split; [exact H|].
  exact (batch_touches_only_its_keys Samples.coinCapOnly _ Samples.afterBitcoin _ H).
Defined.

(** X8. When no provider gives a valid answer, a batch started on an empty
    cache answers every id with its error line, stores nothing, and costs
    exactly three requests per id. *)
Theorem outage_costs_three_requests_per_id network (ids : list string) w :
  (∀ p q t, validPrice (result (network p q t)) = None) →
  priceCache w = ∅ →
  let w' := snd (resolveEach network ids w) in
  fst (resolveEach network ids w)
    = map (fun id => id +:+ ": " +:+ notFound id) ids ∧
  priceCache w' = ∅ ∧
  length (requests w') = (length (requests w) + 3 * length ids)%nat.
Proof.
  intros Hdown. revert w. induction ids as [|x ids IH]; intros w Hempty; simpl.
  - repeat split; [exact Hempty | lia].
  - unfold bind, ret.
    assert (Hx : ∃ w1, getCryptoPrice network x w = (Failure (notFound x), w1) ∧
                       priceCache w1 = ∅ ∧
                       length (requests w1) = (length (requests w) + 3)%nat).
    { unfold getCryptoPrice, bind, readCache, dateNow, remember, writeCache, axiosGet, ret.
      simpl. rewrite Hempty, lookup_empty. simpl. rewrite !Hdown. simpl.
      eexists. split; [reflexivity|]. simpl. split; [exact Hempty|].
      rewrite !length_app. simpl. lia. }
    destruct Hx as (w1 & -> & Hc & Hlen).
    destruct (IH w1 Hc) as (Hlines & Hcache & Hreq).
    destruct (resolveEach network ids w1) as [ls w2]. simpl in *.
    rewrite Hlines. repeat split; [exact Hcache | lia].
Qed.

Lemma outage_witness :
  (∀ p q t, validPrice (result (Samples.nobody p q t)) = None) ∧
  priceCache Samples.emptyWorld = ∅ ∧
  length (requests (snd (resolveEach Samples.nobody ["a"; "b"] Samples.emptyWorld))) = 6%nat.
Proof.
  assert (H : ∀ p q t, validPrice (result (Samples.nobody p q t)) = None)
    by reflexivity.
  split; [exact H|]. split; [reflexivity|].
  destruct (outage_costs_three_requests_per_id Samples.nobody ["a"; "b"]
              Samples.emptyWorld H eq_refl) as (_ & _ & Hlen).
  exact Hlen.
Defined.

Lemma split_without_separator (c : ascii) (s : string) :
  JsString.count c s = 0%nat → JsString.split c s = [s].
Proof.
  induction s as [|d s IH]; [reflexivity|]. simpl.
  destruct (Ascii.eqb c d); [discriminate|]. simpl. intros H. now rewrite (IH H).
Qed.

(** X9. For an input without a comma the tool, the resource and the batch
    tool agree: they leave the same world, the resource returns the tool's
    text, and so does the batch when the id resolves; when it does not, the
    tool flags the error and quotes the input as given, while the batch
    prefixes the trimmed id and quotes the trimmed id. *)
Theorem single_id_handlers_agree network (cryptoIds : string) w :
  JsString.count "," cryptoIds = 0%nat →
  let tool := fst (getCryptoPriceTool network cryptoIds w) in
  let w1 := snd (getCryptoPriceTool network cryptoIds w) in
  let id := JsString.trim cryptoIds in
  cryptoPriceResource network cryptoIds w = (text tool, w1) ∧
  snd (getMultipleCryptoPrices network cryptoIds w) = w1 ∧
  (isError tool = false →
     fst (getMultipleCryptoPrices network cryptoIds w) = text tool) ∧
  (isError tool = true →
     text tool = notFound cryptoIds ∧
     fst (getMultipleCryptoPrices network cryptoIds w) = id +:+ ": " +:+ notFound id).
Proof.
  intros Hcomma tool w1 id.
  assert (Hkey : normalizeId cryptoIds = normalizeId id).
  { unfold id, normalizeId. now rewrite <- trim_lower, trim_idem. }
  destruct (same_key_same_outcome network cryptoIds id w Hkey) as [Hw Hr].
  subst tool w1.
  unfold getCryptoPriceTool, cryptoPriceResource, getMultipleCryptoPrices, splitIds.
  rewrite (split_without_separator _ _ Hcomma). simpl. fold id.
  unfold bind, ret.
  destruct (getCryptoPrice network cryptoIds w) as [r wa].
  destruct (getCryptoPrice network id w) as [r' wb]. simpl in *. subst wb.
  destruct r as [q | error]; simpl.
  - rewrite Hr. simpl. repeat split; try reflexivity; discriminate.
  - destruct Hr as [-> ->]. simpl. repeat split; try reflexivity; discriminate.
Qed.

Lemma single_id_handlers_agree_witness :
  JsString.count "," " Bitcoin " = 0%nat ∧
  isError (fst (getCryptoPriceTool Samples.coinCapOnly " Bitcoin " Samples.emptyWorld)) = false ∧
  fst (getMultipleCryptoPrices Samples.coinCapOnly " Bitcoin " Samples.emptyWorld)
    = "Bitcoin (BTC): $64250.46 USD [Source: coincap-api]" ∧
  isError (fst (getCryptoPriceTool Samples.nobody " x " Samples.emptyWorld)) = true ∧
  fst (getMultipleCryptoPrices Samples.nobody " x " Samples.emptyWorld)
    = "x: " +:+ notFound "x".
Proof.
  assert (H0 : JsString.count "," " Bitcoin " = 0%nat) by reflexivity.
  assert (H1 : isError (fst (getCryptoPriceTool Samples.coinCapOnly " Bitcoin "
                               Samples.emptyWorld)) = false) by reflexivity.
  assert (H2 : isError (fst (getCryptoPriceTool Samples.nobody " x "
                               Samples.emptyWorld)) = true) by reflexivity.
  split; [exact H0|]. split; [exact H1|].
  destruct (single_id_handlers_agree Samples.coinCapOnly " Bitcoin " Samples.emptyWorld H0)
    as (_ & _ & Hok & _).
  split; [rewrite (Hok H1); vm_compute; reflexivity|].
  split; [exact H2|].
  destruct (single_id_handlers_agree Samples.nobody " x " Samples.emptyWorld eq_refl)
    as (_ & _ & _ & Hfail).
  exact (proj2 (Hfail H2)).
Defined.

End BatchFacts.

(* ===================================================================== *)
(** * Further properties of the swap extractor *)
(* ===================================================================== *)

Section ExtractorExtras.

Import WalletAnalyzer.

Lemma boughtRawAmount_none (b : TokenTransfer) :
  boughtRawAmount b = None ↔
  tokenAmount b = AmountAbsent ∧
  (∀ r, rawTokenAmount b = Some r → rawAmount r = None ∨ rawAmount r = Some EmptyString).
Proof.
  unfold boughtRawAmount.
  destruct (rawTokenAmount b) as [r|]; [destruct (rawAmount r) as [[|c s]|] eqn:Hraw|];
    destruct (tokenAmount b); simpl; split;
    try discriminate; try (intros [? ?]; discriminate); intros H;
    try (split; [reflexivity|]; intros r' [= <-]; rewrite Hraw; now auto);
    try (split; [reflexivity|]; intros r' [=]);
    try reflexivity.
  all: destruct H as [_ H]; destruct (H r eq_refl) as [H' | H']; congruence.
Qed.

Lemma boughtAmount_none (b : TokenTransfer) :
  boughtAmount b = None ↔ boughtRawAmount b = None.
Proof.
  unfold boughtAmount, boughtScaled. now destruct (boughtRawAmount b).
Qed.

(** X10. When the extractor gives up.  With token transfers present it
    returns no record exactly when the first transfer received by the wallet
    has neither a non-empty raw amount nor a [tokenAmount] - the sold side
    does not matter.  Without token transfers it returns no record exactly
    when the wallet did not both send and receive native currency. *)
Theorem extraction_absent_iff (tx : Tx.RawTransaction) (walletAddress : string) :
  extractSwapInfo tx walletAddress = None ↔
  match Tx.tokenTransfers tx with
  | [] => solSent walletAddress (Tx.nativeTransfers tx) = [] ∨
          solReceived walletAddress (Tx.nativeTransfers tx) = []
  | _ :: _ =>
      ∃ b, head (tokensReceived walletAddress (Tx.tokenTransfers tx)) = Some b ∧
           tokenAmount b = AmountAbsent ∧
           (∀ r, rawTokenAmount b = Some r →
                 rawAmount r = None ∨ rawAmount r = Some EmptyString)
  end.
Proof.
  unfold extractSwapInfo. destruct (Tx.tokenTransfers tx) as [|t0 ts] eqn:Htts.
  - unfold fromNativeTransfers.
    destruct (solSent walletAddress (Tx.nativeTransfers tx));
      destruct (solReceived walletAddress (Tx.nativeTransfers tx));
      split; intros H; try discriminate; auto; now destruct H.
  - unfold fromTokenTransfers. rewrite Htts.
    destruct (head (tokensReceived walletAddress (t0 :: ts))) as [b|].
    + destruct (boughtAmount b) eqn:Hb.
      * split; [discriminate|]. intros (b' & [= <-] & Hrest).
        apply boughtRawAmount_none, boughtAmount_none in Hrest. congruence.
      * split; [|reflexivity]. intros _. exists b. split; [reflexivity|].
        now apply boughtRawAmount_none, boughtAmount_none.
    + split; [discriminate|]. now intros (b & [=] & _).
Qed.

Lemma extraction_absent_witness :
  extractSwapInfo Samples.txNoAmount Samples.wallet = None ∧
  head (tokensReceived Samples.wallet (Tx.tokenTransfers Samples.txNoAmount))
    = Some Samples.receivedNoAmount ∧
  extractSwapInfo Samples.txNativeSwap Samples.wallet ≠ None.
Proof.
  destruct (extraction_absent_iff Samples.txNoAmount Samples.wallet) as [_ Hback].
  destruct (extraction_absent_iff Samples.txNativeSwap Samples.wallet) as [Hto _].
  split; [|split; [reflexivity|]].
  - apply Hback. exists Samples.receivedNoAmount.
    split; [reflexivity|]. split; [reflexivity|]. intros r H. discriminate H.
  - intros Hnone. destruct (Hto Hnone) as [H | H]; discriminate H.
Defined.

Lemma orElse_nonempty (s : option string) (d : string) :
  d ≠ EmptyString → orElse s d ≠ EmptyString.
Proof.
  intros Hd. unfold orElse. destruct s as [[|c s]|]; simpl; [exact Hd | discriminate | exact Hd].
Qed.

(** X11. Every record the extractor returns is tagged [SWAP], carries the
    transaction's timestamp and signature and a source that is never empty
    ([Unknown] stands in for a missing or empty one); a token and its amount
    are present together or absent together, on the sold side and on the
    bought side. *)
Theorem extracted_record_shape
    (tx : Tx.RawTransaction) (walletAddress : string) (t : TradeInfo) :
  extractSwapInfo tx walletAddress = Some t →
  type t = "SWAP" ∧
  timestamp t = Tx.timestamp tx ∧
  signature t = Tx.signature tx ∧
  source t = Some (orElse (Tx.source tx) "Unknown") ∧
  orElse (Tx.source tx) "Unknown" ≠ "" ∧
  (tokenIn t = None ↔ amountIn t = None) ∧
  (tokenOut t = None ↔ amountOut t = None).
Proof.
  intros H. assert (Hsrc : orElse (Tx.source tx) "Unknown" ≠ "")
    by (apply orElse_nonempty; discriminate).
  unfold extractSwapInfo in H. destruct (Tx.tokenTransfers tx) as [|t0 ts].
  - unfold fromNativeTransfers in H.
    destruct (solSent walletAddress (Tx.nativeTransfers tx)); [discriminate|].
    destruct (solReceived walletAddress (Tx.nativeTransfers tx)); [discriminate|].
    injection H as <-. simpl. repeat split; try exact Hsrc; discriminate.
  - unfold fromTokenTransfers in H.
    destruct (head (tokensSent walletAddress (Tx.tokenTransfers tx))) as [a|];
      destruct (head (tokensReceived walletAddress (Tx.tokenTransfers tx))) as [b|];
      cbv beta iota zeta in H;
      try (destruct (boughtAmount b); [|discriminate H]);
      injection H as <-; simpl; repeat split; try exact Hsrc; try discriminate;
      reflexivity.
Qed.

Lemma extracted_record_shape_witness :
  extractSwapInfo Samples.txNativeSwap Samples.wallet
    = Some {| timestamp := ofZ 1700000500; type := "SWAP";
              tokenIn := Some "SOL"; tokenOut := Some "SOL";
              amountIn := Some (Num 2); amountOut := Some (Num (3 # 2));
              profitLoss := None; signature := "sig6"; source := Some "Unknown" |} ∧
  orElse (Tx.source Samples.txNativeSwap) "Unknown" ≠ "".
Proof.
  assert (H : extractSwapInfo Samples.txNativeSwap Samples.wallet
              = Some {| timestamp := ofZ 1700000500; type := "SWAP";
                        tokenIn := Some "SOL"; tokenOut := Some "SOL";
                        amountIn := Some (Num 2); amountOut := Some (Num (3 # 2));
                        profitLoss := None; signature := "sig6";
                        source := Some "Unknown" |})
    by (vm_compute; reflexivity).
  split; [exact H|].
  destruct (extracted_record_shape _ _ _ H) as (_ & _ & _ & _ & Hsrc & _).
  exact Hsrc.
Defined.

(** X12. A swap recognised from native transfers alone - [SOL] for [SOL],
    the amounts being the sums sent and received divided by 10^9 - never
    carries a profit/loss, whatever [tx.accountData] says: it never counts
    as profitable, and since its token is the symbol [SOL] and not the
    wrapped mint it never counts towards the largest SOL trade. *)
Theorem native_swap_is_never_profitable
    (tx : Tx.RawTransaction) (walletAddress : string) (t : TradeInfo) :
  Tx.tokenTransfers tx = [] →
  extractSwapInfo tx walletAddress = Some t →
  tokenIn t = Some "SOL" ∧ tokenOut t = Some "SOL" ∧
  amountIn t = Some (div (sumAmounts (solSent walletAddress (Tx.nativeTransfers tx)))
                         (ofZ (10 ^ 9))) ∧
  amountOut t = Some (div (sumAmounts (solReceived walletAddress (Tx.nativeTransfers tx)))
                          (ofZ (10 ^ 9))) ∧
  profitLoss t = None ∧
  isProfitable t = false ∧
  isSolTrade t = false.
Proof.
  intros Htts H. unfold extractSwapInfo, fromNativeTransfers in H. rewrite Htts in H.
  destruct (solSent walletAddress (Tx.nativeTransfers tx)); [discriminate|].
  destruct (solReceived walletAddress (Tx.nativeTransfers tx)); [discriminate|].
  injection H as <-. repeat split.
Qed.

Lemma native_swap_witness :
  Tx.tokenTransfers Samples.txNativeSwap = [] ∧
  option_map isProfitable (extractSwapInfo Samples.txNativeSwap Samples.wallet) = Some false ∧
  profitableTrades (analyzeTransactions Samples.wallet [Samples.txNativeSwap]) = 0%nat ∧
  largestSOLTrade (analyzeTransactions Samples.wallet [Samples.txNativeSwap]) = zero ∧
  largestTrade (analyzeTransactions Samples.wallet [Samples.txNativeSwap]) = Num 2.
Proof.
  assert (H0 : Tx.tokenTransfers Samples.txNativeSwap = []) by reflexivity.
  split; [exact H0|].
  destruct (extractSwapInfo Samples.txNativeSwap Samples.wallet) as [t|] eqn:E;
    [|vm_compute in E; discriminate].
  destruct (native_swap_is_never_profitable _ _ _ H0 E) as (_ & _ & _ & _ & _ & Hp & _).
  split; [simpl; now rewrite Hp|].
  repeat split.
Defined.

End ExtractorExtras.

Section HeuristicExtras.

Import WalletAnalyzer.

Lemma Qred_div_pos (x c : Q) : (0 < x)%Q → (0 < c)%Q → (0 < Qred (x / c))%Q.
Proof.
  intros Hx Hc. rewrite Qred_correct. apply Qlt_shift_div_l; [exact Hc|].
  now rewrite Qmult_0_l.
Qed.

(** Whether the profit/loss picked by the heuristic is greater than zero. *)
Lemma profitHeuristic_positive (d : AccountData) (tIn tOut : option string) :
  truthy (profitHeuristic d tIn tOut) && gt (profitHeuristic d tIn tOut) zero
  = gt (nativeBalanceChange d) zero
    || (bool_decide (tOut = Some WRAPPED_SOL) && negb (bool_decide (tIn = Some WRAPPED_SOL))).
Proof.
  unfold profitHeuristic. destruct (gt (nativeBalanceChange d) zero) eqn:Hgt.
  - destruct (nativeBalanceChange d) as [|x]; [discriminate|]. simpl in Hgt.
    apply ltQ_true in Hgt.
    assert (Hpos : ltQ 0 (Qred (x / inject_Z 1000000000)) = true)
      by (apply ltQ_true, Qred_div_pos; [exact Hgt | reflexivity]).
    unfold LAMPORTS_PER_SOL, ofZ, div.
    change (isZeroQ (inject_Z 1000000000)) with false. cbv iota.
    change (gt (Num (Qred (x / inject_Z 1000000000))) zero)
      with (ltQ 0 (Qred (x / inject_Z 1000000000))).
    now rewrite Hpos, (positive_is_truthy _ Hpos).
  - now destruct (bool_decide (tOut = Some WRAPPED_SOL) &&
                  negb (bool_decide (tIn = Some WRAPPED_SOL))).
Qed.

Lemma token_record_profit (tx : Tx.RawTransaction) (walletAddress : string) (t : TradeInfo) :
  Tx.tokenTransfers tx ≠ [] →
  extractSwapInfo tx walletAddress = Some t →
  profitLoss t = option_map (fun d => profitHeuristic d (tokenIn t) (tokenOut t))
                            (walletAccountData walletAddress (Tx.accountData tx)).
Proof.
  intros Hne H. unfold extractSwapInfo in H.
  destruct (Tx.tokenTransfers tx) as [|t0 ts] eqn:Htts; [contradiction|].
  unfold fromTokenTransfers in H. rewrite Htts in H.
  destruct (head (tokensReceived walletAddress (t0 :: ts))) as [b|];
    cbv beta iota zeta in H;
    try (destruct (boughtAmount b); [|discriminate H]);
    now injection H as <-.
Qed.

(** X13. Which swaps count as profitable.  A record of the token-transfer
    path is counted as profitable exactly when [tx.accountData] has an entry
    for the wallet and either that entry's native balance change is greater
    than zero, or the wallet bought wrapped SOL with another token. *)
Theorem profitable_iff_balance_rose_or_sold_for_sol
    (tx : Tx.RawTransaction) (walletAddress : string) (t : TradeInfo) :
  Tx.tokenTransfers tx ≠ [] →
  extractSwapInfo tx walletAddress = Some t →
  (isProfitable t = true ↔
   ∃ d, walletAccountData walletAddress (Tx.accountData tx) = Some d ∧
        (gt (nativeBalanceChange d) zero = true ∨
         (tokenOut t = Some WRAPPED_SOL ∧ tokenIn t ≠ Some WRAPPED_SOL))).
Proof.
  intros Hne H. unfold isProfitable. rewrite (token_record_profit _ _ _ Hne H).
  destruct (walletAccountData walletAddress (Tx.accountData tx)) as [d|]; simpl.
  - rewrite profitHeuristic_positive. rewrite orb_true_iff, andb_true_iff.
    rewrite bool_decide_eq_true, negb_true_iff, bool_decide_eq_false.
    split.
    + intros Hcase. exists d. split; [reflexivity | exact Hcase].
    + now intros (d' & [= <-] & Hcase).
  - split; [discriminate|]. now intros (d & [=] & _).
Qed.

Lemma profitable_iff_witness :
  Tx.tokenTransfers Samples.txSolSale ≠ [] ∧
  option_map isProfitable (extractSwapInfo Samples.txSolSale Samples.wallet) = Some true ∧
  option_map isProfitable (extractSwapInfo Samples.txSwap Samples.wallet) = Some false.
Proof.
  assert (H0 : Tx.tokenTransfers Samples.txSolSale ≠ []) by discriminate.
  split; [exact H0|].
  destruct (extractSwapInfo Samples.txSolSale Samples.wallet) as [t|] eqn:E;
    [|vm_compute in E; discriminate].
  split; [|reflexivity]. simpl. f_equal.
  apply (profitable_iff_balance_rose_or_sold_for_sol _ _ _ H0 E).
  eexists. split; [reflexivity|]. left. reflexivity.
Defined.

(** X14. Only the first leg on each side is read: once the wallet has a sent
    and a received transfer in the list, token transfers appended to the list
    do not change the record. *)
Theorem later_legs_are_ignored
    (tx : Tx.RawTransaction) (walletAddress : string) (legs extra : list TokenTransfer) :
  tokensSent walletAddress legs ≠ [] →
  tokensReceived walletAddress legs ≠ [] →
  extractSwapInfo (withTokenTransfers tx (legs ++ extra)) walletAddress
  = extractSwapInfo (withTokenTransfers tx legs) walletAddress.
Proof.
  intros Hs Hr. unfold extractSwapInfo, fromTokenTransfers. simpl.
  unfold tokensSent, tokensReceived in *. rewrite !List.filter_app.
  destruct (List.filter _ legs) as [|s ss] eqn:Es; [contradiction|].
  destruct (List.filter (fun t => isWallet walletAddress (toUserAccount t)) legs)
    as [|r rs] eqn:Er; [contradiction|].
  destruct legs as [|l0 legs']; [discriminate|]. reflexivity.
Qed.

Lemma later_legs_witness :
  tokensSent Samples.wallet [Samples.soldUsdc; Samples.boughtBonk] ≠ [] ∧
  tokensReceived Samples.wallet [Samples.soldUsdc; Samples.boughtBonk] ≠ [] ∧
  extractSwapInfo
    (withTokenTransfers Samples.txSwap
       ([Samples.soldUsdc; Samples.boughtBonk] ++ [Samples.receivedNoAmount; Samples.receivedTen]))
    Samples.wallet
  = extractSwapInfo Samples.txSwap Samples.wallet.
Proof.
  assert (H1 : tokensSent Samples.wallet [Samples.soldUsdc; Samples.boughtBonk] ≠ [])
    by discriminate.
  assert (H2 : tokensReceived Samples.wallet [Samples.soldUsdc; Samples.boughtBonk] ≠ [])
    by discriminate.
  split; [exact H1|]. split; [exact H2|].
  exact (later_legs_are_ignored Samples.txSwap Samples.wallet _ _ H1 H2).
Defined.

Lemma pow10_nonzero (d : Z) : ∃ q, pow10 d = Num q ∧ isZeroQ q = false.
Proof.
  unfold pow10. eexists. split; [reflexivity|].
  destruct (isZeroQ _) eqn:E; [|reflexivity].
  apply isZeroQ_true in E. rewrite Qred_correct in E.
  exfalso. revert E. apply Qpower_not_0. discriminate.
Qed.

Lemma zero_div (q : Q) : isZeroQ q = false → div (Num 0) (Num q) = Num 0.
Proof.
  intros H. unfold div. rewrite H. reflexivity.
Qed.

(** X15. A sold transfer whose [rawTokenAmount] object is present but has no
    value (missing or empty) gets the amount 0 for every number of decimals,
    also when a [tokenAmount] is given next to it: the presence of the object
    decides the branch. *)
Theorem sold_raw_object_without_value_is_zero (t : TokenTransfer) (r : RawTokenAmount) :
  rawTokenAmount t = Some r →
  rawAmount r = None ∨ rawAmount r = Some "" →
  soldAmount t = Num 0.
Proof.
  intros Hr Hraw. unfold soldAmount. rewrite Hr.
  assert (Hzero : parseFloat (orElse (rawAmount r) "0") = Num 0)
    by (destruct Hraw as [-> | ->]; reflexivity).
  rewrite Hzero. destruct (pow10_nonzero (decimalsOr6 (decimals r))) as (q & -> & Hq).
  now apply zero_div.
Qed.

Lemma sold_raw_object_witness :
  rawTokenAmount Samples.soldWithoutRawValue = Some {| decimals := Some 6; rawAmount := None |} ∧
  tokenAmount Samples.soldWithoutRawValue = AmountNumber (Num 7) ∧
  soldAmount Samples.soldWithoutRawValue = Num 0.
Proof.
  assert (H : rawTokenAmount Samples.soldWithoutRawValue
              = Some {| decimals := Some 6; rawAmount := None |}) by reflexivity.
  split; [exact H|]. split; [reflexivity|].
  exact (sold_raw_object_without_value_is_zero _ _ H (or_introl eq_refl)).
Defined.

(** X16. The sanity check never raises an amount.  It returns amounts up to
    a million, and every amount of the exempt mint, as they are; for another
    mint an amount above a million comes out a millionth of it, which is
    still above a million when the amount exceeds 10^12. *)
Theorem clamp_never_raises (mintAddress : string) (x : Q) :
  ∃ y, clamp mintAddress (Num x) = Num y ∧
       (y <= x)%Q ∧
       ((x <= 1000000)%Q ∨ mintAddress = CLAMP_EXEMPT_MINT → y = x) ∧
       ((1000000 < x)%Q → mintAddress ≠ CLAMP_EXEMPT_MINT →
          (y == x / 1000000)%Q ∧ ((y <= 1000000)%Q ↔ (x <= 1000000 * 1000000)%Q)).
Proof.
  unfold clamp.
  change (gt (Num x) (ofZ 1000000)) with (ltQ 1000000 x).
  destruct (ltQ 1000000 x) eqn:Hgt.
  - apply ltQ_true in Hgt.
    destruct (String.eqb mintAddress CLAMP_EXEMPT_MINT) eqn:Hm; simpl.
    + apply String.eqb_eq in Hm. exists x. split; [reflexivity|].
      split; [apply Qle_refl|]. split; [reflexivity|]. contradiction.
    + apply String.eqb_neq in Hm.
      exists (Qred (x / inject_Z 1000000)). split; [reflexivity|].
      assert (Hy : (Qred (x / inject_Z 1000000) == x / 1000000)%Q)
        by apply Qred_correct.
      assert (Hx : (0 < x)%Q) by (eapply Qlt_trans; [|exact Hgt]; reflexivity).
      split.
      { rewrite Hy. apply Qle_shift_div_r; [reflexivity|].
        rewrite <- (Qmult_1_r x) at 1. apply Qmult_le_l; [exact Hx | discriminate]. }
      split.
      { intros [Hle | Heq]; [|contradiction].
        exfalso. exact (Qlt_not_le _ _ Hgt Hle). }
      intros _ _. split; [exact Hy|]. rewrite Hy. split; intros H.
      * apply (Qmult_le_compat_r _ _ 1000000) in H; [|discriminate].
        rewrite Qmult_comm in H. rewrite Qmult_div_r in H; [exact H | discriminate].
      * apply Qle_shift_div_r; [reflexivity | exact H].
  - apply ltQ_false in Hgt. simpl. exists x. split; [reflexivity|].
    split; [apply Qle_refl|]. split; [reflexivity|].
    intros Hlt. exfalso. exact (Qlt_not_le _ _ Hlt Hgt).
Qed.

Lemma clamp_never_raises_witness :
  (1000000 < 2500000)%Q ∧
  Samples.BONK ≠ CLAMP_EXEMPT_MINT ∧
  clamp Samples.BONK (Num 2500000) = Num (5 # 2) ∧
  clamp CLAMP_EXEMPT_MINT (Num 2500000) = Num 2500000.
Proof.
  assert (H1 : (1000000 < 2500000)%Q) by reflexivity.
  assert (H2 : Samples.BONK ≠ CLAMP_EXEMPT_MINT) by discriminate.
  split; [exact H1|]. split; [exact H2|].
  destruct (clamp_never_raises CLAMP_EXEMPT_MINT 2500000) as (y & Hy & _ & Hsame & _).
  split; [reflexivity|].
  rewrite Hy. f_equal. apply Hsame. now right.
Defined.

End HeuristicExtras.

(* ===================================================================== *)
(** * Further properties of the statistics and the report *)
(* ===================================================================== *)

Section StatisticsExtras.

Import WalletAnalyzer.

Lemma analyze_as_fold (walletAddress : string) (transactions : list Tx.RawTransaction) :
  analyzeTransactions walletAddress transactions
  = finalize (fold_left record (extractedTrades walletAddress transactions) initialStats).
Proof. unfold analyzeTransactions. now rewrite fold_step_record. Qed.

Lemma extractedTrades_app (walletAddress : string) (l1 l2 : list Tx.RawTransaction) :
  extractedTrades walletAddress (l1 ++ l2)
  = extractedTrades walletAddress l1 ++ extractedTrades walletAddress l2.
Proof. unfold extractedTrades. apply omap_app. Qed.

Lemma positiveProfits_app (l1 l2 : list TradeInfo) :
  positiveProfits (l1 ++ l2) = positiveProfits l1 ++ positiveProfits l2.
Proof. unfold positiveProfits. apply omap_app. Qed.

Lemma omap_step {A B : Type} (f : A → option B) (x : A) (l : list A) :
  omap f (x :: l) = match f x with Some y => y :: omap f l | None => omap f l end.
Proof. reflexivity. Qed.

Lemma positiveProfits_length (trades : list TradeInfo) :
  (length (positiveProfits trades) <= length trades)%nat.
Proof.
  induction trades as [|t ts IH]; [reflexivity|].
  unfold positiveProfits in *. rewrite omap_step.
  destruct (profitLoss t) as [[|x]|]; simpl; try lia.
  destruct (ltQ 0 x); simpl; lia.
Qed.

Lemma positiveProfits_positive (trades : list TradeInfo) (x : Q) :
  In x (positiveProfits trades) → (0 < x)%Q.
Proof.
  induction trades as [|t ts IH]; [intros []|].
  unfold positiveProfits in *. rewrite omap_step.
  destruct (profitLoss t) as [[|y]|]; simpl; try exact IH.
  destruct (ltQ 0 y) eqn:E; [|exact IH].
  intros [<- | H]; [now apply ltQ_true | now apply IH].
Qed.

Lemma sumQ_nonneg (l : list Q) : (∀ x, In x l → (0 < x)%Q) → (0 <= sumQ l)%Q.
Proof.
  induction l as [|x l IH]; intros H; [apply Qle_refl|].
  unfold sumQ in *. simpl.
  assert (H0 : (0 + 0 <= x + fold_right Qplus 0 l)%Q).
  { apply Qplus_le_compat.
    - apply Qlt_le_weak, H. now left.
    - apply IH. intros y Hy. apply H. now right. }
  exact H0.
Qed.

Lemma nat_ratio_bounds (p n : nat) :
  (p <= n)%nat → (0 < n)%nat →
  (0 <= inject_Z (Z.of_nat p) / inject_Z (Z.of_nat n) <= 1)%Q.
Proof.
  intros Hpn Hn.
  assert (Hn' : (0 < inject_Z (Z.of_nat n))%Q)
    by (change 0%Q with (inject_Z 0); rewrite <- Zlt_Qlt; lia).
  split.
  - apply Qle_shift_div_l; [exact Hn'|]. rewrite Qmult_0_l.
    change 0%Q with (inject_Z 0). rewrite <- Zle_Qle. lia.
  - apply Qle_shift_div_r; [exact Hn'|]. rewrite Qmult_1_l.
    rewrite <- Zle_Qle. lia.
Qed.

(** X17. The figures are consistent with each other for every feed: the
    history has [totalTrades] entries, of which at most that many are
    profitable; the total profit/loss is never negative, the success rate
    lies between 0 and 100, and the "average trade size" lies between 0 and
    the total profit/loss. *)
Theorem statistics_are_consistent
    (walletAddress : string) (transactions : list Tx.RawTransaction) :
  let stats := analyzeTransactions walletAddress transactions in
  length (tradeHistory stats) = totalTrades stats ∧
  (profitableTrades stats <= totalTrades stats)%nat ∧
  ∃ total rate average,
    totalProfitLoss stats = Num total ∧
    successRate stats = Num rate ∧
    averageTradeSize stats = Num average ∧
    (0 <= total)%Q ∧ (0 <= rate <= 100)%Q ∧ (0 <= average <= total)%Q.
Proof.
  intros stats. unfold stats. rewrite analyze_as_fold.
  set (trades := extractedTrades walletAddress transactions).
  set (acc := fold_left record trades initialStats).
  destruct (finalize_keeps acc) as (Hh & Ht & Hp & Hs & _ & _).
  assert (Hacc_h : tradeHistory acc = trades)
    by (unfold acc; now rewrite fold_record_history).
  assert (Hacc_t : totalTrades acc = length trades)
    by (unfold acc; now rewrite fold_record_total).
  assert (Hacc_p : profitableTrades acc = length (positiveProfits trades))
    by (unfold acc; now rewrite fold_record_profitable).
  pose proof (positiveProfits_length trades) as Hle.
  destruct (fold_record_profit trades initialStats 0 eq_refl) as (total & Htotal & Hsum).
  fold acc in Htotal.
  destruct (fold_record_rates trades initialStats) as [Hrate Havg].
  fold acc in Hrate, Havg. simpl in Hrate, Havg.
  assert (Htot0 : (0 <= total)%Q).
  { rewrite Hsum, Qplus_0_l. apply sumQ_nonneg, positiveProfits_positive. }
  rewrite Hh, Ht, Hp, Hs.
  split; [now rewrite Hacc_h, Hacc_t|]. split; [lia|].
  exists total. unfold finalize.
  destruct (0 <? totalTrades acc)%nat eqn:Hpos.
  - apply Nat.ltb_lt in Hpos. simpl. rewrite Htotal.
    unfold ofNat, ofZ, div, mul, isZeroQ. simpl.
    assert (Hnz : (Z.of_nat (totalTrades acc) =? 0) = false)
      by (apply Z.eqb_neq; lia).
    rewrite Hnz. eexists _, _. split; [reflexivity|]. split; [reflexivity|].
    split; [reflexivity|]. split; [exact Htot0|].
    assert (Hn : (0 < inject_Z (Z.of_nat (totalTrades acc)))%Q)
      by (change 0%Q with (inject_Z 0); rewrite <- Zlt_Qlt; lia).
    destruct (nat_ratio_bounds (profitableTrades acc) (totalTrades acc)) as [Hr0 Hr1];
      [lia | exact Hpos |].
    split; [|split].
    + rewrite !Qred_correct. split.
      * apply Qmult_le_0_compat; [exact Hr0 | discriminate].
      * apply (Qle_trans _ (1 * inject_Z 100));
          [apply Qmult_le_compat_r; [exact Hr1 | discriminate] | discriminate].
    + rewrite Qred_correct. apply Qle_shift_div_l; [exact Hn|].
      now rewrite Qmult_0_l.
    + rewrite Qred_correct. apply Qle_shift_div_r; [exact Hn|].
      apply (Qle_trans _ (total * 1)); [rewrite Qmult_1_r; apply Qle_refl|].
      rewrite (Qmult_comm total 1), (Qmult_comm total (inject_Z _)).
      apply Qmult_le_compat_r; [|exact Htot0].
      change 1%Q with (inject_Z 1). rewrite <- Zle_Qle. lia.
  - apply Nat.ltb_ge in Hpos.
    assert (Hnone : positiveProfits trades = []).
    { destruct (positiveProfits trades); [reflexivity|]. simpl in *. lia. }
    exists 0%Q, 0%Q. split; [exact Htotal|]. split; [exact Hrate|].
    split; [exact Havg|]. split; [exact Htot0|].
    split; [split; discriminate|]. split; [apply Qle_refl | exact Htot0].
Qed.

Lemma amountsIn_sol_included (trades : list TradeInfo) (a : Q) :
  In a (amountsIn (solTrades trades)) → In a (amountsIn trades).
Proof.
  induction trades as [|t ts IH]; [intros []|].
  unfold amountsIn, solTrades in *. rewrite omap_step. simpl List.filter.
  destruct (bool_decide (tokenIn t = Some WRAPPED_SOL)).
  - rewrite omap_step.
    destruct (finite (amountIn t)); [intros [<- | H]; [now left | right; now apply IH]|].
    exact IH.
  - intros H. destruct (finite (amountIn t)); [right|]; now apply IH.
Qed.

(** X18. The largest SOL trade never exceeds the largest trade, and neither
    is negative. *)
Theorem largest_sol_trade_is_bounded
    (walletAddress : string) (transactions : list Tx.RawTransaction) :
  let stats := analyzeTransactions walletAddress transactions in
  ∃ sol all,
    largestSOLTrade stats = Num sol ∧ largestTrade stats = Num all ∧
    (0 <= sol)%Q ∧ (sol <= all)%Q.
Proof.
  intros stats. unfold stats. rewrite analyze_as_fold.
  set (trades := extractedTrades walletAddress transactions).
  destruct (finalize_keeps (fold_left record trades initialStats))
    as (_ & _ & _ & _ & Hl & Hls).
  rewrite Hl, Hls, fold_record_largest, fold_record_largest_sol.
  destruct (fold_larger (map amountIn (solTrades trades)) 0 (Qle_refl _))
    as (sol & Hsol & Hsol0 & _ & Hsol_in).
  destruct (fold_larger (map amountIn trades) 0 (Qle_refl _))
    as (all & Hall & Hall0 & Hall_bound & _).
  exists sol, all. split; [exact Hsol|]. split; [exact Hall|].
  split; [exact Hsol0|].
  destruct Hsol_in as [-> | Hin]; [exact Hall0|].
  apply Hall_bound. rewrite <- amountsIn_map in *. now apply amountsIn_sol_included.
Qed.

Lemma fold_record_app_history (l1 l2 : list TradeInfo) :
  tradeHistory (fold_left record (l1 ++ l2) initialStats)
  = tradeHistory (fold_left record l1 initialStats)
    ++ tradeHistory (fold_left record l2 initialStats).
Proof. rewrite !fold_record_history. reflexivity. Qed.

(** X19. Transactions that are not tagged [SWAP] leave the statistics alone,
    wherever they stand in the feed, and feeds compose: the history of two
    feeds put end to end is the two histories put end to end, and the
    counts add up. *)
Theorem statistics_compose
    (walletAddress : string) (l1 l2 : list Tx.RawTransaction) (tx : Tx.RawTransaction) :
  let analyze := analyzeTransactions walletAddress in
  (Tx.type tx ≠ "SWAP" → analyze (l1 ++ tx :: l2) = analyze (l1 ++ l2)) ∧
  tradeHistory (analyze (l1 ++ l2)) = tradeHistory (analyze l1) ++ tradeHistory (analyze l2) ∧
  totalTrades (analyze (l1 ++ l2)) = (totalTrades (analyze l1) + totalTrades (analyze l2))%nat ∧
  profitableTrades (analyze (l1 ++ l2))
    = (profitableTrades (analyze l1) + profitableTrades (analyze l2))%nat.
Proof.
  intros analyze. split.
  - intros Htype. unfold analyze, analyzeTransactions. rewrite !fold_left_app. simpl.
    unfold step at 2. apply String.eqb_neq in Htype. now rewrite Htype.
  - unfold analyze. rewrite !analyze_as_fold.
    repeat match goal with |- context [finalize ?s] =>
      let H := fresh in
      pose proof (finalize_keeps s) as H; destruct H as (-> & -> & -> & _)
    end.
    rewrite extractedTrades_app, !fold_record_history, !fold_record_total,
      !fold_record_profitable, positiveProfits_app, !length_app. simpl.
    repeat split; lia.
Qed.

Lemma statistics_compose_witness :
  Tx.type Samples.txTransfer ≠ "SWAP" ∧
  analyzeTransactions Samples.wallet ([Samples.txSwap] ++ Samples.txTransfer :: [Samples.txSolSale])
  = analyzeTransactions Samples.wallet ([Samples.txSwap] ++ [Samples.txSolSale]) ∧
  totalTrades (analyzeTransactions Samples.wallet ([Samples.txSwap] ++ [Samples.txSolSale]))
  = 2%nat.
Proof.
  assert (H : Tx.type Samples.txTransfer ≠ "SWAP") by discriminate.
  split; [exact H|].
  destruct (statistics_compose Samples.wallet [Samples.txSwap] [Samples.txSolSale]
              Samples.txTransfer) as (Hskip & _ & Htotal & _).
  split; [exact (Hskip H)|]. rewrite Htotal. reflexivity.
Defined.

End StatisticsExtras.

Section ReportExtras.

Import WalletAnalyzer.

Variable toLocaleString : number → string.

(** X20. From feed to report: the trades the report lists are the first five
    records extracted from the feed, in feed order, each printed on its own;
    once five swaps have been extracted, nothing that follows in the feed
    changes the list.  The counts above the list still cover the whole
    feed. *)
Theorem report_lists_first_five_swaps
    (walletAddress : string) (transactions more : list Tx.RawTransaction) :
  let trades := extractedTrades walletAddress transactions in
  recentTrades toLocaleString (analyzeTransactions walletAddress transactions)
    = map (formatTrade toLocaleString) (take 5 trades) ∧
  totalTrades (analyzeTransactions walletAddress transactions) = length trades ∧
  ((5 <= length trades)%nat →
     recentTrades toLocaleString (analyzeTransactions walletAddress (transactions ++ more))
     = recentTrades toLocaleString (analyzeTransactions walletAddress transactions)).
Proof.
  intros trades.
  assert (Hhist : ∀ l, tradeHistory (analyzeTransactions walletAddress l)
                       = extractedTrades walletAddress l).
  { intros l. rewrite analyze_as_fold.
    destruct (finalize_keeps (fold_left record (extractedTrades walletAddress l) initialStats))
      as (-> & _). now rewrite fold_record_history. }
  unfold recentTrades. rewrite !Hhist. split; [reflexivity|]. split.
  - rewrite analyze_as_fold. fold trades.
    destruct (finalize_keeps (fold_left record trades initialStats)) as (_ & -> & _).
    now rewrite fold_record_total.
  - intros Hfive. rewrite extractedTrades_app. fold trades.
    now rewrite take_app_le by exact Hfive.
Qed.

End ReportExtras.

Section ReportExtrasWitness.

Import WalletAnalyzer.

Lemma report_lists_first_five_witness :
  let feed := [Samples.txSolSale; Samples.txSwap; Samples.txStrangers;
               Samples.txNativeSwap; Samples.txTransfer; Samples.txReceivedTen] in
  (5 <= length (extractedTrades Samples.wallet feed))%nat ∧
  recentTrades Samples.plainClock
    (analyzeTransactions Samples.wallet (feed ++ [Samples.txSwap; Samples.txSwap]))
  = recentTrades Samples.plainClock (analyzeTransactions Samples.wallet feed) ∧
  totalTrades (analyzeTransactions Samples.wallet (feed ++ [Samples.txSwap; Samples.txSwap]))
  = 7%nat.
Proof.
  intros feed.
  assert (H : (5 <= length (extractedTrades Samples.wallet feed))%nat)
    by (vm_compute; lia).
  split; [exact H|].
  destruct (report_lists_first_five_swaps Samples.plainClock Samples.wallet feed
              [Samples.txSwap; Samples.txSwap]) as (_ & _ & Hsame).
  split; [exact (Hsame H) | reflexivity].
Defined.

End ReportExtrasWitness.

(* ===================================================================== *)
(** * Properties of the earlier price server *)
(* ===================================================================== *)

Section LegacyFacts.

Import LegacyServer.

Variable jsonParse : string → option JsonLd.

Lemma scan_app_skip (junk rest : list string) :
  (∀ s, s ∈ junk → exchangeRate jsonParse s = None) →
  scan jsonParse (junk ++ rest) = scan jsonParse rest.
Proof.
  induction junk as [|s junk IH]; intros H; [reflexivity|].
  simpl. rewrite (H s) by (apply elem_of_cons; now left).
  apply IH. intros s' Hs'. apply H. apply elem_of_cons. now right.
Qed.

(** X21. The first exchange-rate script of the page decides.  Scripts that
    are empty, that do not parse, or that describe something else are passed
    over wherever they stand: in front of the first exchange-rate script they
    change nothing, and what follows that script is never read. *)
Theorem first_exchange_rate_script_decides
    (cryptoId : string) (junk rest : list string) (content : string) (data : JsonLd) :
  (∀ s, s ∈ junk → exchangeRate jsonParse s = None) →
  exchangeRate jsonParse content = Some data →
  fetchCryptoPrice jsonParse cryptoId (PageFulfilled 200 (junk ++ content :: rest))
  = Found (priceOf data).
Proof.
  intros Hjunk Hdata. unfold fetchCryptoPrice. simpl.
  rewrite (scan_app_skip junk _ Hjunk). simpl. now rewrite Hdata.
Qed.

Lemma scan_first (scripts : list string) (p : Price) :
  scan jsonParse scripts = Some p →
  ∃ junk content rest data,
    scripts = junk ++ content :: rest ∧
    (∀ s, s ∈ junk → exchangeRate jsonParse s = None) ∧
    exchangeRate jsonParse content = Some data ∧
    p = priceOf data.
Proof.
  induction scripts as [|s scripts IH]; simpl; [discriminate|].
  destruct (exchangeRate jsonParse s) as [data|] eqn:Hx.
  - intros [= <-]. exists [], s, scripts, data.
    split; [reflexivity|]. split; [|split; [exact Hx | reflexivity]].
    intros s' Hs'. now apply elem_of_nil in Hs'.
  - intros Hp. destruct (IH Hp) as (junk & content & rest & data & -> & Hjunk & Hc & ->).
    exists (s :: junk), content, rest, data.
    split; [reflexivity|]. split; [|split; [exact Hc | reflexivity]].
    intros s' Hs'. apply elem_of_cons in Hs' as [-> | Hs']; [exact Hx | now apply Hjunk].
Qed.

(** X22. What the scraper never returns: a price that is [NaN] or a currency
    that is empty.  The quote returned is read from the first exchange-rate
    script of the page: its name and symbol are the script's [name] and
    [currency]; its price is the script's rate if that is a number other than
    zero, and 0 if the rate is missing, zero or [NaN]; its currency is the
    script's price currency if that is a non-empty text, and [USD] if it is
    missing or empty.  The scraper reports an error exactly when the request
    was rejected, the status is not 200, or the page has no exchange-rate
    script, and the error names the coin. *)
Theorem scraped_price_has_defaults (cryptoId : string) (page : Page) :
  match fetchCryptoPrice jsonParse cryptoId page with
  | Found p =>
      price p ≠ NaN ∧ currency p ≠ "" ∧
      (∃ scripts, page = PageFulfilled 200 scripts ∧
                  ∃ s, s ∈ scripts ∧ exchangeRate jsonParse s ≠ None) ∧
      ∃ junk content rest data,
        page = PageFulfilled 200 (junk ++ content :: rest) ∧
        (∀ s, s ∈ junk → exchangeRate jsonParse s = None) ∧
        exchangeRate jsonParse content = Some data ∧
        name p = ldName data ∧
        symbol p = ldCurrency data ∧
        (∀ q, ratePrice data = Some (Num q) → ¬ (q == 0)%Q → price p = Num q) ∧
        (∀ q, ratePrice data = Some (Num q) → (q == 0)%Q → price p = Num 0) ∧
        (ratePrice data = Some NaN → price p = Num 0) ∧
        (ratePrice data = None → price p = Num 0) ∧
        (∀ c, ratePriceCurrency data = Some c → c ≠ "" → currency p = c) ∧
        (ratePriceCurrency data = Some "" → currency p = "USD") ∧
        (ratePriceCurrency data = None → currency p = "USD")
  | NotFound error =>
      JsString.contains error cryptoId ∧
      match page with
      | PageRejected _ => True
      | PageFulfilled status scripts =>
          status ≠ 200 ∨ ∀ s, s ∈ scripts → exchangeRate jsonParse s = None
      end
  end.
Proof.
  destruct page as [error | status scripts]; simpl.
  { split; [|exact I]. apply contains_app_r, contains_prefix. }
  destruct (status =? 200) eqn:Hs; simpl.
  2:{ split; [apply contains_app_r, contains_prefix|]. left. now apply Z.eqb_neq. }
  apply Z.eqb_eq in Hs. subst status.
  destruct (scan jsonParse scripts) as [p|] eqn:Hscan.
  - destruct (scan_first scripts p Hscan)
      as (junk & content & rest & data & -> & Hjunk & Hc & ->).
    split.
    { unfold priceOf, priceOr0. simpl.
      destruct (ratePrice data) as [[|x]|]; simpl; try discriminate.
      destruct (negb (isZeroQ x)); discriminate. }
    split.
    { simpl. destruct (ratePriceCurrency data) as [[|c cs]|]; discriminate. }
    split.
    { eexists. split; [reflexivity|]. exists content. split; [|congruence].
      apply elem_of_app. right. apply elem_of_cons. now left. }
    exists junk, content, rest, data.
    split; [reflexivity|]. split; [exact Hjunk|]. split; [exact Hc|].
    split; [reflexivity|]. split; [reflexivity|].
    unfold priceOf, priceOr0, truthy, isZeroQ. simpl.
    split.
    { intros q -> Hq. destruct (Qnum q =? 0) eqn:E; [|reflexivity].
      exfalso. apply Hq. apply Z.eqb_eq in E. unfold Qeq. simpl. lia. }
    split.
    { intros q -> Hq. destruct (Qnum q =? 0) eqn:E; [reflexivity|].
      exfalso. apply Z.eqb_neq in E. apply E. unfold Qeq in Hq. simpl in Hq. lia. }
    split; [now intros ->|]. split; [now intros ->|].
    split.
    { intros c -> Hne. simpl. destruct c; [contradiction | reflexivity]. }
    split; now intros ->.
  - split; [apply contains_app_r, contains_refl|]. right.
    induction scripts as [|s scripts IH]; [intros s Hs; now apply elem_of_nil in Hs|].
    simpl in Hscan. destruct (exchangeRate jsonParse s) eqn:Hx; [discriminate|].
    intros s' Hs'. apply elem_of_cons in Hs' as [-> | Hs']; [exact Hx | now apply IH].
Qed.

End LegacyFacts.

Section LegacyWitness.

Import LegacyServer.

Lemma first_exchange_rate_script_witness :
  (∀ s, s ∈ [""; "org"; "{broken"] → exchangeRate Samples.twoTexts s = None) ∧
  fetchCryptoPrice Samples.twoTexts "bitcoin"
    (PageFulfilled 200 ([""; "org"; "{broken"] ++ "rate" :: ["org"; "rate"]))
  = Found {| name := "Bitcoin"; symbol := "BTC"; price := ofZ 0; currency := "USD" |}.
Proof.
  assert (Hjunk : ∀ s, s ∈ [""; "org"; "{broken"] → exchangeRate Samples.twoTexts s = None).
  { intros s Hs. repeat (apply elem_of_cons in Hs as [-> | Hs]; [reflexivity|]).
    now apply elem_of_nil in Hs. }
  split; [exact Hjunk|].
  exact (first_exchange_rate_script_decides Samples.twoTexts "bitcoin" _ ["org"; "rate"]
           "rate" _ Hjunk eq_refl).
Defined.

Lemma scraped_price_defaults_witness :
  (∃ p, fetchCryptoPrice Samples.twoTexts "bitcoin" (PageFulfilled 200 ["org"; "rate"]) = Found p ∧
        name p = "Bitcoin" ∧ symbol p = "BTC" ∧ price p = Num 0 ∧ currency p = "USD") ∧
  (∃ p, fetchCryptoPrice Samples.pricedText "bitcoin" (PageFulfilled 200 ["rate"]) = Found p ∧
        price p = Num (130001 # 2) ∧ currency p = "EUR") ∧
  (∃ error, fetchCryptoPrice Samples.twoTexts "bitcoin" (PageFulfilled 200 ["org"]) = NotFound error ∧
            JsString.contains error "bitcoin").
Proof.
  split; [|split].
  - pose proof (scraped_price_has_defaults Samples.twoTexts "bitcoin"
                  (PageFulfilled 200 ["org"; "rate"])) as H.
    destruct (fetchCryptoPrice Samples.twoTexts "bitcoin" (PageFulfilled 200 ["org"; "rate"]))
      as [p|error] eqn:E; [|vm_compute in E; discriminate].
    exists p. split; [reflexivity|].
    destruct H as (_ & _ & _ & junk & content & rest & data & Hpage & _ & Hx &
                   Hname & Hsymbol & _ & _ & _ & Hprice & _ & Hcurrency & _).
    injection Hpage as Hl.
    destruct junk as [|j [|j' junk]]; simpl in Hl.
    + injection Hl as <- _. vm_compute in Hx. discriminate.
    + injection Hl as _ <- _. vm_compute in Hx. injection Hx as <-.
      split; [exact Hname|]. split; [exact Hsymbol|].
      split; [exact (Hprice eq_refl) | exact (Hcurrency eq_refl)].
    + injection Hl as _ _ Hl. destruct junk; discriminate.
  - pose proof (scraped_price_has_defaults Samples.pricedText "bitcoin"
                  (PageFulfilled 200 ["rate"])) as H.
    destruct (fetchCryptoPrice Samples.pricedText "bitcoin" (PageFulfilled 200 ["rate"]))
      as [p|error] eqn:E; [|vm_compute in E; discriminate].
    exists p. split; [reflexivity|].
    destruct H as (_ & _ & _ & junk & content & rest & data & Hpage & _ & Hx &
                   _ & _ & Hprice & _ & _ & _ & Hcurrency & _).
    injection Hpage as Hl.
    destruct junk as [|j junk]; simpl in Hl.
    + injection Hl as <- _. vm_compute in Hx. injection Hx as <-.
      split; [apply (Hprice _ eq_refl); discriminate | apply (Hcurrency _ eq_refl); discriminate].
    + injection Hl as _ Hl. destruct junk; discriminate.
  - pose proof (scraped_price_has_defaults Samples.twoTexts "bitcoin"
                  (PageFulfilled 200 ["org"])) as H.
    destruct (fetchCryptoPrice Samples.twoTexts "bitcoin" (PageFulfilled 200 ["org"]))
      as [p|error] eqn:E; [vm_compute in E; discriminate|].
    exists error. split; [reflexivity | exact (proj1 H)].
Defined.

End LegacyWitness.
